(** * cnvCP500EUCJP2UTF8: fixed-length EBCDIC/JEF records to delimited text

    A shallow embedding of [cnvCP500EUCJP2UTF8.py] and the properties of its
    schema parser, picture analyser, field decoders, record loop and main
    program.

    Conventions of the embedding:
    - a Python [str] is the list of its code points ([list N]);
    - a Python [bytes] is a [list byte];
    - a Python [int] is a [Z];
    - a [dict] with [str] keys is a [gmap];
    - a caught [ValueError] is [None] of an [option];
    - an exception that leaves the function it is raised in is [Raise] of
      the type [raises], with its message;
    - the attributes of [self] that [process] assigns are the fields of a
      record that is threaded through explicitly.

    The builtins follow the language reference: integers and strings are
    unbounded, and the limits of an interpreter (memory, the longest string
    [int] converts) are not part of the model.  Two exceptions that data
    can cause and that the program does not catch where they are raised
    are modelled as CPython raises them: the [OverflowError] of [chr] and
    the [UnicodeEncodeError] of writing a surrogate to the DAT file. *)

From Stdlib Require Import ZArith NArith List Lia.
From Stdlib.Strings Require Import String Ascii Byte.
From Stdlib Require Import DecimalString.
From stdpp Require Import base option list gmap.

Local Open Scope N_scope.

(** ** Python strings and the builtins the program calls *)

Abbreviation pystr := (list N) (only parsing).
Abbreviation bytes := (list byte) (only parsing).

(** A literal of the source, as a list of code points (ASCII literals only). *)
Definition py (s : string) : pystr :=
  List.map N_of_ascii (list_ascii_of_string s).

(** The part of the Unicode character database that Python consults for
    characters outside ASCII: [str.upper], the decimal value used by [int]
    and by [\d], and [str.isdigit].  It belongs to the Python runtime, not
    to the program, so the development is parametric in it. *)
Class UnicodeDB := {
  ucd_upper : N → pystr;
  ucd_decimal : N → option N;
  ucd_isdigit : N → bool
}.

(** [str.isspace] on one character: the code points Python treats as
    white space. *)
Definition py_isspace (c : N) : bool :=
  ((0x09 <=? c) && (c <=? 0x0D)) || ((0x1C <=? c) && (c <=? 0x20))
  || (c =? 0x85) || (c =? 0xA0) || (c =? 0x1680)
  || ((0x2000 <=? c) && (c <=? 0x200A))
  || (c =? 0x2028) || (c =? 0x2029) || (c =? 0x202F) || (c =? 0x205F)
  || (c =? 0x3000).

Fixpoint dropwhile {A} (p : A → bool) (l : list A) : list A :=
  match l with
  | [] => []
  | x :: l' => if p x then dropwhile p l' else l
  end.

Fixpoint takewhile {A} (p : A → bool) (l : list A) : list A :=
  match l with
  | [] => []
  | x :: l' => if p x then x :: takewhile p l' else []
  end.

(** [s.lstrip()], [s.rstrip()], [s.strip()] *)
Definition py_lstrip (s : pystr) : pystr := dropwhile py_isspace s.
Definition py_rstrip (s : pystr) : pystr := rev (dropwhile py_isspace (rev s)).
Definition py_strip (s : pystr) : pystr := py_rstrip (py_lstrip s).

(** [s.lstrip('0')] *)
Definition py_lstrip_zero (s : pystr) : pystr := dropwhile (N.eqb 0x30) s.

(** [c * n] for a one-character string [c] and an [int] [n] *)
Definition py_repeat (c : N) (n : Z) : pystr := replicate (Z.to_nat n) c.

(** [str(n)] for a non-negative [int] *)
Definition py_str (n : N) : pystr :=
  py (NilEmpty.string_of_uint (N.to_uint n)).

(** [s[:k]] and [s[k:]] for [0 <= k] *)
Definition py_prefix {A} (k : Z) (s : list A) : list A := take (Z.to_nat k) s.
Definition py_suffix {A} (k : Z) (s : list A) : list A := drop (Z.to_nat k) s.

(** [s[lo:hi]], with Python's treatment of negative and out-of-range
    bounds *)
Definition slice_index (len i : Z) : Z :=
  if (i <? 0)%Z then Z.max 0 (i + len) else Z.min i len.

Definition py_slice {A} (s : list A) (lo hi : Z) : list A :=
  let n := Z.of_nat (length s) in
  take (Z.to_nat (slice_index n hi - slice_index n lo)) (drop (Z.to_nat (slice_index n lo)) s).

(** [len(s)] *)
Definition py_len {A} (s : list A) : Z := Z.of_nat (length s).

(** [s.split(sep)] for a one-character separator *)
Fixpoint py_split (sep : N) (s : pystr) : list pystr :=
  match s with
  | [] => [[]]
  | c :: s' =>
      if c =? sep then [] :: py_split sep s'
      else match py_split sep s' with
           | [] => [[c]]
           | p :: ps => (c :: p) :: ps
           end
  end.

(** [sep.join(parts)] for a one-character separator *)
Fixpoint py_join (sep : N) (parts : list pystr) : pystr :=
  match parts with
  | [] => []
  | [p] => p
  | p :: ps => p ++ sep :: py_join sep ps
  end.

(** [s.startswith(p)] *)
Fixpoint py_startswith {A} (eqb : A → A → bool) (p s : list A) : bool :=
  match p, s with
  | [], _ => true
  | _ :: _, [] => false
  | a :: p', b :: s' => eqb a b && py_startswith eqb p' s'
  end.

(** [sub in s] *)
Fixpoint py_in (sub s : pystr) : bool :=
  py_startswith N.eqb sub s
  || match s with
     | [] => false
     | _ :: s' => py_in sub s'
     end.

(** [s.replace(old, new)] for a non-empty [old]: occurrences are replaced
    left to right and do not overlap.  [skip] counts the characters of an
    occurrence already replaced that are still to be passed over. *)
Fixpoint py_replace_from {A} (eqb : A → A → bool) (old new : list A)
    (skip : nat) (s : list A) : list A :=
  match s with
  | [] => []
  | c :: s' =>
      match skip with
      | S k => py_replace_from eqb old new k s'
      | O =>
          if py_startswith eqb old s
          then new ++ py_replace_from eqb old new (length old - 1) s'
          else c :: py_replace_from eqb old new O s'
      end
  end.

Definition byte_eqb (a b : byte) : bool := Byte.to_N a =? Byte.to_N b.

Definition bytes_replace (old new s : bytes) : bytes :=
  py_replace_from byte_eqb old new O s.

Definition str_replace (old new s : pystr) : pystr :=
  py_replace_from N.eqb old new O s.

(** [str.upper]: ASCII letters here, the rest from the database. *)
Definition upper_char `{UnicodeDB} (c : N) : pystr :=
  if c <? 0x80 then [if (0x61 <=? c) && (c <=? 0x7A) then c - 0x20 else c]
  else ucd_upper c.

Definition py_upper `{UnicodeDB} (s : pystr) : pystr := concat (upper_char <$> s).

(** The decimal value of a character ([\d] of [re], and the digits [int]
    accepts besides ASCII letters): the ASCII digits, and of the database
    what is a value below ten of a character that is not white space. *)
Definition py_decimal `{UnicodeDB} (c : N) : option N :=
  if (0x30 <=? c) && (c <=? 0x39) then Some (c - 0x30)
  else if (c <? 0x80) || py_isspace c then None
  else match ucd_decimal c with
       | Some d => if d <? 10 then Some d else None
       | None => None
       end.

Definition is_decimal `{UnicodeDB} (c : N) : bool := bool_decide (is_Some (py_decimal c)).

(** [s.isdigit()] *)
Definition isdigit_char `{UnicodeDB} (c : N) : bool :=
  if c <? 0x80 then (0x30 <=? c) && (c <=? 0x39) else ucd_isdigit c.

Definition py_isdigit `{UnicodeDB} (s : pystr) : bool :=
  match s with
  | [] => false
  | _ => forallb isdigit_char s
  end.

(** *** [int(s, base)] for base 10 and 16

    As the interpreter does it: characters from 127 on are first turned
    into a space (white space), an ASCII digit (decimal characters) or [?];
    then white space is skipped, a sign and (base 16) a [0x] prefix are
    read, then digits with single underscores between them, then white
    space to the end.  Integers are unbounded. *)
Definition int_to_ascii `{UnicodeDB} (c : N) : N :=
  if c <? 127 then c
  else if py_isspace c then 0x20
  else match py_decimal c with
       | Some d => 0x30 + d
       | None => 0x3F
       end.

Definition c_isspace (c : N) : bool := ((0x09 <=? c) && (c <=? 0x0D)) || (c =? 0x20).

Definition digit_value (c : N) : N :=
  if (0x30 <=? c) && (c <=? 0x39) then c - 0x30
  else if (0x61 <=? c) && (c <=? 0x7A) then c - 0x61 + 10
  else if (0x41 <=? c) && (c <=? 0x5A) then c - 0x41 + 10
  else 37.

(** The scan of the digit run: [prev] is the previous character (0 at the
    start), [acc] the value so far.  It stops at the first character that
    is neither a digit of the base nor an underscore. *)
Fixpoint int_digits (base : N) (prev : N) (acc : N) (s : pystr) : option (N * pystr) :=
  match s with
  | [] => if prev =? 0x5F then None else Some (acc, s)
  | c :: s' =>
      if c =? 0x5F then
        if prev =? 0x5F then None else int_digits base c acc s'
      else if digit_value c <? base then int_digits base c (acc * base + digit_value c) s'
      else if prev =? 0x5F then None else Some (acc, s)
  end.

Definition py_int `{UnicodeDB} (base : N) (s : pystr) : option Z :=
  let t := dropwhile c_isspace (int_to_ascii <$> s) in
  let '(negative, t) :=
    match t with
    | c :: t' =>
        if c =? 0x2B then (false, t')
        else if c =? 0x2D then (true, t')
        else (false, t)
    | [] => (false, t)
    end in
  let t :=
    match t with
    | c :: x :: t' =>
        if (c =? 0x30) && (base =? 16) && ((x =? 0x78) || (x =? 0x58))
        then match t' with
             | u :: t'' => if u =? 0x5F then t'' else t'
             | [] => t'
             end
        else t
    | _ => t
    end in
  match t with
  | [] => None
  | c :: _ =>
      if negb (digit_value c <? base) then None
      else match int_digits base 0 0 t with
           | None => None
           | Some (v, rest) =>
               match dropwhile c_isspace rest with
               | [] => Some (if negative then - Z.of_N v else Z.of_N v)%Z
               | _ :: _ => None
               end
           end
  end.

(** *** Exceptions

    A function that returns or raises an exception which it does not catch
    itself; the exception is given by its message, [str(e)]. *)
Inductive raises (A : Type) : Type :=
  | Return (a : A)
  | Raise (message : pystr).

Arguments Return {A} a.
Arguments Raise {A} message.

Definition raises_map {A B} (f : A → B) (r : raises A) : raises B :=
  match r with
  | Return a => Return (f a)
  | Raise message => Raise message
  end.

#[global] Instance raises_fmap : FMap raises := @raises_map.

(** [chr(i)], as the interpreter does it: the argument is first converted
    to a C [int], which raises [OverflowError] outside the 32-bit range;
    inside it, every argument outside [range(0x110000)] raises
    [ValueError]. *)
Inductive chr_result :=
  | chr_is (c : N)
  | chr_ValueError
  | chr_OverflowError.

Definition py_chr (i : Z) : chr_result :=
  if ((0 <=? i) && (i <? 0x110000))%Z then chr_is (Z.to_N i)
  else if ((-0x80000000 <=? i) && (i <? 0x80000000))%Z then chr_ValueError
  else chr_OverflowError.

(** The message of that [OverflowError]. *)
Definition chr_overflow_message : pystr := py "Python int too large to convert to C int".

(** [b.hex()]: two lower-case hexadecimal digits per byte *)
Definition hex_digit (n : N) : N := if n <? 10 then 0x30 + n else 0x61 + (n - 10).

Definition bytes_hex (b : bytes) : pystr :=
  concat ((λ x, [hex_digit (Byte.to_N x / 16); hex_digit (Byte.to_N x mod 16)]) <$> b).

(** *** Single-byte codecs

    A codec gives the code point of each byte, or [None] for a byte it
    cannot decode; [errors='ignore'] drops those bytes. *)
Abbreviation codec := (byte → option N) (only parsing).

Definition decode_ignore (enc : codec) (b : bytes) : pystr := omap enc b.

(** The decoding table of Python's [cp500] codec, by byte value. *)
Definition cp500_table : list N :=
  [
   0x00; 0x01; 0x02; 0x03; 0x9C; 0x09; 0x86; 0x7F; 0x97; 0x8D; 0x8E; 0x0B; 0x0C; 0x0D; 0x0E; 0x0F;
   0x10; 0x11; 0x12; 0x13; 0x9D; 0x85; 0x08; 0x87; 0x18; 0x19; 0x92; 0x8F; 0x1C; 0x1D; 0x1E; 0x1F;
   0x80; 0x81; 0x82; 0x83; 0x84; 0x0A; 0x17; 0x1B; 0x88; 0x89; 0x8A; 0x8B; 0x8C; 0x05; 0x06; 0x07;
   0x90; 0x91; 0x16; 0x93; 0x94; 0x95; 0x96; 0x04; 0x98; 0x99; 0x9A; 0x9B; 0x14; 0x15; 0x9E; 0x1A;
   0x20; 0xA0; 0xE2; 0xE4; 0xE0; 0xE1; 0xE3; 0xE5; 0xE7; 0xF1; 0x5B; 0x2E; 0x3C; 0x28; 0x2B; 0x21;
   0x26; 0xE9; 0xEA; 0xEB; 0xE8; 0xED; 0xEE; 0xEF; 0xEC; 0xDF; 0x5D; 0x24; 0x2A; 0x29; 0x3B; 0x5E;
   0x2D; 0x2F; 0xC2; 0xC4; 0xC0; 0xC1; 0xC3; 0xC5; 0xC7; 0xD1; 0xA6; 0x2C; 0x25; 0x5F; 0x3E; 0x3F;
   0xF8; 0xC9; 0xCA; 0xCB; 0xC8; 0xCD; 0xCE; 0xCF; 0xCC; 0x60; 0x3A; 0x23; 0x40; 0x27; 0x3D; 0x22;
   0xD8; 0x61; 0x62; 0x63; 0x64; 0x65; 0x66; 0x67; 0x68; 0x69; 0xAB; 0xBB; 0xF0; 0xFD; 0xFE; 0xB1;
   0xB0; 0x6A; 0x6B; 0x6C; 0x6D; 0x6E; 0x6F; 0x70; 0x71; 0x72; 0xAA; 0xBA; 0xE6; 0xB8; 0xC6; 0xA4;
   0xB5; 0x7E; 0x73; 0x74; 0x75; 0x76; 0x77; 0x78; 0x79; 0x7A; 0xA1; 0xBF; 0xD0; 0xDD; 0xDE; 0xAE;
   0xA2; 0xA3; 0xA5; 0xB7; 0xA9; 0xA7; 0xB6; 0xBC; 0xBD; 0xBE; 0xAC; 0x7C; 0xAF; 0xA8; 0xB4; 0xD7;
   0x7B; 0x41; 0x42; 0x43; 0x44; 0x45; 0x46; 0x47; 0x48; 0x49; 0xAD; 0xF4; 0xF6; 0xF2; 0xF3; 0xF5;
   0x7D; 0x4A; 0x4B; 0x4C; 0x4D; 0x4E; 0x4F; 0x50; 0x51; 0x52; 0xB9; 0xFB; 0xFC; 0xF9; 0xFA; 0xFF;
   0x5C; 0xF7; 0x53; 0x54; 0x55; 0x56; 0x57; 0x58; 0x59; 0x5A; 0xB2; 0xD4; 0xD6; 0xD2; 0xD3; 0xD5;
   0x30; 0x31; 0x32; 0x33; 0x34; 0x35; 0x36; 0x37; 0x38; 0x39; 0xB3; 0xDB; 0xDC; 0xD9; 0xDA; 0x9F
  ].

Definition cp500 : codec := λ b, cp500_table !! N.to_nat (Byte.to_N b).

(** ** Constants of the program *)

Definition PROCESS_SUCCESS : Z := 0.
Definition PROCESS_ERROR_FILE_NOT_FOUND : Z := -1.
Definition PROCESS_ERROR_COPY_NOT_FOUND : Z := -2.
Definition PROCESS_ERROR_COPY_PARSE : Z := -3.
Definition PROCESS_ERROR_GENERAL : Z := -4.

Definition DEFAULT_EBCDIC_ENCODING : codec := cp500.

Definition JEF_AT_MARK_PAIR_BYTES : bytes := [x42; x42].
(** [FULL_WIDTH_SPACE_UTF8.encode('euc_jp')] *)
Definition FULL_WIDTH_SPACE_EUC_JP : bytes := [xa1; xa1].
(** The star U+2605 *)
Definition UNDEFINED_CHAR_REPLACEMENT : N := 0x2605.

Definition CSV_DELIMITER : N := 0x2C.
Definition CSV_QUOTECHAR : pystr := [0x22].
Definition CSV_ESCAPED_QUOTE : pystr := CSV_QUOTECHAR ++ CSV_QUOTECHAR.

(** ** Loading the conversion map *)

(** [re.fullmatch(r'[0-9A-F]+', s)] *)
Definition is_upper_hex (c : N) : bool :=
  ((0x30 <=? c) && (c <=? 0x39)) || ((0x41 <=? c) && (c <=? 0x46)).

Definition fullmatch_upper_hex (s : pystr) : bool :=
  match s with
  | [] => false
  | _ :: _ => forallb is_upper_hex s
  end.

Definition is_empty {A} (l : list A) : bool :=
  match l with
  | [] => true
  | _ :: _ => false
  end.

(** The body of [for line in f]. *)
Definition load_conversion_line `{UnicodeDB}
    (conversion_map : gmap pystr pystr) (line : pystr) : gmap pystr pystr :=
  let line := py_strip line in
  if is_empty line || py_startswith N.eqb (py "#") line then conversion_map
  else
    match py_split CSV_DELIMITER line with
    | [part0; part1] =>
        let hex_src := py_upper (py_strip part0) in
        let hex_dst := py_upper (py_strip part1) in
        if fullmatch_upper_hex hex_src && fullmatch_upper_hex hex_dst
        then <[hex_src := hex_dst]> conversion_map
        else conversion_map
    | _ => conversion_map
    end.

(** [file] is [None] when the file does not exist, else its lines. *)
Definition load_conversion_map `{UnicodeDB} (file : option (list pystr)) : gmap pystr pystr :=
  match file with
  | None => ∅
  | Some lines => foldl load_conversion_line ∅ lines
  end.

(** ** Parsing the COPY file *)

Record field_def := {
  FIELD_NAME : pystr;
  FIELD_TYPE : pystr;
  FIELD_NUM_ATTRIBUTE : option Z;
  FIELD_LENGTH : Z;
  FIELD_OFFSET : Z
}.

(** The error messages [parse_cpy_field_definitions] returns, with the
    values their text embeds. *)
Inductive schema_error :=
  | InsufficientLines
  | InvalidRecordLength (record_length : Z)
  | RecordLengthNotANumber
  | FieldExceedsRecord (line : Z) (field_name : pystr) (field_end record_length : Z)
  | NoValidFields.

(** What one pass through the body of the field loop does: [continue]
    after a warning, [return] an error, or append a field. *)
Inductive line_result :=
  | Skip
  | Fatal (e : schema_error)
  | Accept (fd : field_def).

(** [parts] after the split and the insertion of an empty numeric
    attribute into a line of four parts whose third part is blank. *)
Definition field_parts (line : pystr) : list pystr :=
  let parts := py_split CSV_DELIMITER line in
  match parts with
  | [p0; p1; p2; p3] =>
      if is_empty (py_strip p2) then [p0; p1] ++ [[]] ++ [p2; p3] else parts
  | _ => parts
  end.

Definition parse_field_line `{UnicodeDB}
    (i : Z) (line : pystr) (record_length current_offset : Z) : line_result :=
  let parts := field_parts line in
  match parts with
  | [p0; p1; p2; p3; p4] =>
      let field_name := py_strip p0 in
      let data_type := py_upper (py_strip p1) in
      let num_attribute_str := py_strip p2 in
      match py_int 10 (py_strip p3) with
      | None => Skip
      | Some byte_length =>
          match py_int 10 (py_strip p4) with
          | None => Skip
          | Some declared_offset_1based =>
              if (byte_length <=? 0)%Z then Skip
              else if (current_offset + byte_length >? record_length)%Z then
                Fatal (FieldExceedsRecord i field_name
                         (current_offset + byte_length) record_length)
              else
                let accept num_attribute :=
                  Accept {| FIELD_NAME := field_name;
                            FIELD_TYPE := data_type;
                            FIELD_NUM_ATTRIBUTE := num_attribute;
                            FIELD_LENGTH := byte_length;
                            FIELD_OFFSET := current_offset |} in
                if py_isdigit num_attribute_str then
                  match py_int 10 num_attribute_str with
                  | None => Skip
                  | Some n => accept (Some n)
                  end
                else accept None
          end
      end
  | _ => Skip
  end.

(** The loop [for i, line in enumerate(cpy_lines[2:], start=3)]. *)
Fixpoint parse_field_lines `{UnicodeDB} (i : Z) (lines : list pystr)
    (record_length : Z) (field_definitions : list field_def) (current_offset : Z)
    : schema_error + list field_def * Z :=
  match lines with
  | [] => inr (field_definitions, current_offset)
  | line :: lines' =>
      match parse_field_line i line record_length current_offset with
      | Skip =>
          parse_field_lines (i + 1) lines' record_length field_definitions current_offset
      | Fatal e => inl e
      | Accept fd =>
          parse_field_lines (i + 1) lines' record_length
            (field_definitions ++ [fd]) (current_offset + FIELD_LENGTH fd)
      end
  end.

(** [inl] is the triple [(None, None, message)], [inr] the triple
    [(record_length, field_definitions, None)]. *)
Definition parse_cpy_field_definitions `{UnicodeDB} (cpy_lines : list pystr)
    : schema_error + Z * list field_def :=
  if (py_len cpy_lines <? 3)%Z then inl InsufficientLines
  else
    match py_int 10 (default [] (cpy_lines !! 0%nat)) with
    | None => inl RecordLengthNotANumber
    | Some record_length =>
        if (record_length <=? 0)%Z then inl (InvalidRecordLength record_length)
        else
          match parse_field_lines 3 (drop 2 cpy_lines) record_length [] 0 with
          | inl e => inl e
          | inr (field_definitions, current_offset) =>
              if is_empty field_definitions then inl NoValidFields
              else inr (record_length, field_definitions)
          end
    end.

(** ** The picture analyser *)

(** [\((\d+)\)] at the head of [s]: the digits captured and what follows. *)
Definition match_count `{UnicodeDB} (s : pystr) : option (pystr * pystr) :=
  match s with
  | c :: s1 =>
      if c =? 0x28 then
        match takewhile is_decimal s1, dropwhile is_decimal s1 with
        | (_ :: _) as ds, c' :: s2 => if c' =? 0x29 then Some (ds, s2) else None
        | _, _ => None
        end
      else None
  | [] => None
  end.

(** An optional group: what it captured and the rest of the input. *)
Definition optional_count `{UnicodeDB} (s : pystr) : option pystr * pystr :=
  match match_count s with
  | Some (ds, s') => (Some ds, s')
  | None => (None, s)
  end.

(** [(?:V9(?:\((\d+)\))?)?] at the head of [s]: group 2 and what follows. *)
Definition optional_scale `{UnicodeDB} (s : pystr) : option pystr * pystr :=
  match s with
  | c1 :: c2 :: s' =>
      if (c1 =? 0x56) && (c2 =? 0x39) then optional_count s' else (None, s)
  | _ => (None, s)
  end.

Definition is_PSV (c : N) : bool := (c =? 0x50) || (c =? 0x53) || (c =? 0x56).

(** [$]: the end of the string, or just before a final newline. *)
Definition at_end (s : pystr) : bool :=
  match s with
  | [] => true
  | [c] => c =? 0x0A
  | _ => false
  end.

(** [re.match(r'^[PSV]*9(?:\((\d+)\))?(?:V9(?:\((\d+)\))?)?$', s)]:
    [None] when there is no match, else groups 1 and 2.  No step of this
    pattern has a second way to succeed, so the match is found without
    backtracking. *)
Definition match_pic `{UnicodeDB} (s : pystr) : option (option pystr * option pystr) :=
  match dropwhile is_PSV s with
  | c :: s1 =>
      if c =? 0x39 then
        let '(arg1, s2) := optional_count s1 in
        let '(arg2, s3) := optional_scale s2 in
        if at_end s3 then Some (arg1, arg2) else None
      else None
  | [] => None
  end.

(** [int(arg)] for a captured group: the digits are decimal, so it
    cannot fail. *)
Definition int_of_group `{UnicodeDB} (arg : pystr) : Z := default 0%Z (py_int 10 arg).

Definition get_digits_from_pic_type `{UnicodeDB} (pic_type_str : pystr) : Z * Z :=
  match match_pic pic_type_str with
  | Some (arg1, arg2) =>
      let integer_digits :=
        match arg1 with
        | Some a => int_of_group a
        | None => 0%Z
        end in
      let decimal_digits :=
        match arg2 with
        | Some a => if py_in (py "V") pic_type_str then int_of_group a else 0%Z
        | None => 0%Z
        end in
      (integer_digits, decimal_digits)
  | None => (0, 0)%Z
  end.

(** ** Field decoders *)

Definition convert_ebcdic_to_string (ebcdic_bytes : bytes) (ebcdic_encoding : codec) : pystr :=
  let non_null_bytes := bytes_replace [x00] [] ebcdic_bytes in
  let unicode_string := decode_ignore ebcdic_encoding non_null_bytes in
  py_strip unicode_string.

(** What one byte pair contributes to [result_text].  The handler of the
    [try] catches [ValueError] only, so the [OverflowError] of [chr] leaves
    the function. *)
Definition jef_pair `{UnicodeDB} (conversion_map : gmap pystr pystr) (b1 b2 : byte)
    : raises N :=
  let hex_value := py_upper (bytes_hex [b1; b2]) in
  match conversion_map !! hex_value with
  | Some ((_ :: _) as converted_hex) =>
      if (0 <? py_len converted_hex)%Z then
        match py_int 16 converted_hex with
        | Some code =>
            match py_chr code with
            | chr_is c => Return c
            | chr_ValueError => Return UNDEFINED_CHAR_REPLACEMENT
            | chr_OverflowError => Raise chr_overflow_message
            end
        | None => Return UNDEFINED_CHAR_REPLACEMENT
        end
      else Return UNDEFINED_CHAR_REPLACEMENT
  | _ => Return UNDEFINED_CHAR_REPLACEMENT
  end.

(** The loop [while i < len(processed_bytes)], on the bytes from [i] on. *)
Fixpoint jef_loop `{UnicodeDB} (conversion_map : gmap pystr pystr)
    (remaining : bytes) (result_text : pystr) : raises pystr :=
  match remaining with
  | [] => Return result_text
  | [_] => Return (result_text ++ [UNDEFINED_CHAR_REPLACEMENT])
  | b1 :: b2 :: remaining' =>
      match jef_pair conversion_map b1 b2 with
      | Return c => jef_loop conversion_map remaining' (result_text ++ [c])
      | Raise message => Raise message
      end
  end.

Definition convert_jef_chars `{UnicodeDB} (jef_bytes : bytes)
    (conversion_map : gmap pystr pystr) : raises pystr :=
  let processed_bytes :=
    bytes_replace JEF_AT_MARK_PAIR_BYTES FULL_WIDTH_SPACE_EUC_JP jef_bytes in
  py_strip <$> jef_loop conversion_map processed_bytes [].

Definition convert_ebcdic_zoned_decimal (ebcdic_bytes : bytes) (decimal_digits : Z)
    (ebcdic_encoding : codec) : pystr :=
  let numeric_string := py_strip (convert_ebcdic_to_string ebcdic_bytes ebcdic_encoding) in
  if is_empty numeric_string then []
  else
    let decimal_digits := if (decimal_digits <? 0)%Z then 0%Z else decimal_digits in
    let actual_digits := py_len numeric_string in
    if (decimal_digits =? 0)%Z then numeric_string
    else if (actual_digits <=? decimal_digits)%Z then
      let leading_zeros_count := (decimal_digits - actual_digits)%Z in
      let leading_zeros := py_repeat 0x30 leading_zeros_count in
      py "0." ++ leading_zeros ++ numeric_string
    else
      let insert_position := (actual_digits - decimal_digits)%Z in
      py_prefix insert_position numeric_string ++ py "."
        ++ py_suffix insert_position numeric_string.

(** ** Packed decimal (COMP-3) *)

Definition high_nibble (b : byte) : N := N.land (N.shiftr (Byte.to_N b) 4) 0x0F.
Definition low_nibble (b : byte) : N := N.land (Byte.to_N b) 0x0F.

(** The [for byte in comp3_bytes[:-1]] loop: [None] is the early
    [return None] on a nibble that is not a digit. *)
Fixpoint comp3_digit_loop (body : bytes) (digits : list pystr) : option (list pystr) :=
  match body with
  | [] => Some digits
  | b :: body' =>
      if negb ((0 <=? high_nibble b) && (high_nibble b <=? 9)
               && (0 <=? low_nibble b) && (low_nibble b <=? 9))
      then None
      else comp3_digit_loop body' (digits ++ [py_str (high_nibble b); py_str (low_nibble b)])
  end.

Definition convert_comp3_bytes (comp3_bytes : bytes) (decimal_places : Z) : option pystr :=
  match last comp3_bytes with
  | None => None
  | Some last_byte =>
      let sign_nibble := low_nibble last_byte in
      let is_negative := sign_nibble =? 0x0D in
      match comp3_digit_loop (removelast comp3_bytes) [] with
      | None => None
      | Some digits =>
          let last_byte_high_nibble := high_nibble last_byte in
          if negb ((0 <=? last_byte_high_nibble) && (last_byte_high_nibble <=? 9))
          then None
          else
            let digits := digits ++ [py_str last_byte_high_nibble] in
            let all_digits := py_lstrip_zero (concat digits) in
            match all_digits with
            | [] =>
                Some (if ((0 <=? decimal_places) && (0 <? decimal_places))%Z
                      then py "0." ++ py_repeat 0x30 decimal_places
                      else py "0")
            | _ :: _ =>
                let numeric_string :=
                  if (0 <=? decimal_places)%Z then
                    let total_digits := py_len all_digits in
                    if (decimal_places =? 0)%Z then all_digits
                    else if (decimal_places >=? total_digits)%Z then
                      let leading_zeros := py_repeat 0x30 (decimal_places - total_digits) in
                      py "0." ++ leading_zeros ++ all_digits
                    else
                      let insert_position := (total_digits - decimal_places)%Z in
                      py_prefix insert_position all_digits ++ py "." ++ py_suffix insert_position all_digits
                  else all_digits in
                Some (if is_negative then py "-" ++ numeric_string else numeric_string)
            end
      end
  end.

(** ** The converter *)

(** The attributes of a [BinaryToDatConverter] that conversion reads or
    assigns; the three file paths, which are only read to find the files,
    are left out.  [None] is Python's [None]. *)
Record BinaryToDatConverter := {
  conversion_map : gmap pystr pystr;
  ebcdic_encoding : codec;
  record_length : option Z;
  field_definitions : option (list field_def);
  errors_encountered : Z
}.

(** [self.errors_encountered += 1] *)
Definition count_error (self : BinaryToDatConverter) : BinaryToDatConverter :=
  {| conversion_map := conversion_map self;
     ebcdic_encoding := ebcdic_encoding self;
     record_length := record_length self;
     field_definitions := field_definitions self;
     errors_encountered := errors_encountered self + 1 |}.

(** [self.errors_encountered = 0] *)
Definition reset_errors (self : BinaryToDatConverter) : BinaryToDatConverter :=
  {| conversion_map := conversion_map self;
     ebcdic_encoding := ebcdic_encoding self;
     record_length := record_length self;
     field_definitions := field_definitions self;
     errors_encountered := 0 |}.

(** [self.record_length, self.field_definitions, error_msg = ...] *)
Definition set_schema (self : BinaryToDatConverter) (new_record_length : option Z)
    (new_field_definitions : option (list field_def)) : BinaryToDatConverter :=
  {| conversion_map := conversion_map self;
     ebcdic_encoding := ebcdic_encoding self;
     record_length := new_record_length;
     field_definitions := new_field_definitions;
     errors_encountered := errors_encountered self |}.

Definition str_eqb (a b : pystr) : bool := bool_decide (a = b).

Definition is_packed_type (data_type : pystr) : bool :=
  existsb (λ prefix, py_startswith N.eqb prefix data_type)
    [py "P9"; py "PS9"; py "S9"; py "SP9"]
  || existsb (str_eqb data_type) [py "PV9"; py "PSV9"].

(** The result is the returned string and the converter afterwards.  Of
    the calls made in the [try] only [convert_jef_chars] raises in this
    model; its exception is caught by the final [except Exception]. *)
Definition _convert_field `{UnicodeDB} (self : BinaryToDatConverter)
    (field_def : field_def) (field_data : bytes) : pystr * BinaryToDatConverter :=
  let data_type := FIELD_TYPE field_def in
  let num_attribute := FIELD_NUM_ATTRIBUTE field_def in
  if str_eqb data_type (py "X") then
    (convert_ebcdic_to_string field_data (ebcdic_encoding self), self)
  else if str_eqb data_type (py "9") then
    let converted_value :=
      py_lstrip_zero (convert_ebcdic_to_string field_data (ebcdic_encoding self)) in
    (if is_empty converted_value then py "0" else converted_value, self)
  else if str_eqb data_type (py "N") then
    match convert_jef_chars field_data (conversion_map self) with
    | Return converted_value => (converted_value, self)
    | Raise e => (py "CONVERSION_ERROR: " ++ e, count_error self)
    end
  else if py_startswith N.eqb (py "9") data_type && py_in (py "V9") data_type then
    let '(integer_digits, decimal_digits) := get_digits_from_pic_type data_type in
    (convert_ebcdic_zoned_decimal field_data decimal_digits (ebcdic_encoding self), self)
  else if py_startswith N.eqb (py "V9") data_type then
    let numeric_str :=
      py_lstrip_zero (convert_ebcdic_to_string field_data (ebcdic_encoding self)) in
    (if is_empty numeric_str then py "0.0" else py "0." ++ numeric_str, self)
  else if is_packed_type data_type then
    let '(integer_digits_from_type, decimal_digits_from_type) :=
      get_digits_from_pic_type data_type in
    let is_PV9 :=
      py_startswith N.eqb (py "PV9") data_type || py_startswith N.eqb (py "PSV9") data_type in
    let decimal_places_for_comp3 : option Z :=
      if py_in (py "V9") data_type || is_PV9 then
        if is_PV9 then num_attribute else Some decimal_digits_from_type
      else Some (-1)%Z in
    match decimal_places_for_comp3 with
    | None =>
        (py "ERROR(PV9/PSV9_NO_ATTR):" ++ bytes_hex field_data, count_error self)
    | Some decimal_places =>
        match convert_comp3_bytes field_data decimal_places with
        | None => (py "ERROR(COMP3_INVALID):" ++ bytes_hex field_data, count_error self)
        | Some converted_value => (converted_value, self)
        end
    end
  else
    (py "UNSUPPORTED_TYPE(" ++ data_type ++ py "):" ++ bytes_hex field_data,
     count_error self).

(** The loop [for field_def in self.field_definitions] over one record. *)
Fixpoint convert_record `{UnicodeDB} (self : BinaryToDatConverter)
    (record_bytes : bytes) (field_definitions : list field_def)
    (output_fields : list pystr) : list pystr * BinaryToDatConverter :=
  match field_definitions with
  | [] => (output_fields, self)
  | field_def :: rest =>
      let field_data :=
        py_slice record_bytes (FIELD_OFFSET field_def)
          (FIELD_OFFSET field_def + FIELD_LENGTH field_def) in
      let '(converted_value, self) := _convert_field self field_def field_data in
      let escaped_value := str_replace CSV_QUOTECHAR CSV_ESCAPED_QUOTE converted_value in
      convert_record self record_bytes rest
        (output_fields ++ [CSV_QUOTECHAR ++ escaped_value ++ CSV_QUOTECHAR])
  end.

(** What the record loop leaves behind: the lines written to the DAT
    file (each is written followed by a newline), the number of records
    processed and the converter. *)
Record loop_state := {
  dat_f : list pystr;
  records_processed : Z;
  converter : BinaryToDatConverter
}.

(** A character that the UTF-8 encoder of the DAT file accepts: every
    one but a surrogate. *)
Definition utf8_encodable (c : N) : bool := negb ((0xD800 <=? c) && (c <=? 0xDFFF)).

(** [dat_f.write(line + '\n')]: the lines written so far with the new
    one, or [None] for the [UnicodeEncodeError] of a line that holds a
    surrogate; nothing of such a line is written. *)
Definition write (dat_f : list pystr) (line : pystr) : option (list pystr) :=
  if forallb utf8_encodable line then Some (dat_f ++ [line]) else None.

(** How the record loop is left: by [break], or by the exception of a
    write. *)
Inductive loop_end :=
  | Finished (st : loop_state)
  | Raised (st : loop_state).

(** The loop [while True] reading [bin_f], the bytes not yet read.  Each
    turn consumes one unit of [fuel]; [None] means the fuel ran out before
    the loop ended. *)
Fixpoint record_loop `{UnicodeDB} (fuel : nat) (record_length : Z)
    (field_definitions : list field_def) (bin_f : bytes) (st : loop_state)
    : option loop_end :=
  match fuel with
  | O => None
  | S fuel' =>
      let record_bytes := take (Z.to_nat record_length) bin_f in
      let bin_f := drop (Z.to_nat record_length) bin_f in
      if is_empty record_bytes then Some (Finished st)
      else if negb (py_len record_bytes =? record_length)%Z then
        Some (Finished {| dat_f := dat_f st;
                          records_processed := records_processed st;
                          converter := count_error (converter st) |})
      else
        let '(output_fields, self) :=
          convert_record (converter st) record_bytes field_definitions [] in
        match write (dat_f st) (py_join CSV_DELIMITER output_fields) with
        | None =>
            Some (Raised {| dat_f := dat_f st;
                            records_processed := records_processed st + 1;
                            converter := self |})
        | Some written =>
            record_loop fuel' record_length field_definitions bin_f
              {| dat_f := written;
                 records_processed := records_processed st + 1;
                 converter := self |}
        end
  end.

(** [read_cpy_file] on the lines of an existing file *)
Definition read_cpy_file (lines : list pystr) : list pystr := py_strip <$> lines.

(** The outcome of [process]: the return code, the DAT file (if it was
    opened) and the converter afterwards. *)
Record process_result := {
  return_code : Z;
  dat_file : option (list pystr);
  final : BinaryToDatConverter
}.

(** [binary_file] and [cpy_file] are [None] when the file does not exist,
    else the content: the bytes, and the lines as [readlines] gives them.
    The files are taken to be readable and the DAT file to be writable, so
    the only exception that reaches the final [except Exception] is the
    [UnicodeEncodeError] of a write; the lines written before it stay in
    the DAT file.  The loop is given one turn more than there are bytes to
    read; [None] would mean that this was not enough. *)
Definition process `{UnicodeDB} (self : BinaryToDatConverter)
    (binary_file : option bytes) (cpy_file : option (list pystr))
    : option process_result :=
  match binary_file with
  | None =>
      Some {| return_code := PROCESS_ERROR_FILE_NOT_FOUND; dat_file := None; final := self |}
  | Some bin_f =>
      match cpy_file with
      | None =>
          Some {| return_code := PROCESS_ERROR_COPY_NOT_FOUND; dat_file := None; final := self |}
      | Some lines =>
          let cpy_lines := read_cpy_file lines in
          match parse_cpy_field_definitions cpy_lines with
          | inl error_msg =>
              Some {| return_code := PROCESS_ERROR_COPY_PARSE;
                      dat_file := None;
                      final := set_schema self None None |}
          | inr (record_length, field_definitions) =>
              let self := set_schema self (Some record_length) (Some field_definitions) in
              let self := reset_errors self in
              let header_row :=
                py_join CSV_DELIMITER
                  ((λ field, CSV_QUOTECHAR ++ FIELD_NAME field ++ CSV_QUOTECHAR)
                     <$> field_definitions) in
              match write [] header_row with
              | None =>
                  Some {| return_code := PROCESS_ERROR_GENERAL;
                          dat_file := Some [];
                          final := self |}
              | Some written =>
                  match record_loop (S (length bin_f)) record_length field_definitions bin_f
                          {| dat_f := written; records_processed := 0; converter := self |}
                  with
                  | None => None
                  | Some (Finished st) =>
                      Some {| return_code :=
                                if (errors_encountered (converter st) =? 0)%Z
                                then PROCESS_SUCCESS else PROCESS_ERROR_GENERAL;
                              dat_file := Some (dat_f st);
                              final := converter st |}
                  | Some (Raised st) =>
                      Some {| return_code := PROCESS_ERROR_GENERAL;
                              dat_file := Some (dat_f st);
                              final := converter st |}
                  end
              end
          end
      end
  end.

(** ** The main program *)

(** The loop [for bin_filepath in binary_files] of [__main__].  A binary
    file that [glob] found is given by its bytes and by the lines of the
    COPY file that the naming rule pairs with it ([None] when that file
    does not exist).  Each file gets a converter of its own with the shared
    conversion map.  [None] means that [process] ran out of fuel. *)
Fixpoint file_loop `{UnicodeDB} (conversion_map : gmap pystr pystr)
    (binary_files : list (bytes * option (list pystr)))
    (successful_files failed_files : Z) : option (Z * Z) :=
  match binary_files with
  | [] => Some (successful_files, failed_files)
  | (bin_f, cpy_file) :: rest =>
      let converter :=
        {| conversion_map := conversion_map;
           ebcdic_encoding := DEFAULT_EBCDIC_ENCODING;
           record_length := None;
           field_definitions := None;
           errors_encountered := 0 |} in
      match process converter (Some bin_f) cpy_file with
      | None => None
      | Some result =>
          if (return_code result =? PROCESS_SUCCESS)%Z
          then file_loop conversion_map rest (successful_files + 1) failed_files
          else file_loop conversion_map rest successful_files (failed_files + 1)
      end
  end.

(** [__main__]: the argument of [sys.exit].  [cnv_file] is the
    conversion-map file the user names ([None] when it does not exist) and
    [binary_files] are the files [get_filenames_with_extension] returns
    (none when the directory is missing).  The prompt, the creation of the
    output directory and the messages are not part of the model. *)
Definition main `{UnicodeDB} (cnv_file : option (list pystr))
    (binary_files : list (bytes * option (list pystr))) : option Z :=
  let conversion_map := load_conversion_map cnv_file in
  if bool_decide (conversion_map = ∅) then Some PROCESS_ERROR_GENERAL
  else if is_empty binary_files then Some 0%Z
  else
    match file_loop conversion_map binary_files 0 0 with
    | None => None
    | Some (successful_files, failed_files) =>
        Some (if (failed_files >? 0)%Z then 1 else 0)%Z
    end.

(** The database with nothing outside ASCII: no further character is
    cased, decimal or a digit.  Every database agrees with it on ASCII
    text, which is what the concrete runs below use. *)
Definition ascii_only : UnicodeDB :=
  {| ucd_upper c := [c]; ucd_decimal _ := None; ucd_isdigit _ := false |}.

(** ** Words of the specification *)

(** The digit nibbles of a packed field: both nibbles of every byte but
    the last, then the high nibble of the last. *)
Definition digit_nibbles (comp3_bytes : bytes) : list N :=
  match last comp3_bytes with
  | None => []
  | Some last_byte =>
      flat_map (λ b, [high_nibble b; low_nibble b]) (removelast comp3_bytes)
        ++ [high_nibble last_byte]
  end.

(** The sign nibble: the low nibble of the last byte. *)
Definition sign_nibble_of (comp3_bytes : bytes) : option N :=
  low_nibble <$> last comp3_bytes.

(** The output of a decoder begins with a minus sign. *)
Definition begins_with_minus (output : option pystr) : Prop :=
  ∃ rest, output = Some (py "-" ++ rest).

(** The zoned-decimal rule as the specification words it: empty stays
    empty, a digit string no longer than [decimal_digits] gets ["0."] and
    zero padding in front, any other gets a decimal point at
    [length - decimal_digits]. *)
Definition zoned_rule_as_specified (digits : pystr) (decimal_digits : Z) : pystr :=
  if is_empty digits then []
  else if (py_len digits <=? decimal_digits)%Z then
    py "0." ++ py_repeat 0x30 (decimal_digits - py_len digits) ++ digits
  else
    py_prefix (py_len digits - decimal_digits) digits ++ py "."
      ++ py_suffix (py_len digits - decimal_digits) digits.

(** A non-empty string of upper-case hexadecimal digits. *)
Definition upper_hex_string (s : pystr) : Prop :=
  s ≠ [] ∧ Forall (λ c, 0x30 <= c <= 0x39 ∨ 0x41 <= c <= 0x46) s.

(** A line of the mapping file that the loader passes over: blank,
    a comment, or not of the form [SRC_HEX,DST_HEX]. *)
Definition blank_line (line : pystr) : bool := is_empty (py_strip line).

Definition comment_line (line : pystr) : bool :=
  py_startswith N.eqb (py "#") (py_strip line).

Definition malformed_line `{UnicodeDB} (line : pystr) : bool :=
  match py_split CSV_DELIMITER (py_strip line) with
  | [part0; part1] =>
      negb (fullmatch_upper_hex (py_upper (py_strip part0))
            && fullmatch_upper_hex (py_upper (py_strip part1)))
  | _ => true
  end.

Definition passed_over `{UnicodeDB} (line : pystr) : bool :=
  blank_line line || comment_line line || malformed_line line.

(** The byte length a field line declares: defined when the line has
    five parts (after the insertion of an empty attribute), its length and
    offset are integers and the length is positive.  These are the checks
    the parser makes before it computes the end of the field. *)
Definition declared_length `{UnicodeDB} (line : pystr) : option Z :=
  match field_parts line with
  | [_; _; _; p3; p4] =>
      match py_int 10 (py_strip p3), py_int 10 (py_strip p4) with
      | Some byte_length, Some _ =>
          if (0 <? byte_length)%Z then Some byte_length else None
      | _, _ => None
      end
  | _ => None
  end.

(** The numeric attribute of a field line can be stored: it is not made
    of digit characters (then it is stored as absent), or it is an integer. *)
Definition attribute_ok `{UnicodeDB} (line : pystr) : bool :=
  match field_parts line with
  | [_; _; p2; _; _] =>
      negb (py_isdigit (py_strip p2)) || bool_decide (is_Some (py_int 10 (py_strip p2)))
  | _ => false
  end.

(** The byte length of a line that becomes a field, if it fits. *)
Definition accepted_length `{UnicodeDB} (line : pystr) : option Z :=
  if attribute_ok line then declared_length line else None.

Definition sum_Z (l : list Z) : Z := foldr Z.add 0%Z l.

(** The running offset after some field lines, none of which overran. *)
Definition running_offset `{UnicodeDB} (lines : list pystr) : Z :=
  sum_Z (omap accepted_length lines).

(** Some field's computed end, the running offset plus its byte length,
    exceeds the record length. *)
Definition overrun `{UnicodeDB} (record_length : Z) (lines : list pystr) : Prop :=
  ∃ (k : nat) (line : pystr) (byte_length : Z),
    lines !! k = Some line
    ∧ declared_length line = Some byte_length
    ∧ (running_offset (take k lines) + byte_length > record_length)%Z.

(** The first line is a positive record length. *)
Definition record_length_of `{UnicodeDB} (cpy_lines : list pystr) : option Z :=
  match py_int 10 (default [] (cpy_lines !! 0%nat)) with
  | Some record_length => if (0 <? record_length)%Z then Some record_length else None
  | None => None
  end.

Definition fails {E R} (result : E + R) : Prop :=
  match result with
  | inl _ => True
  | inr _ => False
  end.

(** The four ways through the body of the field loop, in the words
    above: the line declares no length; its end exceeds the record; its
    attribute cannot be stored; it becomes a field at the running offset. *)
Inductive line_view `{UnicodeDB} (i : Z) (line : pystr) (record_length current_offset : Z)
    : line_result → Prop :=
  | view_unsized :
      declared_length line = None →
      line_view i line record_length current_offset Skip
  | view_overrun byte_length field_name :
      declared_length line = Some byte_length →
      (current_offset + byte_length > record_length)%Z →
      line_view i line record_length current_offset
        (Fatal (FieldExceedsRecord i field_name (current_offset + byte_length) record_length))
  | view_bad_attribute byte_length :
      declared_length line = Some byte_length →
      (current_offset + byte_length <= record_length)%Z →
      attribute_ok line = false →
      line_view i line record_length current_offset Skip
  | view_accept byte_length fd :
      declared_length line = Some byte_length →
      (current_offset + byte_length <= record_length)%Z →
      attribute_ok line = true →
      FIELD_LENGTH fd = byte_length →
      FIELD_OFFSET fd = current_offset →
      line_view i line record_length current_offset (Accept fd).

(** The converter with its error counter set to [n]. *)
Definition with_errors (self : BinaryToDatConverter) (n : Z) : BinaryToDatConverter :=
  {| conversion_map := conversion_map self;
     ebcdic_encoding := ebcdic_encoding self;
     record_length := record_length self;
     field_definitions := field_definitions self;
     errors_encountered := n |}.

(** The string a field decodes to, and by how much decoding it raises the
    error counter. *)
Definition decoded_value `{UnicodeDB} (self : BinaryToDatConverter)
    (fd : field_def) (field_data : bytes) : pystr :=
  (_convert_field self fd field_data).1.

Definition errors_counted `{UnicodeDB} (self : BinaryToDatConverter)
    (fd : field_def) (field_data : bytes) : Z :=
  (errors_encountered (_convert_field self fd field_data).2 - errors_encountered self)%Z.

(** The bytes of a field within a record. *)
Definition field_data_of (record_bytes : bytes) (fd : field_def) : bytes :=
  py_slice record_bytes (FIELD_OFFSET fd) (FIELD_OFFSET fd + FIELD_LENGTH fd).

(** A value between quotes, its own quotes doubled. *)
Definition quoted (value : pystr) : pystr :=
  CSV_QUOTECHAR ++ str_replace CSV_QUOTECHAR CSV_ESCAPED_QUOTE value ++ CSV_QUOTECHAR.

(** The output slots of a record, its line in the DAT file, and the
    errors its fields count. *)
Definition record_slots `{UnicodeDB} (self : BinaryToDatConverter)
    (fds : list field_def) (record_bytes : bytes) : list pystr :=
  (λ fd, quoted (decoded_value self fd (field_data_of record_bytes fd))) <$> fds.

Definition record_line `{UnicodeDB} (self : BinaryToDatConverter)
    (fds : list field_def) (record_bytes : bytes) : pystr :=
  py_join CSV_DELIMITER (record_slots self fds record_bytes).

Definition record_errors `{UnicodeDB} (self : BinaryToDatConverter)
    (fds : list field_def) (record_bytes : bytes) : Z :=
  sum_Z ((λ fd, errors_counted self fd (field_data_of record_bytes fd)) <$> fds).

Definition header_line (fds : list field_def) : pystr :=
  py_join CSV_DELIMITER ((λ field, CSV_QUOTECHAR ++ FIELD_NAME field ++ CSV_QUOTECHAR) <$> fds).

(** The first [k] records of [n] bytes each. *)
Fixpoint complete_records (k n : nat) (data : bytes) : list bytes :=
  match k with
  | O => []
  | S k' => take n data :: complete_records k' n (drop n data)
  end.

(** The type tokens the field decoder has a branch for. *)
Definition supported_type (data_type : pystr) : bool :=
  str_eqb data_type (py "X") || str_eqb data_type (py "9") || str_eqb data_type (py "N")
  || (py_startswith N.eqb (py "9") data_type && py_in (py "V9") data_type)
  || py_startswith N.eqb (py "V9") data_type
  || is_packed_type data_type.


(** The scale the decoder passes to [convert_comp3_bytes]; [None] is the
    missing numeric attribute of [PV9] and [PSV9]. *)
Definition comp3_scale `{UnicodeDB} (fd : field_def) : option Z :=
  let data_type := FIELD_TYPE fd in
  let is_PV9 :=
    py_startswith N.eqb (py "PV9") data_type || py_startswith N.eqb (py "PSV9") data_type in
  if py_in (py "V9") data_type || is_PV9 then
    if is_PV9 then FIELD_NUM_ATTRIBUTE fd
    else Some (get_digits_from_pic_type data_type).2
  else Some (-1)%Z.

(** The big-endian key of a byte pair: four upper-case hexadecimal
    digits. *)
Definition upper_hex_digit (n : N) : N := if n <? 10 then 0x30 + n else 0x41 + (n - 10).

Definition pair_key (b1 b2 : byte) : pystr :=
  [upper_hex_digit (Byte.to_N b1 / 16); upper_hex_digit (Byte.to_N b1 mod 16);
   upper_hex_digit (Byte.to_N b2 / 16); upper_hex_digit (Byte.to_N b2 mod 16)].

(** The byte pairs of a field, in order; a last byte without a partner is
    in no pair. *)
Fixpoint byte_pairs (b : bytes) : list (byte * byte) :=
  match b with
  | b1 :: b2 :: rest => (b1, b2) :: byte_pairs rest
  | _ => []
  end.



(** The number a string of ASCII digits denotes. *)
Definition decimal_value (digits : pystr) : Z :=
  Z.of_N (foldl (λ acc c, acc * 10 + (c - 0x30)) 0 digits).

Definition ascii_digits (digits : pystr) : Prop :=
  digits ≠ [] ∧ Forall (λ c, 0x30 <= c <= 0x39) digits.

(** The field of the packed-decimal scenario, [AMT,PS9(5)V9(2),,4,1]. *)
Definition AMT : field_def :=
  {| FIELD_NAME := py "AMT";
     FIELD_TYPE := py "PS9(5)V9(2)";
     FIELD_NUM_ATTRIBUTE := None;
     FIELD_LENGTH := 4;
     FIELD_OFFSET := 0 |}.

(** A converter as [__main__] builds it, here with an empty conversion map. *)
Definition plain_converter : BinaryToDatConverter :=
  {| conversion_map := ∅;
     ebcdic_encoding := DEFAULT_EBCDIC_ENCODING;
     record_length := None;
     field_definitions := None;
     errors_encountered := 0 |}.

(** ** Further notions *)

(** The number the digit nibbles of a packed field denote, most
    significant first. *)
Definition packed_value (comp3_bytes : bytes) : Z :=
  Z.of_N (foldl (λ acc n, acc * 10 + n) 0 (digit_nibbles comp3_bytes)).

(** The sign nibble of a packed field is [0xD]. *)
Definition minus_sign (comp3_bytes : bytes) : bool :=
  bool_decide (sign_nibble_of comp3_bytes = Some 0x0D).

(** A field of EBCDIC digits [F0] to [F9], and the number they denote. *)
Definition zoned_digits (field_data : bytes) : Prop :=
  Forall (λ b, 0xF0 <= Byte.to_N b <= 0xF9) field_data.

Definition zoned_value (field_data : bytes) : Z :=
  Z.of_N (foldl (λ acc b, acc * 10 + (Byte.to_N b - 0xF0)) 0 field_data).

(** Bytes that fill a text field: NUL and the EBCDIC space. *)
Definition is_filler (b : byte) : bool := byte_eqb b x00 || byte_eqb b x40.

(** The fields lie one after the other from [offset] on, each of a
    positive length. *)
Fixpoint contiguous (offset : Z) (fds : list field_def) : Prop :=
  match fds with
  | [] => True
  | fd :: rest =>
      FIELD_OFFSET fd = offset ∧ (0 < FIELD_LENGTH fd)%Z
      ∧ contiguous (offset + FIELD_LENGTH fd) rest
  end.

(** The number of quote characters in a string. *)
Definition quote_count (s : pystr) : nat := length (filter (λ c, c = 0x22) s).

(** The entry that a line of the mapping file stores, if it stores one:
    the two parts of the stripped line, each stripped and in upper case. *)
Definition stored_entry `{UnicodeDB} (line : pystr) : option (pystr * pystr) :=
  if passed_over line then None
  else
    match py_split CSV_DELIMITER (py_strip line) with
    | [part0; part1] => Some (py_upper (py_strip part0), py_upper (py_strip part1))
    | _ => None
    end.

(** The key under which a line stores an entry, if it stores one. *)
Definition stored_key `{UnicodeDB} (line : pystr) : option pystr := fst <$> stored_entry line.

(** The number a string of hexadecimal digits denotes. *)
Definition hex_number (digits : pystr) : Z :=
  Z.of_N (foldl (λ acc c, acc * 16 + digit_value c) 0 digits).

(** A line that the DAT file takes: no character of it is a surrogate. *)
Definition encodable (line : pystr) : bool := forallb utf8_encodable line.

(** A byte pair whose mapped value [int] reads as a number that [chr]
    cannot take as a C [int]. *)
Definition overflows `{UnicodeDB} (conversion_map : gmap pystr pystr)
    (pair : byte * byte) : bool :=
  match conversion_map !! pair_key pair.1 pair.2 with
  | Some value =>
      match py_int 16 value with
      | Some code => negb ((-0x80000000 <=? code) && (code <? 0x80000000))%Z
      | None => false
      end
  | None => false
  end.

(** The glyph of a byte pair that does not overflow. *)
Definition pair_glyph `{UnicodeDB} (conversion_map : gmap pystr pystr)
    (pair : byte * byte) : N :=
  match jef_pair conversion_map pair.1 pair.2 with
  | Return c => c
  | Raise _ => UNDEFINED_CHAR_REPLACEMENT
  end.

(** The bytes of a double-byte field after the marker replacement. *)
Definition processed_bytes_of (jef_bytes : bytes) : bytes :=
  bytes_replace JEF_AT_MARK_PAIR_BYTES FULL_WIDTH_SPACE_EUC_JP jef_bytes.


(** A binary file with its COPY file converts without any error. *)
Definition converts `{UnicodeDB} (conversion_map : gmap pystr pystr)
    (file : bytes * option (list pystr)) : Prop :=
  ∃ result,
    process {| conversion_map := conversion_map;
               ebcdic_encoding := DEFAULT_EBCDIC_ENCODING;
               record_length := None;
               field_definitions := None;
               errors_encountered := 0 |} (Some file.1) file.2 = Some result
    ∧ return_code result = PROCESS_SUCCESS.

(** * Properties *)

(** Replace the literals of the goal by their code points. *)
Ltac py_literals :=
  repeat match goal with
         | |- context [py ?s] =>
             let v := eval vm_compute in (py s) in change (py s) with v
         end.

(** ** Stripping *)

Section strip.

Context {A : Type} (p : A → bool).

Lemma dropwhile_stop (x : A) (l : list A) : p x = false → dropwhile p (x :: l) = x :: l.
Proof. intros Hx. simpl. by rewrite Hx. Qed.

Lemma dropwhile_cases (l : list A) :
  dropwhile p l = [] ∨ ∃ x l', dropwhile p l = x :: l' ∧ p x = false.
Proof.
  induction l as [| x l IH]; simpl; [by left |].
  destruct (p x) eqn:Hx; [done |]. right. by exists x, l.
Qed.

Lemma dropwhile_all (l : list A) : forallb p l = true → dropwhile p l = [].
Proof.
  induction l as [| x l IH]; simpl; [done |].
  intros [Hx Hl]%andb_true_iff. rewrite Hx. auto.
Qed.

Lemma dropwhile_nil_all (l : list A) : dropwhile p l = [] → forallb p l = true.
Proof.
  induction l as [| x l IH]; simpl; [done |].
  destruct (p x); [auto | done].
Qed.

Lemma dropwhile_app_all (l k : list A) :
  forallb p l = true → dropwhile p (l ++ k) = dropwhile p k.
Proof.
  induction l as [| x l IH]; simpl; [done |].
  intros [Hx Hl]%andb_true_iff. rewrite Hx. auto.
Qed.

Lemma dropwhile_app_stop (l k : list A) :
  dropwhile p l ≠ [] → dropwhile p (l ++ k) = dropwhile p l ++ k.
Proof.
  induction l as [| x l IH]; simpl; [done |].
  destruct (p x); [auto | done].
Qed.

Lemma dropwhile_idemp (l : list A) : dropwhile p (dropwhile p l) = dropwhile p l.
Proof.
  destruct (dropwhile_cases l) as [-> | (x & l' & -> & Hx)]; [done |].
  by apply dropwhile_stop.
Qed.

Lemma takewhile_dropwhile (l : list A) : takewhile p l ++ dropwhile p l = l.
Proof.
  induction l as [| x l IH]; simpl; [done |].
  destruct (p x); simpl; [by rewrite IH | done].
Qed.

Lemma takewhile_all (l : list A) : forallb p (takewhile p l) = true.
Proof.
  induction l as [| x l IH]; simpl; [done |].
  destruct (p x) eqn:Hx; simpl; [by rewrite Hx | done].
Qed.

Lemma is_empty_snoc (l : list A) (x : A) : is_empty (l ++ [x]) = false.
Proof. by destruct l. Qed.

(** Stripping on the right, read from the left. *)
Lemma rstrip_cons (x : A) (l : list A) :
  rev (dropwhile p (rev (x :: l)))
  = if p x && is_empty (rev (dropwhile p (rev l))) then []
    else x :: rev (dropwhile p (rev l)).
Proof.
  cbn [rev]. destruct (dropwhile_cases (rev l)) as [Hnil | (y & l' & Hcons & Hy)].
  - rewrite dropwhile_app_all by by apply dropwhile_nil_all.
    rewrite Hnil. simpl. by destruct (p x).
  - rewrite dropwhile_app_stop by by rewrite Hcons.
    rewrite Hcons, rev_app_distr. cbn [rev app].
    by rewrite is_empty_snoc, andb_false_r.
Qed.

Lemma rstrip_idemp (l : list A) :
  rev (dropwhile p (rev (rev (dropwhile p (rev l))))) = rev (dropwhile p (rev l)).
Proof. by rewrite rev_involutive, dropwhile_idemp. Qed.

(** Stripping on the right keeps a first element that is kept on the left. *)
Lemma rstrip_stop (x : A) (l : list A) :
  p x = false → rev (dropwhile p (rev (x :: l))) = x :: rev (dropwhile p (rev l)).
Proof. intros Hx. by rewrite rstrip_cons, Hx. Qed.

End strip.

Lemma py_strip_idemp (s : pystr) : py_strip (py_strip s) = py_strip s.
Proof.
  unfold py_strip, py_lstrip, py_rstrip.
  destruct (dropwhile_cases py_isspace s) as [-> | (x & l & -> & Hx)]; [done |].
  rewrite rstrip_stop by done. rewrite dropwhile_stop by done.
  rewrite rstrip_stop by done. by rewrite rstrip_idemp.
Qed.

(** ** Integers from text *)

Section int.

Context `{UnicodeDB}.

Lemma is_decimal_spec (c : N) :
  is_decimal c = true → ∃ d, py_decimal c = Some d ∧ d < 10 ∧ int_to_ascii c = 0x30 + d.
Proof.
  unfold is_decimal. intros [d Hd]%bool_decide_eq_true. exists d. split; [done |].
  unfold int_to_ascii. revert Hd. unfold py_decimal.
  destruct (N.leb_spec 0x30 c), (N.leb_spec c 0x39); cbn [andb].
  - intros [= <-]. destruct (N.ltb_spec c 127); [| lia]. split; lia.
  - destruct (N.ltb_spec c 0x80); [done |]. cbn [orb].
    destruct (py_isspace c); [done |].
    destruct (ucd_decimal c) as [d' |]; [| done].
    destruct (N.ltb_spec d' 10); [| done]. intros [= ->].
    destruct (N.ltb_spec c 127); [lia |]. done.
  - destruct (N.ltb_spec c 0x80); [done |]. lia.
  - destruct (N.ltb_spec c 0x80); [done |]. lia.
Qed.

Lemma ascii_digit_facts (e : N) :
  0x30 <= e <= 0x39 →
  c_isspace e = false ∧ (e =? 0x2B) = false ∧ (e =? 0x2D) = false
  ∧ (e =? 0x5F) = false ∧ digit_value e = e - 0x30 ∧ (digit_value e <? 10) = true.
Proof.
  intros He. unfold c_isspace, digit_value.
  repeat match goal with
         | |- context [?a <=? ?b] => destruct (N.leb_spec a b); try lia
         | |- context [?a =? ?b] => destruct (N.eqb_spec a b); try lia
         end;
    cbn; repeat split; try done; destruct (N.ltb_spec (e - 48) 10); lia.
Qed.

(** The scan of a run of ASCII digits takes all of it. *)
Lemma int_digits_run (t : pystr) :
  ∀ prev acc,
    Forall (λ e, 0x30 <= e <= 0x39) t →
    prev ≠ 0x5F →
    int_digits 10 prev acc t
    = Some (foldl (λ acc c, acc * 10 + (c - 0x30)) acc t, []).
Proof.
  induction t as [| e t IH]; intros prev acc Hall Hprev; cbn [int_digits foldl].
  - by destruct (N.eqb_spec prev 0x5F).
  - apply Forall_cons in Hall as [He Hall].
    destruct (ascii_digit_facts e He) as (_ & _ & _ & Hus & Hval & Hlt).
    rewrite Hus, Hlt, Hval. apply IH; [done |]. apply N.eqb_neq. done.
Qed.

(** [int] of a string whose characters turn into ASCII digits. *)
Lemma py_int_digits (s : pystr) :
  s ≠ [] →
  Forall (λ e, 0x30 <= e <= 0x39) (int_to_ascii <$> s) →
  py_int 10 s = Some (decimal_value (int_to_ascii <$> s)).
Proof.
  intros Hne Hall. unfold py_int, decimal_value.
  destruct (int_to_ascii <$> s) as [| e t] eqn:Ht; [by destruct s |].
  pose proof Hall as [He Hall']%Forall_cons.
  destruct (ascii_digit_facts e He) as (Hsp & Hplus & Hminus & Hus & Hval & Hlt).
  cbn [dropwhile]. rewrite Hsp, Hplus, Hminus.
  assert (Hprefix : match e :: t with
                    | c :: x :: t' =>
                        if (c =? 0x30) && (10 =? 16) && ((x =? 0x78) || (x =? 0x58))
                        then match t' with
                             | u :: t'' => if u =? 0x5F then t'' else t'
                             | [] => t'
                             end
                        else e :: t
                    | _ => e :: t
                    end = e :: t).
  { destruct t; [done |]. by rewrite andb_false_r. }
  rewrite Hprefix. rewrite Hlt. cbn [negb].
  rewrite int_digits_run by done. reflexivity.
Qed.

Lemma int_to_ascii_digit (s : pystr) :
  Forall (λ c, 0x30 <= c <= 0x39) s → int_to_ascii <$> s = s.
Proof.
  induction 1 as [| c s Hc Hs IH]; [done |]. rewrite fmap_cons, IH. f_equal.
  unfold int_to_ascii. destruct (N.ltb_spec c 127); [done | lia].
Qed.

(** [int] of a string of ASCII digits is the number it denotes. *)
Lemma py_int_ascii_digits (digits : pystr) :
  ascii_digits digits → py_int 10 digits = Some (decimal_value digits).
Proof.
  intros [Hne Hall]. rewrite py_int_digits by by rewrite ?int_to_ascii_digit.
  by rewrite int_to_ascii_digit.
Qed.

(** [int] does not fail on what [\d+] captures, and is not negative. *)
Lemma py_int_decimals (s : pystr) :
  s ≠ [] → forallb is_decimal s = true →
  ∃ n, py_int 10 s = Some n ∧ (0 <= n)%Z.
Proof.
  intros Hne Hall. exists (decimal_value (int_to_ascii <$> s)).
  split; [| unfold decimal_value; lia]. apply py_int_digits; [done |].
  rewrite forallb_forall in Hall. apply Forall_fmap, Forall_forall.
  intros c Hc%list_elem_of_In%Hall. cbv beta. unfold compose.
  destruct (is_decimal_spec c Hc) as (d & _ & Hd & ->). lia.
Qed.

End int.

(** ** Packed decimal *)

Section comp3.

Lemma py_str_digit (n : N) : n <= 9 → py_str n = [0x30 + n].
Proof.
  intros Hn.
  assert (Hcases : n = 0 ∨ n = 1 ∨ n = 2 ∨ n = 3 ∨ n = 4 ∨ n = 5 ∨ n = 6
                   ∨ n = 7 ∨ n = 8 ∨ n = 9) by lia.
  repeat (destruct Hcases as [-> | Hcases]; [reflexivity |]).
  subst n. reflexivity.
Qed.

Lemma comp3_digit_loop_digits (body : bytes) (digits : list pystr) :
  Forall (λ n, n <= 9) (flat_map (λ b, [high_nibble b; low_nibble b]) body) →
  comp3_digit_loop body digits
  = Some (digits ++ ((λ n, [0x30 + n]) <$> flat_map (λ b, [high_nibble b; low_nibble b]) body)).
Proof.
  revert digits. induction body as [| b body IH]; intros digits Hall; simpl.
  - by rewrite app_nil_r.
  - simpl in Hall. apply Forall_cons in Hall as [Hhi Hall].
    apply Forall_cons in Hall as [Hlo Hall].
    assert (Hok : (0 <=? high_nibble b) && (high_nibble b <=? 9)
                  && (0 <=? low_nibble b) && (low_nibble b <=? 9) = true).
    { rewrite !andb_true_iff, !N.leb_le. lia. }
    rewrite Hok. simpl. rewrite IH by done.
    rewrite !py_str_digit by done. by rewrite <- app_assoc.
Qed.

Lemma concat_singletons (l : list N) : concat ((λ n, [0x30 + n]) <$> l) = (N.add 0x30) <$> l.
Proof.
  induction l as [| x l IH]; [done |].
  rewrite !fmap_cons, concat_cons, IH. reflexivity.
Qed.

Lemma bytes_snoc (comp3_bytes : bytes) (last_byte : byte) :
  last comp3_bytes = Some last_byte →
  comp3_bytes = removelast comp3_bytes ++ [last_byte].
Proof.
  intros Hlast. destruct (decide (comp3_bytes = [])) as [-> | Hne]; [done |].
  destruct (exists_last Hne) as (body & l & ->).
  rewrite last_snoc in Hlast. injection Hlast as ->.
  by rewrite removelast_last.
Qed.

(** With valid digit nibbles the decoder reaches the formatting step on
    the digit string of the field. *)
Lemma convert_comp3_bytes_valid (comp3_bytes : bytes) (decimal_places : Z) (last_byte : byte) :
  last comp3_bytes = Some last_byte →
  Forall (λ n, n <= 9) (digit_nibbles comp3_bytes) →
  convert_comp3_bytes comp3_bytes decimal_places
  = match py_lstrip_zero (N.add 0x30 <$> digit_nibbles comp3_bytes) with
    | [] =>
        Some (if ((0 <=? decimal_places) && (0 <? decimal_places))%Z
              then py "0." ++ py_repeat 0x30 decimal_places
              else py "0")
    | (_ :: _) as all_digits =>
        let numeric_string :=
          if (0 <=? decimal_places)%Z then
            if (decimal_places =? 0)%Z then all_digits
            else if (decimal_places >=? py_len all_digits)%Z then
              py "0." ++ py_repeat 0x30 (decimal_places - py_len all_digits) ++ all_digits
            else
              py_prefix (py_len all_digits - decimal_places) all_digits ++ py "."
                ++ py_suffix (py_len all_digits - decimal_places) all_digits
          else all_digits in
        Some (if low_nibble last_byte =? 0x0D then py "-" ++ numeric_string
              else numeric_string)
    end.
Proof.
  intros Hlast Hvalid. unfold digit_nibbles in *. unfold convert_comp3_bytes.
  rewrite Hlast in *. apply Forall_app in Hvalid as [Hbody Hhigh].
  apply Forall_cons in Hhigh as [Hhigh _].
  rewrite comp3_digit_loop_digits by done. rewrite app_nil_l.
  assert (Hok : (0 <=? high_nibble last_byte) && (high_nibble last_byte <=? 9) = true).
  { rewrite andb_true_iff, !N.leb_le. lia. }
  rewrite Hok. cbn [negb]. rewrite py_str_digit by done.
  rewrite concat_app, concat_singletons, fmap_app. cbn [concat fmap list_fmap app].
  destruct (py_lstrip_zero _); reflexivity.
Qed.

Lemma lstrip_zero_nil (nibbles : list N) :
  py_lstrip_zero (N.add 0x30 <$> nibbles) = [] ↔ Forall (λ n, n = 0) nibbles.
Proof.
  unfold py_lstrip_zero. induction nibbles as [| n nibbles IH].
  - split; [constructor | done].
  - rewrite fmap_cons. cbn [dropwhile]. destruct (N.eqb_spec 0x30 (0x30 + n)) as [Heq | Hne].
    + rewrite IH. split.
      * intros Hall. constructor; [lia | done].
      * by intros [_ Hall]%Forall_cons.
    + split; [done |]. intros [Hz _]%Forall_cons. lia.
Qed.

Lemma comp3_digit_loop_invalid (body : bytes) (digits : list pystr) :
  Exists (λ n, 9 < n) (flat_map (λ b, [high_nibble b; low_nibble b]) body) →
  comp3_digit_loop body digits = None.
Proof.
  revert digits. induction body as [| b body IH]; intros digits Hbad; simpl in *.
  { by apply Exists_nil in Hbad. }
  destruct (negb _) eqn:Hcheck; [done |]. apply IH.
  apply negb_false_iff in Hcheck. rewrite !andb_true_iff, !N.leb_le in Hcheck.
  apply Exists_cons in Hbad as [Hhi | Hbad]; [lia |].
  apply Exists_cons in Hbad as [Hlo | Hbad]; [lia | done].
Qed.

(** A digit nibble above 9 makes the decoder return [None]. *)
Lemma convert_comp3_bytes_invalid (comp3_bytes : bytes) (decimal_places : Z) :
  Exists (λ n, 9 < n) (digit_nibbles comp3_bytes) →
  convert_comp3_bytes comp3_bytes decimal_places = None.
Proof.
  unfold digit_nibbles, convert_comp3_bytes.
  destruct (last comp3_bytes) as [last_byte |]; [| by intros ?%Exists_nil].
  intros [Hbody | Hlast]%Exists_app.
  - by rewrite comp3_digit_loop_invalid.
  - destruct (comp3_digit_loop _ _); [| done].
    apply Exists_cons in Hlast as [Hhigh | ?%Exists_nil]; [| done].
    destruct (negb _) eqn:Hcheck; [done |].
    apply negb_false_iff in Hcheck. rewrite !andb_true_iff, !N.leb_le in Hcheck. lia.
Qed.

Lemma dropwhile_subset {A} (p : A → bool) (x : A) (l : list A) :
  x ∈ dropwhile p l → x ∈ l.
Proof.
  induction l as [| y l IH]; [done |]. cbn [dropwhile].
  destruct (p y); [| done]. intros Hin. right. auto.
Qed.



End comp3.

(** ** The picture analyser *)

Section pic.

Context `{UnicodeDB}.










Lemma startswith_app (sub rest : pystr) : py_startswith N.eqb sub (sub ++ rest) = true.
Proof.
  induction sub as [| c sub IH]; [done |]. cbn. by rewrite N.eqb_refl, IH.
Qed.

Lemma py_in_unfold (sub s : pystr) :
  py_in sub s
  = py_startswith N.eqb sub s
    || match s with
       | [] => false
       | _ :: s' => py_in sub s'
       end.
Proof. by destruct s. Qed.

Lemma py_in_app (sub before after : pystr) : py_in sub (before ++ sub ++ after) = true.
Proof.
  induction before as [| c before IH]; cbn [app]; rewrite py_in_unfold.
  - by rewrite startswith_app.
  - by rewrite IH, orb_true_r.
Qed.

Lemma takewhile_app_stop {A} (p : A → bool) (l k : list A) (x : A) :
  forallb p l = true → p x = false → takewhile p (l ++ x :: k) = l.
Proof.
  intros Hall Hx. induction l as [| y l IH]; cbn [app takewhile].
  - by rewrite Hx.
  - cbn in Hall. apply andb_true_iff in Hall as [-> Hall]. by rewrite IH.
Qed.

Lemma ascii_digit_is_decimal (c : N) : 0x30 <= c <= 0x39 → is_decimal c = true.
Proof.
  intros Hc. unfold is_decimal, py_decimal.
  destruct (N.leb_spec 0x30 c), (N.leb_spec c 0x39); try lia.
  by apply bool_decide_eq_true.
Qed.

Lemma ascii_digits_decimal (digits : pystr) :
  Forall (λ c, 0x30 <= c <= 0x39) digits → forallb is_decimal digits = true.
Proof.
  induction 1 as [| c s Hc Hs IH]; [done |]. cbn.
  by rewrite ascii_digit_is_decimal, IH.
Qed.

(** A parenthesised count of ASCII digits is matched whole. *)
Lemma match_count_digits (digits rest : pystr) :
  ascii_digits digits →
  match_count (py "(" ++ digits ++ py ")" ++ rest) = Some (digits, rest).
Proof.
  intros [Hne Hall]. py_literals. cbn [app match_count N.eqb Pos.eqb].
  rewrite takewhile_app_stop, dropwhile_app_all by by auto using ascii_digits_decimal.
  cbn. by destruct digits.
Qed.

(** What the analyser captures is a number that is not negative. *)
Lemma match_count_decimals (s ds r : pystr) :
  match_count s = Some (ds, r) → ds ≠ [] ∧ forallb is_decimal ds = true.
Proof.
  destruct s as [| c s]; [done |]. cbn [match_count]. destruct (c =? 0x28); [| done].
  pose proof (takewhile_all is_decimal s) as Hall.
  destruct (takewhile is_decimal s) as [| d ds']; [done |].
  destruct (dropwhile is_decimal s) as [| c' s2]; [done |].
  destruct (c' =? 0x29); [| done]. by intros [= <- _].
Qed.

Lemma optional_count_decimals (s ds : pystr) :
  (optional_count s).1 = Some ds → ds ≠ [] ∧ forallb is_decimal ds = true.
Proof.
  unfold optional_count. destruct (match_count s) as [[ds' r] |] eqn:Hcount; [| done].
  intros [= ->]. by eapply match_count_decimals.
Qed.

Lemma optional_scale_decimals (s ds : pystr) :
  (optional_scale s).1 = Some ds → ds ≠ [] ∧ forallb is_decimal ds = true.
Proof.
  unfold optional_scale. destruct s as [| c1 [| c2 s']]; try done.
  destruct (_ && _); [| done]. apply optional_count_decimals.
Qed.

Lemma int_of_group_nonneg (ds : pystr) :
  ds ≠ [] → forallb is_decimal ds = true → (0 <= int_of_group ds)%Z.
Proof.
  intros Hne Hall. unfold int_of_group.
  by destruct (py_int_decimals ds Hne Hall) as (n & -> & Hn).
Qed.

Lemma get_digits_nonneg (pic_type_str : pystr) :
  (0 <= (get_digits_from_pic_type pic_type_str).1)%Z
  ∧ (0 <= (get_digits_from_pic_type pic_type_str).2)%Z.
Proof.
  unfold get_digits_from_pic_type, match_pic.
  destruct (dropwhile is_PSV pic_type_str) as [| c s1]; [done |].
  destruct (c =? 0x39); [| done].
  pose proof (optional_count_decimals s1) as Hone.
  destruct (optional_count s1) as [arg1 s2].
  pose proof (optional_scale_decimals s2) as Htwo.
  destruct (optional_scale s2) as [arg2 s3].
  destruct (at_end s3); [| done]. cbn [fst snd] in *. split.
  - destruct arg1 as [a |]; [| done]. by apply int_of_group_nonneg; apply (Hone a).
  - destruct arg2 as [a |]; [| done]. destruct (py_in _ _); [| done].
    by apply int_of_group_nonneg; apply (Htwo a).
Qed.

(** The analyser on a token with both counts: markers, [9(m)V9(n)]. *)
Lemma get_digits_both_counts (markers m n : pystr) :
  forallb is_PSV markers = true →
  ascii_digits m → ascii_digits n →
  get_digits_from_pic_type
    (markers ++ py "9" ++ py "(" ++ m ++ py ")" ++ py "V9" ++ py "(" ++ n ++ py ")")
  = (decimal_value m, decimal_value n).
Proof.
  intros Hmarkers Hm Hn.
  assert (HV : py_in (py "V")
                 (markers ++ py "9" ++ py "(" ++ m ++ py ")" ++ py "V9" ++ py "(" ++ n ++ py ")")
               = true).
  { change (py "V9") with (py "V" ++ py "9").
    replace (markers ++ py "9" ++ py "(" ++ m ++ py ")" ++ (py "V" ++ py "9") ++ py "(" ++ n ++ py ")")
      with ((markers ++ py "9" ++ py "(" ++ m ++ py ")") ++ py "V" ++ (py "9" ++ py "(" ++ n ++ py ")"))
      by (by rewrite <- !app_assoc).
    apply py_in_app. }
  unfold get_digits_from_pic_type. rewrite HV. unfold match_pic.
  rewrite dropwhile_app_all by done.
  change (py "9" ++ ?r) with (0x39 :: r). cbn [dropwhile is_PSV N.eqb Pos.eqb orb].
  unfold optional_count at 1. rewrite match_count_digits by done.
  change (py "V9" ++ ?r) with (0x56 :: 0x39 :: r).
  unfold optional_scale. cbn [N.eqb Pos.eqb andb]. unfold optional_count.
  replace (py "(" ++ n ++ py ")") with (py "(" ++ n ++ py ")" ++ []) by by rewrite app_nil_r.
  rewrite match_count_digits by done. cbn [at_end].
  unfold int_of_group. by rewrite !py_int_ascii_digits.
Qed.

End pic.

(** ** Dispatch on the type token *)

Section dispatch.

Context `{UnicodeDB}.

Lemma startswith_cons (a : N) (p s : pystr) :
  py_startswith N.eqb (a :: p) s = true ↔ ∃ s', s = a :: s' ∧ py_startswith N.eqb p s' = true.
Proof.
  destruct s as [| b s]; cbn [py_startswith].
  - split; [done | by intros (? & ? & _)].
  - rewrite andb_true_iff, N.eqb_eq. split.
    + intros [-> Hp]. by exists s.
    + by intros (s' & [= -> ->] & Hp).
Qed.

(** A packed type token begins with [P] or [S]. *)
Lemma packed_type_head (data_type : pystr) :
  is_packed_type data_type = true →
  ∃ c rest, data_type = c :: rest ∧ (c = 0x50 ∨ c = 0x53).
Proof.
  unfold is_packed_type, str_eqb. cbn [existsb]. py_literals.
  rewrite !orb_true_iff, !bool_decide_eq_true.
  intros [[Hp | [Hp | [Hp | [Hp | ?]]]] | [-> | [-> | ?]]]; try done;
    try (apply startswith_cons in Hp as (rest & -> & _)); eauto.
Qed.

Lemma packed_type_not_earlier (data_type : pystr) :
  is_packed_type data_type = true →
  str_eqb data_type (py "X") = false
  ∧ str_eqb data_type (py "9") = false
  ∧ str_eqb data_type (py "N") = false
  ∧ py_startswith N.eqb (py "9") data_type = false
  ∧ py_startswith N.eqb (py "V9") data_type = false.
Proof.
  intros (c & rest & -> & Hc)%packed_type_head. unfold str_eqb.
  repeat split; try (apply bool_decide_eq_false; intros [= -> _]; by destruct Hc);
    cbn; destruct Hc as [-> | ->]; done.
Qed.

Lemma convert_field_packed (self : BinaryToDatConverter) (fd : field_def)
    (field_data : bytes) :
  is_packed_type (FIELD_TYPE fd) = true →
  _convert_field self fd field_data
  = match comp3_scale fd with
    | None => (py "ERROR(PV9/PSV9_NO_ATTR):" ++ bytes_hex field_data, count_error self)
    | Some decimal_places =>
        match convert_comp3_bytes field_data decimal_places with
        | None => (py "ERROR(COMP3_INVALID):" ++ bytes_hex field_data, count_error self)
        | Some converted_value => (converted_value, self)
        end
    end.
Proof.
  intros Hpacked.
  destruct (packed_type_not_earlier _ Hpacked) as (HX & H9 & HN & Hs9 & HsV9).
  unfold _convert_field, comp3_scale.
  rewrite HX, H9, HN, Hs9, HsV9, Hpacked. cbn [andb].
  by destruct (get_digits_from_pic_type _).
Qed.

Lemma convert_field_unsupported (self : BinaryToDatConverter) (fd : field_def)
    (field_data : bytes) :
  supported_type (FIELD_TYPE fd) = false →
  _convert_field self fd field_data
  = (py "UNSUPPORTED_TYPE(" ++ FIELD_TYPE fd ++ py "):" ++ bytes_hex field_data,
     count_error self).
Proof.
  unfold supported_type. rewrite !orb_false_iff.
  intros [[[[[HX H9] HN] Hzoned] HV9] Hpacked].
  unfold _convert_field. by rewrite HX, H9, HN, Hzoned, HV9, Hpacked.
Qed.




End dispatch.

(** ** Tokens with a bare scale marker *)

Section bare_scale.

Context `{UnicodeDB}.




End bare_scale.

(** ** Zoned decimal with a scale *)

Lemma convert_ebcdic_to_string_stripped (ebcdic_bytes : bytes) (enc : byte → option N) :
  py_strip (convert_ebcdic_to_string ebcdic_bytes enc)
  = convert_ebcdic_to_string ebcdic_bytes enc.
Proof. unfold convert_ebcdic_to_string. apply py_strip_idemp. Qed.

(** What [convert_ebcdic_zoned_decimal] returns, by cases on the decoded
    string and the number of decimal digits. *)
Lemma convert_ebcdic_zoned_decimal_cases (ebcdic_bytes : bytes) (decimal_digits : Z)
    (enc : byte → option N) :
  let digits := convert_ebcdic_to_string ebcdic_bytes enc in
  convert_ebcdic_zoned_decimal ebcdic_bytes decimal_digits enc
  = if is_empty digits then []
    else if (decimal_digits <=? 0)%Z then digits
    else zoned_rule_as_specified digits decimal_digits.
Proof.
  intros digits. unfold convert_ebcdic_zoned_decimal, zoned_rule_as_specified.
  rewrite convert_ebcdic_to_string_stripped. fold digits.
  destruct (is_empty digits); [done |].
  destruct (Z.ltb_spec decimal_digits 0), (Z.leb_spec decimal_digits 0); try lia; [done |..].
  - assert (decimal_digits = 0%Z) as -> by lia. done.
  - destruct (Z.eqb_spec decimal_digits 0); [lia | done].
Qed.

(** A type token that begins with [9] and contains [V9] is decoded by the
    scaled zoned-decimal branch. *)
Lemma convert_field_zoned `{UnicodeDB} (self : BinaryToDatConverter)
    (field_def : field_def) (field_data : bytes) :
  py_startswith N.eqb (py "9") (FIELD_TYPE field_def) = true →
  py_in (py "V9") (FIELD_TYPE field_def) = true →
  _convert_field self field_def field_data
  = (convert_ebcdic_zoned_decimal field_data
       (get_digits_from_pic_type (FIELD_TYPE field_def)).2 (ebcdic_encoding self), self).
Proof.
  intros H9 HV. unfold _convert_field, str_eqb.
  do 3 (let Heq := fresh "Heq" in
        case_bool_decide as Heq;
        [rewrite Heq in H9, HV; vm_compute in H9, HV; discriminate |]).
  rewrite H9, HV. cbn [andb]. by destruct (get_digits_from_pic_type _).
Qed.

(** ** The conversion map *)

Section conversion_map.

Context `{UnicodeDB}.

Lemma fullmatch_upper_hex_spec (s : pystr) :
  fullmatch_upper_hex s = true ↔ upper_hex_string s.
Proof.
  unfold upper_hex_string. destruct s as [| c s]; [by split; [| intros []] |].
  unfold fullmatch_upper_hex. rewrite forallb_forall, Forall_forall.
  split.
  - intros Hall. split; [done |]. intros x Hx%list_elem_of_In%Hall.
    unfold is_upper_hex in Hx. rewrite orb_true_iff, !andb_true_iff, !N.leb_le in Hx. lia.
  - intros [_ Hall] x Hx%list_elem_of_In%Hall.
    unfold is_upper_hex. rewrite orb_true_iff, !andb_true_iff, !N.leb_le. lia.
Qed.

(** Every entry of the table has an upper-case hexadecimal key and value. *)
Definition hex_table (m : gmap pystr pystr) : Prop :=
  map_Forall (λ k v, upper_hex_string k ∧ upper_hex_string v) m.

Lemma load_conversion_line_hex (m : gmap pystr pystr) (line : pystr) :
  hex_table m → hex_table (load_conversion_line m line).
Proof.
  intros Hm. unfold load_conversion_line.
  destruct (_ || _); [done |].
  destruct (py_split _ _) as [| part0 [| part1 [| ? ?]]]; try done.
  destruct (fullmatch_upper_hex (py_upper (py_strip part0))) eqn:Hsrc; [| done].
  destruct (fullmatch_upper_hex (py_upper (py_strip part1))) eqn:Hdst; [| done].
  apply map_Forall_insert_2; [| done].
  by rewrite <- !fullmatch_upper_hex_spec.
Qed.

Lemma load_conversion_lines_hex (lines : list pystr) (m : gmap pystr pystr) :
  hex_table m → hex_table (foldl load_conversion_line m lines).
Proof.
  revert m. induction lines as [| line lines IH]; intros m Hm; [done |].
  simpl. by apply IH, load_conversion_line_hex.
Qed.

Lemma load_conversion_line_passed_over (m : gmap pystr pystr) (line : pystr) :
  passed_over line = true → load_conversion_line m line = m.
Proof.
  unfold passed_over, blank_line, comment_line, malformed_line, load_conversion_line.
  destruct (is_empty (py_strip line) || py_startswith N.eqb (py "#") (py_strip line));
    [done |]. cbn [orb].
  destruct (py_split _ _) as [| part0 [| part1 [| ? ?]]]; try done.
  by intros ->%negb_true_iff.
Qed.

Lemma load_conversion_lines_filter (lines : list pystr) (m : gmap pystr pystr) :
  foldl load_conversion_line m (filter (λ line, passed_over line = false) lines)
  = foldl load_conversion_line m lines.
Proof.
  revert m. induction lines as [| line lines IH]; intros m; [done |].
  rewrite filter_cons. case_decide as Hline; simpl.
  - apply IH.
  - apply not_false_is_true in Hline.
    by rewrite load_conversion_line_passed_over.
Qed.

(** A line that begins with [#] is a comment line: stripping keeps its
    first character. *)
Lemma comment_line_hash (line : pystr) :
  py_startswith N.eqb (py "#") line = true → comment_line line = true.
Proof.
  py_literals. intros (rest & -> & _)%startswith_cons.
  unfold comment_line, py_strip, py_lstrip, py_rstrip.
  rewrite dropwhile_stop by done. rewrite rstrip_stop by done.
  py_literals. cbn [py_startswith]. by rewrite N.eqb_refl.
Qed.

End conversion_map.

(** ** The field loop of the schema parser *)

Section schema.

Context `{UnicodeDB}.

Lemma declared_length_positive (line : pystr) (byte_length : Z) :
  declared_length line = Some byte_length → (0 < byte_length)%Z.
Proof.
  unfold declared_length. intros Hlen.
  repeat case_match; simplify_eq. lia.
Qed.

Lemma parse_field_line_view (i : Z) (line : pystr) (record_length current_offset : Z) :
  line_view i line record_length current_offset
    (parse_field_line i line record_length current_offset).
Proof.
  unfold parse_field_line.
  destruct (field_parts line) as [| p0 [| p1 [| p2 [| p3 [| p4 [| p5 ps]]]]]] eqn:Hparts;
    try (apply view_unsized; unfold declared_length; by rewrite Hparts).
  destruct (py_int 10 (py_strip p3)) as [byte_length |] eqn:Hp3;
    [| apply view_unsized; unfold declared_length; by rewrite Hparts, Hp3].
  destruct (py_int 10 (py_strip p4)) as [declared |] eqn:Hp4;
    [| apply view_unsized; unfold declared_length; by rewrite Hparts, Hp3, Hp4].
  destruct (Z.leb_spec byte_length 0) as [Hneg | Hpos].
  { apply view_unsized. unfold declared_length. rewrite Hparts, Hp3, Hp4.
    destruct (Z.ltb_spec 0 byte_length); [lia | done]. }
  assert (Hlen : declared_length line = Some byte_length).
  { unfold declared_length. rewrite Hparts, Hp3, Hp4.
    destruct (Z.ltb_spec 0 byte_length); [done | lia]. }
  destruct (Z.gtb_spec (current_offset + byte_length) record_length) as [Hover | Hfit].
  { apply view_overrun; [done | lia]. }
  destruct (py_isdigit (py_strip p2)) eqn:Hdigit.
  - destruct (py_int 10 (py_strip p2)) as [n |] eqn:Hp2.
    + eapply view_accept; [done | lia | | done | done].
      unfold attribute_ok. rewrite Hparts, Hdigit, Hp2. by rewrite bool_decide_eq_true_2.
    + eapply view_bad_attribute; [done | lia |].
      unfold attribute_ok. rewrite Hparts, Hdigit, Hp2. rewrite bool_decide_eq_false_2; [done |].
      by intros [? ?].
  - eapply view_accept; [done | lia | | done | done].
    unfold attribute_ok. by rewrite Hparts, Hdigit.
Qed.

Lemma running_offset_cons (line : pystr) (lines : list pystr) :
  running_offset (line :: lines)
  = (match accepted_length line with
     | Some byte_length => byte_length
     | None => 0
     end + running_offset lines)%Z.
Proof. unfold running_offset. simpl. by destruct (accepted_length line). Qed.

(** A field whose end exceeds the record aborts the loop. *)
Lemma parse_field_lines_overrun (record_length : Z) (lines : list pystr) :
  ∀ (i : Z) (field_definitions : list field_def) (current_offset : Z),
    overrun (record_length - current_offset) lines →
    ∃ j field_name field_end,
      parse_field_lines i lines record_length field_definitions current_offset
      = inl (FieldExceedsRecord j field_name field_end record_length).
Proof.
  induction lines as [| line lines IH]; intros i fds off (k & l & bl & Hk & Hl & Hover).
  { by rewrite lookup_nil in Hk. }
  cbn [parse_field_lines].
  destruct (parse_field_line_view i line record_length off)
    as [Hnone | bl' name Hlen Hbig | bl' Hlen Hfit Hattr | bl' fd Hlen Hfit Hattr Hfl Hfo].
  - destruct k as [| k]; simpl in Hk; [simplify_eq |].
    apply IH. exists k, l, bl. split; [done |]. split; [done |].
    rewrite firstn_cons, running_offset_cons in Hover.
    unfold accepted_length in Hover. rewrite Hnone in Hover.
    destruct (attribute_ok line); lia.
  - eauto.
  - destruct k as [| k]; simpl in Hk.
    { simplify_eq. rewrite take_0 in Hover. unfold running_offset in Hover.
      simpl in Hover. lia. }
    apply IH. exists k, l, bl. split; [done |]. split; [done |].
    rewrite firstn_cons, running_offset_cons in Hover.
    unfold accepted_length in Hover. rewrite Hattr in Hover. lia.
  - destruct k as [| k]; simpl in Hk.
    { simplify_eq. rewrite take_0 in Hover. unfold running_offset in Hover.
      simpl in Hover. lia. }
    apply IH. exists k, l, bl. split; [done |]. split; [done |].
    rewrite firstn_cons, running_offset_cons in Hover.
    unfold accepted_length in Hover. rewrite Hattr, Hlen in Hover. lia.
Qed.

(** What the loop returns: an error only for a field that overruns the
    record, else the fields of the accepted lines at their running
    offsets. *)
Lemma parse_field_lines_result (record_length : Z) (lines : list pystr) :
  ∀ (i : Z) (field_definitions : list field_def) (current_offset : Z),
    match parse_field_lines i lines record_length field_definitions current_offset with
    | inl e =>
        (∃ j field_name field_end,
           e = FieldExceedsRecord j field_name field_end record_length)
        ∧ overrun (record_length - current_offset) lines
    | inr (field_definitions', current_offset') =>
        ∃ new,
          field_definitions' = field_definitions ++ new
          ∧ FIELD_LENGTH <$> new = omap accepted_length lines
          ∧ current_offset' = (current_offset + running_offset lines)%Z
          ∧ Forall (λ fd, (current_offset <= FIELD_OFFSET fd)%Z
                          ∧ (0 < FIELD_LENGTH fd)%Z
                          ∧ (FIELD_OFFSET fd + FIELD_LENGTH fd <= record_length)%Z) new
          ∧ ((current_offset <= record_length)%Z → (current_offset' <= record_length)%Z)
    end.
Proof.
  induction lines as [| line lines IH]; intros i fds off.
  { cbn. exists []. rewrite app_nil_r. unfold running_offset. simpl.
    repeat split; [lia | constructor | done]. }
  cbn [parse_field_lines].
  destruct (parse_field_line_view i line record_length off)
    as [Hnone | bl' name Hlen Hbig | bl' Hlen Hfit Hattr | bl' fd Hlen Hfit Hattr Hfl Hfo].
  - specialize (IH (i + 1)%Z fds off).
    assert (Hacc : accepted_length line = None).
    { unfold accepted_length. rewrite Hnone. by destruct (attribute_ok line). }
    destruct (parse_field_lines _ lines _ _ _) as [e | [fds' off']].
    + destruct IH as [He (k & l & bl & Hk & Hl & Hover)]. split; [done |].
      exists (S k), l, bl. split; [done |]. split; [done |].
      by rewrite firstn_cons, running_offset_cons, Hacc.
    + destruct IH as (new & -> & Hlens & -> & Hall & Hle). exists new.
      rewrite running_offset_cons. cbn [omap list_omap]. rewrite Hacc.
      repeat split; try done; lia.
  - split; [eauto |]. exists 0%nat, line, bl'. split; [done |]. split; [done |].
    rewrite take_0. unfold running_offset. simpl. lia.
  - specialize (IH (i + 1)%Z fds off).
    assert (Hacc : accepted_length line = None).
    { unfold accepted_length. by rewrite Hattr. }
    destruct (parse_field_lines _ lines _ _ _) as [e | [fds' off']].
    + destruct IH as [He (k & l & bl & Hk & Hl & Hover)]. split; [done |].
      exists (S k), l, bl. split; [done |]. split; [done |].
      by rewrite firstn_cons, running_offset_cons, Hacc.
    + destruct IH as (new & -> & Hlens & -> & Hall & Hle). exists new.
      rewrite running_offset_cons. cbn [omap list_omap]. rewrite Hacc.
      repeat split; try done; lia.
  - specialize (IH (i + 1)%Z (fds ++ [fd]) (off + FIELD_LENGTH fd)%Z).
    assert (Hacc : accepted_length line = Some bl').
    { unfold accepted_length. by rewrite Hattr. }
    pose proof (declared_length_positive _ _ Hlen) as Hpos.
    destruct (parse_field_lines _ lines _ _ _) as [e | [fds' off']].
    + destruct IH as [He (k & l & bl & Hk & Hl & Hover)]. split; [done |].
      exists (S k), l, bl. split; [done |]. split; [done |].
      rewrite firstn_cons, running_offset_cons, Hacc. lia.
    + destruct IH as (new & -> & Hlens & -> & Hall & Hle). exists (fd :: new).
      rewrite running_offset_cons. cbn [omap list_omap]. rewrite Hacc.
      rewrite <- app_assoc. split; [done |].
      split. { rewrite fmap_cons, Hlens, Hfl. done. }
      split; [lia |]. split.
      * constructor; [lia |]. eapply Forall_impl; [exact Hall |].
        intros fd' (? & ? & ?). cbv beta. lia.
      * intros _. apply Hle. lia.
Qed.

End schema.

(** ** The schema parser as a whole *)

Section parse_cpy.

Context `{UnicodeDB}.

Lemma parse_cpy_short (cpy_lines : list pystr) :
  (length cpy_lines < 3)%nat →
  parse_cpy_field_definitions cpy_lines = inl InsufficientLines.
Proof.
  intros Hlen. unfold parse_cpy_field_definitions, py_len.
  destruct (Z.ltb_spec (Z.of_nat (length cpy_lines)) 3); [done | lia].
Qed.

Lemma parse_cpy_bad_length (cpy_lines : list pystr) :
  (3 <= length cpy_lines)%nat →
  record_length_of cpy_lines = None →
  parse_cpy_field_definitions cpy_lines = inl RecordLengthNotANumber
  ∨ ∃ n, parse_cpy_field_definitions cpy_lines = inl (InvalidRecordLength n).
Proof.
  intros Hlen. unfold record_length_of, parse_cpy_field_definitions, py_len.
  destruct (Z.ltb_spec (Z.of_nat (length cpy_lines)) 3); [lia |].
  destruct (py_int 10 _) as [n |]; [| by left].
  destruct (Z.ltb_spec 0 n); [done |]. intros _. right. exists n.
  destruct (Z.leb_spec n 0); [done | lia].
Qed.

Lemma parse_cpy_fields (cpy_lines : list pystr) (record_length : Z) :
  (3 <= length cpy_lines)%nat →
  record_length_of cpy_lines = Some record_length →
  parse_cpy_field_definitions cpy_lines
  = match parse_field_lines 3 (drop 2 cpy_lines) record_length [] 0 with
    | inl e => inl e
    | inr (field_definitions, _) =>
        if is_empty field_definitions then inl NoValidFields
        else inr (record_length, field_definitions)
    end
  ∧ (0 < record_length)%Z.
Proof.
  intros Hlen. unfold record_length_of, parse_cpy_field_definitions, py_len.
  destruct (Z.ltb_spec (Z.of_nat (length cpy_lines)) 3); [lia |].
  destruct (py_int 10 _) as [n |]; [| done].
  destruct (Z.ltb_spec 0 n); [| done]. intros [= ->].
  destruct (Z.leb_spec record_length 0); [lia |]. split; [| done].
  by destruct (parse_field_lines _ _ _ _ _) as [e | [fds off]].
Qed.

Lemma parse_cpy_success (cpy_lines : list pystr) (record_length : Z)
    (field_definitions : list field_def) :
  parse_cpy_field_definitions cpy_lines = inr (record_length, field_definitions) →
  (3 <= length cpy_lines)%nat ∧ record_length_of cpy_lines = Some record_length.
Proof.
  unfold record_length_of, parse_cpy_field_definitions, py_len.
  destruct (Z.ltb_spec (Z.of_nat (length cpy_lines)) 3); [done |].
  destruct (py_int 10 _) as [n |]; [| done].
  destruct (Z.leb_spec n 0); [done |].
  destruct (parse_field_lines _ _ _ _ _) as [e | [fds off]]; [done |].
  destruct (is_empty fds); [done |]. intros [= -> ->].
  split; [lia |]. destruct (Z.ltb_spec 0 record_length); [done | lia].
Qed.

Lemma is_empty_nil {A} (l : list A) : is_empty l = true ↔ l = [].
Proof. by destruct l. Qed.

Lemma sum_Z_lengths (fds : list field_def) (lines : list pystr) :
  FIELD_LENGTH <$> fds = omap accepted_length lines →
  sum_Z (FIELD_LENGTH <$> fds) = running_offset lines.
Proof. intros Heq. unfold running_offset. by rewrite Heq. Qed.

End parse_cpy.

(** ** The record loop *)

Section records.

Context `{UnicodeDB}.

Lemma with_errors_same (self : BinaryToDatConverter) :
  with_errors self (errors_encountered self) = self.
Proof. by destruct self. Qed.

(** Decoding a field reads the conversion map and the encoding only; the
    error counter is passed on, raised by one or not at all. *)
Lemma convert_field_frame (self : BinaryToDatConverter) (fd : field_def)
    (field_data : bytes) :
  ∃ value (failed : bool),
    ∀ n, _convert_field (with_errors self n) fd field_data
         = (value, with_errors self (n + if failed then 1 else 0)).
Proof.
  unfold _convert_field. cbn [with_errors ebcdic_encoding conversion_map].
  repeat match goal with
         | |- context [if ?c then _ else _] => destruct c
         | |- context [let '(_, _) := ?p in _] => destruct p
         | |- context [match ?o with Some _ => _ | None => _ end] => destruct o
         | |- context [match ?r with Return _ => _ | Raise _ => _ end] => destruct r
         end;
    eexists _, _; intros n;
    first [ instantiate (1 := false); unfold with_errors; cbn; do 2 f_equal; lia
          | instantiate (1 := true); unfold with_errors, count_error; cbn; do 2 f_equal; lia ].
Qed.

Lemma convert_field_decoded (self : BinaryToDatConverter) (fd : field_def)
    (field_data : bytes) :
  _convert_field self fd field_data
  = (decoded_value self fd field_data,
     with_errors self (errors_encountered self + errors_counted self fd field_data)).
Proof.
  unfold decoded_value, errors_counted.
  destruct (convert_field_frame self fd field_data) as (value & failed & Hframe).
  specialize (Hframe (errors_encountered self)). rewrite with_errors_same in Hframe.
  rewrite Hframe. cbn. do 2 f_equal. lia.
Qed.

Lemma decoded_value_with_errors (self : BinaryToDatConverter) (n : Z) (fd : field_def)
    (field_data : bytes) :
  decoded_value (with_errors self n) fd field_data = decoded_value self fd field_data.
Proof.
  unfold decoded_value.
  destruct (convert_field_frame self fd field_data) as (value & failed & Hframe).
  rewrite (Hframe n). specialize (Hframe (errors_encountered self)).
  rewrite with_errors_same in Hframe. by rewrite Hframe.
Qed.

Lemma errors_counted_with_errors (self : BinaryToDatConverter) (n : Z) (fd : field_def)
    (field_data : bytes) :
  errors_counted (with_errors self n) fd field_data = errors_counted self fd field_data.
Proof.
  unfold errors_counted.
  destruct (convert_field_frame self fd field_data) as (value & failed & Hframe).
  rewrite (Hframe n). specialize (Hframe (errors_encountered self)).
  rewrite with_errors_same in Hframe. rewrite Hframe. cbn. lia.
Qed.


Lemma record_slots_with_errors (self : BinaryToDatConverter) (n : Z)
    (fds : list field_def) (record_bytes : bytes) :
  record_slots (with_errors self n) fds record_bytes = record_slots self fds record_bytes.
Proof.
  unfold record_slots. apply list_fmap_ext. intros i fd _.
  by rewrite decoded_value_with_errors.
Qed.

Lemma record_errors_with_errors (self : BinaryToDatConverter) (n : Z)
    (fds : list field_def) (record_bytes : bytes) :
  record_errors (with_errors self n) fds record_bytes = record_errors self fds record_bytes.
Proof.
  unfold record_errors. f_equal. apply list_fmap_ext. intros i fd _.
  by rewrite errors_counted_with_errors.
Qed.


(** The field loop over one record: every field gets its slot, each slot
    is the field's own decoding, and the errors add up. *)
Lemma convert_record_slots (record_bytes : bytes) (fds : list field_def) :
  ∀ (self : BinaryToDatConverter) (output_fields : list pystr),
    convert_record self record_bytes fds output_fields
    = (output_fields ++ record_slots self fds record_bytes,
       with_errors self (errors_encountered self + record_errors self fds record_bytes)).
Proof.
  induction fds as [| fd fds IH]; intros self output_fields.
  { cbn. rewrite app_nil_r, Z.add_0_r. by rewrite with_errors_same. }
  cbn [convert_record]. rewrite convert_field_decoded, IH.
  rewrite record_slots_with_errors, record_errors_with_errors.
  rewrite <- app_assoc. f_equal.
  unfold record_errors. rewrite fmap_cons. cbn [sum_Z foldr].
  unfold with_errors. cbn [errors_encountered conversion_map ebcdic_encoding].
  f_equal. unfold sum_Z, field_data_of. lia.
Qed.

Lemma record_line_with_errors (self : BinaryToDatConverter) (n : Z)
    (fds : list field_def) (record_bytes : bytes) :
  record_line (with_errors self n) fds record_bytes = record_line self fds record_bytes.
Proof. unfold record_line. by rewrite record_slots_with_errors. Qed.

Lemma is_empty_length {A} (l : list A) : is_empty l = true ↔ length l = 0%nat.
Proof. by destruct l. Qed.

(** Nor does decoding read the schema attributes. *)
Lemma convert_field_schema (self : BinaryToDatConverter) (rl : option Z)
    (fds : option (list field_def)) (fd : field_def) (field_data : bytes) :
  _convert_field (set_schema self rl fds) fd field_data
  = ((_convert_field self fd field_data).1,
     set_schema (_convert_field self fd field_data).2 rl fds).
Proof.
  unfold _convert_field. cbn [set_schema ebcdic_encoding conversion_map].
  repeat match goal with
         | |- context [if ?c then _ else _] => destruct c
         | |- context [let '(_, _) := ?p in _] => destruct p
         | |- context [match ?o with Some _ => _ | None => _ end] => destruct o
         | |- context [match ?r with Return _ => _ | Raise _ => _ end] => destruct r
         end; reflexivity.
Qed.

Lemma record_line_schema (self : BinaryToDatConverter) (rl : option Z)
    (fds' : option (list field_def)) (fds : list field_def) (record_bytes : bytes) :
  record_line (set_schema self rl fds') fds record_bytes = record_line self fds record_bytes.
Proof.
  unfold record_line, record_slots. f_equal. apply list_fmap_ext. intros i fd _.
  unfold decoded_value. by rewrite convert_field_schema.
Qed.

Lemma record_errors_schema (self : BinaryToDatConverter) (rl : option Z)
    (fds' : option (list field_def)) (fds : list field_def) (record_bytes : bytes) :
  record_errors (set_schema self rl fds') fds record_bytes
  = record_errors self fds record_bytes.
Proof.
  unfold record_errors. f_equal. apply list_fmap_ext. intros i fd _.
  unfold errors_counted. by rewrite convert_field_schema.
Qed.

Lemma record_lines_with_errors (self : BinaryToDatConverter) (n : Z)
    (fds : list field_def) (records : list bytes) :
  record_line (with_errors self n) fds <$> records = record_line self fds <$> records.
Proof. apply list_fmap_ext. intros i record_bytes _. apply record_line_with_errors. Qed.

Lemma record_errors_list_with_errors (self : BinaryToDatConverter) (n : Z)
    (fds : list field_def) (records : list bytes) :
  record_errors (with_errors self n) fds <$> records = record_errors self fds <$> records.
Proof. apply list_fmap_ext. intros i record_bytes _. apply record_errors_with_errors. Qed.

Lemma record_lines_schema (self : BinaryToDatConverter) (rl : option Z)
    (fds' : option (list field_def)) (fds : list field_def) (records : list bytes) :
  record_line (set_schema self rl fds') fds <$> records = record_line self fds <$> records.
Proof. apply list_fmap_ext. intros i record_bytes _. apply record_line_schema. Qed.

Lemma record_errors_list_schema (self : BinaryToDatConverter) (rl : option Z)
    (fds' : option (list field_def)) (fds : list field_def) (records : list bytes) :
  record_errors (set_schema self rl fds') fds <$> records
  = record_errors self fds <$> records.
Proof. apply list_fmap_ext. intros i record_bytes _. apply record_errors_schema. Qed.

Lemma with_errors_twice (self : BinaryToDatConverter) (n m : Z) :
  with_errors (with_errors self n) m = with_errors self m.
Proof. reflexivity. Qed.


Lemma takewhile_length {A} (p : A → bool) (l : list A) :
  (length (takewhile p l) <= length l)%nat.
Proof. induction l as [| x l IH]; cbn; [lia |]. destruct (p x); cbn; lia. Qed.




(** The record loop on [k] complete records followed by [r] more bytes,
    fewer than a record.  The records are decoded and written in order
    until a line cannot be written: if every line can, all [k] are written
    and the rest, if any, counts as one error and is not decoded; if not,
    the loop is left by the exception of the first line that cannot, with
    the errors of the records decoded so far, that one included. *)
Lemma record_loop_runs (n : nat) (fds : list field_def) :
  (0 < n)%nat →
  ∀ (k : nat) (data : bytes) (st : loop_state) (fuel r : nat),
    length data = (k * n + r)%nat → (r < n)%nat → (k < fuel)%nat →
    let records := complete_records k n data in
    let written := takewhile encodable (record_line (converter st) fds <$> records) in
    record_loop fuel (Z.of_nat n) fds data st
    = Some
        (if decide (length written = k) then
           Finished
             {| dat_f := dat_f st ++ written;
                records_processed := records_processed st + Z.of_nat k;
                converter :=
                  with_errors (converter st)
                    (errors_encountered (converter st)
                     + sum_Z (record_errors (converter st) fds <$> records)
                     + (if decide (r = 0%nat) then 0 else 1)) |}
         else
           Raised
             {| dat_f := dat_f st ++ written;
                records_processed := records_processed st + Z.of_nat (S (length written));
                converter :=
                  with_errors (converter st)
                    (errors_encountered (converter st)
                     + sum_Z (record_errors (converter st) fds
                                <$> take (S (length written)) records)) |}).
Proof.
  intros Hn. induction k as [| k IH]; intros data st fuel r Hlen Hr Hfuel records written.
  - destruct fuel as [| fuel]; [lia |]. cbn [record_loop].
    subst records written. cbn [complete_records fmap list_fmap takewhile length].
    rewrite decide_True by done.
    rewrite Nat2Z.id. rewrite take_ge by lia.
    destruct st as [lines rp self]. cbn [dat_f records_processed converter sum_Z foldr].
    rewrite app_nil_r, !Z.add_0_r.
    destruct (decide (r = 0%nat)) as [-> | Hpos].
    + apply nil_length_inv in Hlen as ->. cbn. by rewrite Z.add_0_r, with_errors_same.
    + destruct data as [| b data]; [simpl in Hlen; lia |]. cbn [is_empty].
      unfold py_len. destruct (Z.eqb_spec (Z.of_nat (length (b :: data))) (Z.of_nat n)); [lia |].
      cbn [negb]. by destruct self.
  - destruct fuel as [| fuel]; [lia |]. cbn [record_loop].
    subst records written. cbn [complete_records]. rewrite fmap_cons.
    rewrite Nat2Z.id.
    assert (Htake : length (take n data) = n) by (rewrite length_take; lia).
    destruct (is_empty (take n data)) eqn:Hempty.
    { apply is_empty_length in Hempty. lia. }
    unfold py_len. rewrite Htake, Z.eqb_refl. cbn [negb].
    rewrite convert_record_slots. cbn [app].
    fold (record_line (converter st) fds (take n data)).
    unfold write. fold (encodable (record_line (converter st) fds (take n data))).
    cbn [takewhile]. destruct (encodable (record_line (converter st) fds (take n data))).
    + rewrite (IH (drop n data) _ fuel r); [| rewrite length_drop; lia | done | lia].
      destruct st as [lines rp self]. cbn [dat_f records_processed converter].
      rewrite record_lines_with_errors, record_errors_list_with_errors.
      rewrite with_errors_twice. cbn [length].
      set (written := takewhile encodable (record_line self fds <$> _)).
      cbn [with_errors errors_encountered].
      destruct (decide (length written = k)) as [Hall | Hstop].
      * rewrite (decide_True (P := S (length written) = S k)) by lia. do 3 f_equal.
        -- by rewrite <- app_assoc.
        -- lia.
        -- f_equal. rewrite fmap_cons. cbn [sum_Z foldr]. unfold sum_Z. lia.
      * rewrite (decide_False (P := S (length written) = S k)) by lia. do 3 f_equal.
        -- by rewrite <- app_assoc.
        -- lia.
        -- f_equal. cbn [take]. rewrite fmap_cons. cbn [sum_Z foldr].
           rewrite record_errors_list_with_errors. unfold sum_Z. lia.
    + cbn [length]. rewrite (decide_False (P := 0%nat = S k)) by lia.
      destruct st as [lines rp self]. cbn [dat_f records_processed converter].
      do 3 f_equal.
      * by rewrite app_nil_r.
      * cbn [take length]. rewrite take_0. cbn [fmap list_fmap sum_Z foldr]. f_equal. lia.
Qed.

End records.

(** ** One file *)

Section file.

Context `{UnicodeDB}.


(** [process] on a binary file of [k] complete records and [r] further
    bytes, with a schema that parses: it ends, and has written the header
    and the lines of the records up to the first line that cannot be
    written.  When all can, it has counted the errors of the fields and
    one more if [r] is not zero; when not, the status is the error status
    and the errors are those of the records decoded. *)
Lemma process_runs (self : BinaryToDatConverter) (bin_f : bytes) (lines : list pystr)
    (record_length : Z) (fds : list field_def) (k r : nat) :
  parse_cpy_field_definitions (read_cpy_file lines) = inr (record_length, fds) →
  length bin_f = (k * Z.to_nat record_length + r)%nat →
  (r < Z.to_nat record_length)%nat →
  let records := complete_records k (Z.to_nat record_length) bin_f in
  let written := takewhile encodable (record_line self fds <$> records) in
  let parsed := set_schema self (Some record_length) (Some fds) in
  process self (Some bin_f) (Some lines)
  = Some
      (if encodable (header_line fds) then
         if decide (length written = k) then
           let errors :=
             (sum_Z (record_errors self fds <$> records)
              + if decide (r = 0%nat) then 0 else 1)%Z in
           {| return_code :=
                if (errors =? 0)%Z then PROCESS_SUCCESS else PROCESS_ERROR_GENERAL;
              dat_file := Some (header_line fds :: written);
              final := with_errors parsed errors |}
         else
           {| return_code := PROCESS_ERROR_GENERAL;
              dat_file := Some (header_line fds :: written);
              final :=
                with_errors parsed
                  (sum_Z (record_errors self fds <$> take (S (length written)) records)) |}
       else
         {| return_code := PROCESS_ERROR_GENERAL;
            dat_file := Some [];
            final := with_errors parsed 0 |}).
Proof.
  intros Hparse Hlen Hr records written parsed. unfold process. rewrite Hparse.
  fold (header_line fds). unfold write at 1. fold (encodable (header_line fds)).
  destruct (encodable (header_line fds)); [| done].
  replace record_length with (Z.of_nat (Z.to_nat record_length)) at 1 by lia.
  rewrite (record_loop_runs (Z.to_nat record_length) fds ltac:(lia) k bin_f _ _ r);
    [| done | done | nia].
  cbn [dat_f records_processed converter].
  change (reset_errors (set_schema self (Some record_length) (Some fds)))
    with (with_errors parsed 0).
  rewrite record_lines_with_errors, !record_errors_list_with_errors.
  unfold parsed. rewrite record_lines_schema, !record_errors_list_schema.
  fold records written parsed. rewrite with_errors_twice.
  cbn [errors_encountered with_errors]. rewrite !Z.add_0_l.
  by destruct (decide (length written = k)).
Qed.




End file.

(** ** Field errors *)

Section field_errors.

Context `{UnicodeDB}.



End field_errors.

(** ** Double-byte text *)

Section jef.

Context `{UnicodeDB}.

Lemma pairs_ind (P : list byte → Prop) :
  P [] → (∀ b, P [b]) → (∀ b1 b2 rest, P rest → P (b1 :: b2 :: rest)) → ∀ l, P l.
Proof.
  intros Hnil Hone Hstep l. cut (P l ∧ ∀ b, P (b :: l)); [by intros [] |].
  induction l as [| b l [IH1 IH2]]; [by split |].
  split; [apply IH2 |]. intros b'. by apply Hstep.
Qed.

Lemma upper_hex_digit_upper (n : N) :
  n < 16 → upper_char (hex_digit n) = [upper_hex_digit n].
Proof.
  intros Hn.
  assert (Hcases : n = 0 ∨ n = 1 ∨ n = 2 ∨ n = 3 ∨ n = 4 ∨ n = 5 ∨ n = 6 ∨ n = 7
                   ∨ n = 8 ∨ n = 9 ∨ n = 10 ∨ n = 11 ∨ n = 12 ∨ n = 13 ∨ n = 14
                   ∨ n = 15) by lia.
  repeat (destruct Hcases as [-> | Hcases]; [reflexivity |]).
  subst n. reflexivity.
Qed.

(** The key the decoder looks up is the four-digit key of the pair. *)
Lemma hex_value_pair_key (b1 b2 : byte) :
  py_upper (bytes_hex [b1; b2]) = pair_key b1 b2.
Proof.
  pose proof (Byte.to_N_bounded b1). pose proof (Byte.to_N_bounded b2).
  unfold py_upper, bytes_hex, pair_key. cbn [fmap list_fmap concat app].
  rewrite !upper_hex_digit_upper; [done |..];
    first [apply N.mod_lt; lia | apply N.Div0.div_lt_upper_bound; lia].
Qed.

(** A pair raises exactly when it overflows, and gives its glyph when it
    does not. *)
Lemma jef_pair_cases (m : gmap (list N) (list N)) (b1 b2 : byte) :
  jef_pair m b1 b2
  = if overflows m (b1, b2) then Raise chr_overflow_message
    else Return (pair_glyph m (b1, b2)).
Proof.
  unfold overflows, pair_glyph. cbn [fst snd]. unfold jef_pair.
  rewrite hex_value_pair_key.
  destruct (m !! pair_key b1 b2) as [[| c value] |]; [done | | done].
  assert ((0 <? py_len (c :: value))%Z = true) as ->.
  { apply Z.ltb_lt. unfold py_len. cbn [length]. lia. }
  destruct (py_int 16 (c :: value)) as [code |]; [| done].
  unfold py_chr. destruct ((0 <=? code) && (code <? 0x110000))%Z eqn:Hrange.
  - destruct ((-0x80000000 <=? code) && (code <? 0x80000000))%Z eqn:Hint; [done | lia].
  - by destruct ((-0x80000000 <=? code) && (code <? 0x80000000))%Z.
Qed.



(** The loop raises when a pair overflows; when none does it appends one
    glyph for each pair and the placeholder for a last byte without a
    partner. *)
Lemma jef_loop_glyphs (m : gmap (list N) (list N)) (remaining : bytes) :
  ∀ result_text,
    jef_loop m remaining result_text
    = if existsb (overflows m) (byte_pairs remaining) then Raise chr_overflow_message
      else
        Return
          (result_text ++ (pair_glyph m <$> byte_pairs remaining)
             ++ (if Nat.odd (length remaining) then [UNDEFINED_CHAR_REPLACEMENT] else [])).
Proof.
  induction remaining as [| b | b1 b2 rest IH] using pairs_ind; intros result_text.
  - cbn. by rewrite app_nil_r.
  - reflexivity.
  - cbn [jef_loop byte_pairs existsb]. rewrite jef_pair_cases.
    destruct (overflows m (b1, b2)); [done |]. cbn [orb].
    rewrite IH, fmap_cons, <- app_assoc. reflexivity.
Qed.

Lemma existsb_Exists {A} (p : A → bool) (l : list A) :
  existsb p l = true ↔ Exists (λ x, p x = true) l.
Proof.
  induction l as [| x l IH]; cbn [existsb].
  - split; [done | by intros ?%Exists_nil].
  - rewrite Exists_cons, orb_true_iff. by rewrite IH.
Qed.

Lemma existsb_Forall {A} (p : A → bool) (l : list A) :
  existsb p l = false ↔ Forall (λ x, p x = false) l.
Proof.
  induction l as [| x l IH]; cbn [existsb].
  - split; [by constructor | done].
  - rewrite Forall_cons, orb_false_iff. by rewrite IH.
Qed.

(** The decoder as a whole, by the same cases. *)
Lemma convert_jef_chars_cases (jef_bytes : bytes) (m : gmap (list N) (list N)) :
  convert_jef_chars jef_bytes m
  = if existsb (overflows m) (byte_pairs (processed_bytes_of jef_bytes))
    then Raise chr_overflow_message
    else
      Return
        (py_strip
           ((pair_glyph m <$> byte_pairs (processed_bytes_of jef_bytes))
              ++ (if Nat.odd (length (processed_bytes_of jef_bytes))
                  then [UNDEFINED_CHAR_REPLACEMENT] else []))).
Proof.
  unfold convert_jef_chars. fold (processed_bytes_of jef_bytes).
  rewrite jef_loop_glyphs. by destruct (existsb _ _).
Qed.

Lemma byte_pairs_length (b : bytes) : length (byte_pairs b) = Nat.div2 (length b).
Proof. induction b as [| b | b1 b2 rest IH] using pairs_ind; simpl; auto. Qed.





End jef.

(** ** Values of digit strings *)

Section values.

Context `{UnicodeDB}.

Lemma foldl_digits_lstrip (s : pystr) :
  foldl (λ acc c, acc * 10 + (c - 0x30)) 0 (dropwhile (N.eqb 0x30) s)
  = foldl (λ acc c, acc * 10 + (c - 0x30)) 0 s.
Proof.
  induction s as [| c s IH]; [done |]. cbn [dropwhile].
  destruct (N.eqb_spec 0x30 c) as [<- | Hne]; [| done]. by rewrite IH.
Qed.

Lemma decimal_value_lstrip (s : pystr) :
  decimal_value (py_lstrip_zero s) = decimal_value s.
Proof. unfold decimal_value, py_lstrip_zero. by rewrite foldl_digits_lstrip. Qed.

Lemma decimal_value_zeros (k : nat) (s : pystr) :
  decimal_value (replicate k 0x30 ++ s) = decimal_value s.
Proof. unfold decimal_value. induction k as [| k IH]; [done |]. exact IH. Qed.

Lemma decimal_value_nibbles (nibbles : list N) :
  decimal_value (N.add 0x30 <$> nibbles)
  = Z.of_N (foldl (λ acc n, acc * 10 + n) 0 nibbles).
Proof.
  unfold decimal_value. f_equal. generalize 0.
  induction nibbles as [| n nibbles IH]; intros acc; [done |].
  rewrite fmap_cons. cbn [foldl]. rewrite IH. f_equal. lia.
Qed.

Lemma nibble_digits (nibbles : list N) :
  Forall (λ n, n <= 9) nibbles → Forall (λ c, 0x30 <= c <= 0x39) (N.add 0x30 <$> nibbles).
Proof. intros Hall. apply Forall_fmap. eapply Forall_impl; [exact Hall |]. intros n Hn. unfold compose. cbv beta in *. lia. Qed.

Lemma Forall_dropwhile {A} (P : A → Prop) (p : A → bool) (l : list A) :
  Forall P l → Forall P (dropwhile p l).
Proof.
  induction 1 as [| x l Hx Hl IH]; [constructor |]. cbn [dropwhile].
  destruct (p x); [done | by constructor].
Qed.

(** [int] of a minus sign and a string of ASCII digits. *)
Lemma py_int_minus_digits (digits : pystr) :
  ascii_digits digits → py_int 10 (0x2D :: digits) = Some (- decimal_value digits)%Z.
Proof.
  intros [Hne Hall]. unfold py_int, decimal_value.
  rewrite fmap_cons, int_to_ascii_digit by done.
  change (int_to_ascii 0x2D) with 0x2D. cbn [dropwhile].
  change (c_isspace 0x2D) with false. cbv iota.
  change (0x2D =? 0x2B) with false. change (0x2D =? 0x2D) with true. cbv iota.
  destruct digits as [| e t]; [done |].
  pose proof Hall as [He Hall']%Forall_cons.
  destruct (ascii_digit_facts e He) as (Hsp & Hplus & Hminus & Hus & Hval & Hlt).
  assert (Hprefix : match e :: t with
                    | c :: x :: t' =>
                        if (c =? 0x30) && (10 =? 16) && ((x =? 0x78) || (x =? 0x58))
                        then match t' with
                             | u :: t'' => if u =? 0x5F then t'' else t'
                             | [] => t'
                             end
                        else e :: t
                    | _ => e :: t
                    end = e :: t).
  { destruct t; [done |]. by rewrite andb_false_r. }
  rewrite Hprefix. rewrite Hlt. cbn [negb].
  rewrite int_digits_run by done. reflexivity.
Qed.

End values.

(** ** The decoded form of a packed field *)

Section comp3_shape.

Lemma foldl_digits_pos (s : pystr) (acc : N) :
  0 < acc → 0 < foldl (λ acc c, acc * 10 + (c - 0x30)) acc s.
Proof.
  revert acc. induction s as [| c s IH]; intros acc Hacc; [done |].
  cbn [foldl]. apply IH. lia.
Qed.

(** A digit string that does not begin with a zero denotes a positive
    number. *)
Lemma decimal_value_pos (c : N) (s : pystr) :
  0x30 <= c <= 0x39 → c ≠ 0x30 → (0 < decimal_value (c :: s))%Z.
Proof.
  intros Hc Hnz. unfold decimal_value. cbn [foldl].
  pose proof (foldl_digits_pos s (0 * 10 + (c - 0x30)) ltac:(lia)). lia.
Qed.

Lemma last_of_nonempty {A} (l : list A) : l ≠ [] → ∃ x, last l = Some x.
Proof.
  intros Hne. destruct (exists_last Hne) as (body & x & ->).
  exists x. apply last_snoc.
Qed.

Lemma minus_sign_last (comp3_bytes : bytes) (last_byte : byte) :
  last comp3_bytes = Some last_byte →
  minus_sign comp3_bytes = (low_nibble last_byte =? 0x0D).
Proof.
  intros Hlast. unfold minus_sign, sign_nibble_of. rewrite Hlast. cbn [fmap option_fmap option_map].
  destruct (N.eqb_spec (low_nibble last_byte) 0x0D) as [-> | Hne].
  - by rewrite bool_decide_eq_true_2.
  - rewrite bool_decide_eq_false_2; [done |]. by intros [= ?].
Qed.

(** The digit string of a valid field after its leading zeros are
    removed. *)
Lemma lstrip_zero_digits (nibbles : list N) :
  Forall (λ n, n <= 9) nibbles →
  let all_digits := py_lstrip_zero (N.add 0x30 <$> nibbles) in
  Forall (λ c, 0x30 <= c <= 0x39) all_digits
  ∧ decimal_value all_digits = Z.of_N (foldl (λ acc n, acc * 10 + n) 0 nibbles)
  ∧ (∀ c r, all_digits = c :: r → c ≠ 0x30).
Proof.
  intros Hvalid all_digits. split; [| split].
  - by apply Forall_dropwhile, nibble_digits.
  - unfold all_digits. by rewrite decimal_value_lstrip, decimal_value_nibbles.
  - intros c r Heq. unfold all_digits, py_lstrip_zero in Heq.
    destruct (dropwhile_cases (N.eqb 0x30) (N.add 0x30 <$> nibbles))
      as [Hnil | (x & l' & Hcons & Hx)]; [congruence |].
    rewrite Hcons in Heq. injection Heq as -> ->.
    apply N.eqb_neq in Hx. congruence.
Qed.

(** What a valid packed field decodes to: an optional minus sign, the
    integer digits and, for a positive scale, a point and as many digits
    as the scale. *)
Lemma convert_comp3_bytes_shape (comp3_bytes : bytes) (decimal_places : Z) :
  comp3_bytes ≠ [] →
  Forall (λ n, n <= 9) (digit_nibbles comp3_bytes) →
  ∃ int_part frac,
    convert_comp3_bytes comp3_bytes decimal_places
    = Some ((if minus_sign comp3_bytes && negb (packed_value comp3_bytes =? 0)%Z
             then py "-" else [])
            ++ int_part ++ (if (0 <? decimal_places)%Z then py "." ++ frac else []))
    ∧ ascii_digits int_part
    ∧ Forall (λ c, 0x30 <= c <= 0x39) frac
    ∧ py_len frac = Z.max 0 decimal_places
    ∧ decimal_value (int_part ++ frac) = packed_value comp3_bytes
    ∧ (∀ c r, int_part = c :: r → c = 0x30 → r = []).
Proof.
  intros Hne Hvalid. destruct (last_of_nonempty _ Hne) as [last_byte Hlast].
  rewrite (convert_comp3_bytes_valid _ _ last_byte) by done.
  rewrite (minus_sign_last _ last_byte) by done.
  destruct (lstrip_zero_digits _ Hvalid) as (Hdigits & Hvalue & Hhead).
  fold (packed_value comp3_bytes) in Hvalue.
  destruct (py_lstrip_zero _) as [| d all_digits] eqn:Hstrip.
  - (* the value is zero *)
    change (decimal_value []) with 0%Z in Hvalue. rewrite <- Hvalue.
    cbn [Z.eqb negb]. rewrite andb_false_r. cbn [app].
    destruct (Z.ltb_spec 0 decimal_places) as [Hpos | Hneg].
    + exists (py "0"), (py_repeat 0x30 decimal_places).
      replace ((0 <=? decimal_places)%Z) with true by (symmetry; apply Z.leb_le; lia).
      cbn [andb]. split; [reflexivity |].
      split; [split; [done | by repeat constructor] |].
      split; [apply Forall_replicate; lia |].
      split; [unfold py_len, py_repeat; rewrite length_replicate; lia |].
      split; [| by intros c r [= <- <-]].
      change (py "0" ++ py_repeat 0x30 decimal_places)
        with (replicate (S (Z.to_nat decimal_places)) 0x30).
      rewrite <- (app_nil_r (replicate _ _)). by rewrite decimal_value_zeros.
    + exists (py "0"), []. rewrite andb_false_r. cbn [app].
      split; [reflexivity |].
      split; [split; [done | by repeat constructor] |].
      split; [constructor |]. split; [unfold py_len; simpl; lia |].
      split; [done | by intros c r [= <- <-]].
  - (* the value is not zero *)
    pose proof Hdigits as [Hd Hrest]%Forall_cons.
    assert (Hnz : (packed_value comp3_bytes =? 0)%Z = false).
    { apply Z.eqb_neq. rewrite <- Hvalue.
      pose proof (decimal_value_pos d all_digits Hd (Hhead d all_digits eq_refl)). lia. }
    rewrite Hnz. cbn [negb]. rewrite andb_true_r.
    set (digits := d :: all_digits) in *.
    destruct (Z.ltb_spec 0 decimal_places) as [Hpos | Hneg].
    + replace ((0 <=? decimal_places)%Z) with true by (symmetry; apply Z.leb_le; lia).
      replace ((decimal_places =? 0)%Z) with false by (symmetry; apply Z.eqb_neq; lia).
      destruct (Z.geb_spec decimal_places (py_len digits)) as [Hlong | Hshort].
      * exists (py "0"), (py_repeat 0x30 (decimal_places - py_len digits) ++ digits).
        split. { by destruct (low_nibble last_byte =? 0x0D). }
        split; [split; [done | by repeat constructor] |].
        split. { apply Forall_app. split; [apply Forall_replicate; lia | done]. }
        split. { unfold py_len in *. rewrite length_app. unfold py_repeat.
                 rewrite length_replicate. lia. }
        split; [| by intros c r [= <- <-]].
        change (py "0" ++ py_repeat 0x30 (decimal_places - py_len digits) ++ digits)
          with (replicate (S (Z.to_nat (decimal_places - py_len digits))) 0x30 ++ digits).
        by rewrite decimal_value_zeros.
      * exists (py_prefix (py_len digits - decimal_places) digits),
               (py_suffix (py_len digits - decimal_places) digits).
        unfold py_len, py_prefix, py_suffix in *.
        split. { by destruct (low_nibble last_byte =? 0x0D). }
        assert (Hk : ∃ k, Z.to_nat (Z.of_nat (length digits) - decimal_places) = S k
                          ∧ (S k < length digits)%nat).
        { exists (Z.to_nat (Z.of_nat (length digits) - decimal_places) - 1)%nat. lia. }
        destruct Hk as (k & Hkeq & Hk). rewrite Hkeq.
        split. { split; [done |]. by apply Forall_take. }
        split; [by apply Forall_drop |].
        split; [rewrite length_drop; lia |].
        split; [by rewrite take_drop |].
        intros c r [= <- <-]. intros ->. by destruct (Hhead 0x30 all_digits eq_refl).
    + exists digits, []. rewrite app_nil_r.
      split.
      { destruct (Z.leb_spec 0 decimal_places) as [Hzero | Hnegative].
        - assert (decimal_places = 0%Z) as -> by lia. cbn [Z.eqb].
          by destruct (low_nibble last_byte =? 0x0D).
        - by destruct (low_nibble last_byte =? 0x0D). }
      split; [done |]. split; [constructor |].
      split; [unfold py_len; simpl; lia |]. split; [done |].
      intros c r [= <- <-] ->. by destruct (Hhead 0x30 all_digits eq_refl).
Qed.

(** The decoder returns no string for an empty field and for a digit
    nibble above 9 only. *)
Lemma convert_comp3_bytes_None (comp3_bytes : bytes) (decimal_places : Z) :
  convert_comp3_bytes comp3_bytes decimal_places = None
  ↔ comp3_bytes = [] ∨ Exists (λ n, 9 < n) (digit_nibbles comp3_bytes).
Proof.
  split.
  - intros Hnone. destruct (decide (comp3_bytes = [])) as [-> | Hne]; [by left |].
    right. destruct (decide (Forall (λ n, n <= 9) (digit_nibbles comp3_bytes)))
      as [Hvalid | Hbad].
    + destruct (convert_comp3_bytes_shape _ decimal_places Hne Hvalid)
        as (int_part & frac & Hsome & _). congruence.
    + apply not_Forall_Exists in Hbad; [| apply _].
      eapply Exists_impl; [exact Hbad |]. cbv beta. unfold compose. lia.
  - intros [-> | Hbad]; [done |]. by apply convert_comp3_bytes_invalid.
Qed.

End comp3_shape.

(** ** Text fields *)

Section text.

Lemma byte_eqb_eq (a b : byte) : byte_eqb a b = true ↔ a = b.
Proof.
  unfold byte_eqb. rewrite N.eqb_eq. split; [| by intros ->].
  intros Heq. apply (f_equal Byte.of_N) in Heq. rewrite !Byte.of_to_N in Heq.
  by injection Heq.
Qed.

(** Removing the NUL bytes goes byte by byte. *)
Lemma replace_null_cons (b : byte) (s : bytes) :
  bytes_replace [x00] [] (b :: s)
  = (if byte_eqb x00 b then [] else [b]) ++ bytes_replace [x00] [] s.
Proof.
  unfold bytes_replace. cbn [py_replace_from py_startswith length Nat.sub].
  rewrite andb_true_r. by destruct (byte_eqb x00 b).
Qed.

Lemma replace_null_app (s t : bytes) :
  bytes_replace [x00] [] (s ++ t) = bytes_replace [x00] [] s ++ bytes_replace [x00] [] t.
Proof.
  induction s as [| b s IH]; [done |].
  rewrite <- app_comm_cons, !replace_null_cons, IH. by rewrite app_assoc.
Qed.

Lemma replace_null_none (s : bytes) :
  Forall (λ b, b ≠ x00) s → bytes_replace [x00] [] s = s.
Proof.
  induction 1 as [| b s Hb Hs IH]; [done |]. rewrite replace_null_cons, IH.
  destruct (byte_eqb x00 b) eqn:Heq; [| done]. apply byte_eqb_eq in Heq. congruence.
Qed.

Lemma decode_ignore_app (enc : byte → option N) (s t : bytes) :
  decode_ignore enc (s ++ t) = decode_ignore enc s ++ decode_ignore enc t.
Proof. unfold decode_ignore. apply omap_app. Qed.

(** White space at either end does not survive [strip]. *)
Lemma py_strip_app_space (s t : pystr) :
  forallb py_isspace t = true → py_strip (s ++ t) = py_strip s.
Proof.
  intros Ht. unfold py_strip, py_lstrip, py_rstrip.
  destruct (dropwhile_cases py_isspace s) as [Hnil | (x & l & Hcons & Hx)].
  - rewrite dropwhile_app_all by by apply dropwhile_nil_all.
    rewrite Hnil. by rewrite (dropwhile_all _ t).
  - rewrite dropwhile_app_stop by by rewrite Hcons.
    rewrite rev_app_distr. rewrite dropwhile_app_all; [done |].
    rewrite forallb_forall in *. intros c Hc. apply Ht. by apply in_rev.
Qed.

Lemma py_strip_space_app (s t : pystr) :
  forallb py_isspace s = true → py_strip (s ++ t) = py_strip t.
Proof.
  intros Hs. unfold py_strip, py_lstrip. by rewrite dropwhile_app_all.
Qed.

(** A string with no white space at its ends is its own [strip]. *)
Lemma py_strip_none (s : pystr) :
  Forall (λ c, py_isspace c = false) s → py_strip s = s.
Proof.
  intros Hall. unfold py_strip, py_lstrip, py_rstrip.
  destruct s as [| c s]; [done |]. pose proof Hall as [Hc Hs]%Forall_cons.
  rewrite dropwhile_stop by done.
  destruct (exists_last (l := c :: s) ltac:(done)) as (body & l & Heq).
  rewrite Heq in *. rewrite rev_app_distr. cbn [rev app].
  apply Forall_app in Hall as [_ [Hl _]%Forall_cons].
  rewrite dropwhile_stop by done.
  change (l :: rev body) with (rev [l] ++ rev body).
  by rewrite <- rev_app_distr, rev_involutive.
Qed.

Lemma cp500_filler (pad : bytes) :
  forallb is_filler pad = true →
  forallb py_isspace (decode_ignore cp500 (bytes_replace [x00] [] pad)) = true.
Proof.
  induction pad as [| b pad IH]; [done |]. cbn [forallb].
  intros [Hb Hpad]%andb_true_iff. rewrite replace_null_cons.
  unfold is_filler in Hb. apply orb_true_iff in Hb.
  rewrite !byte_eqb_eq in Hb. destruct Hb as [-> | ->]; cbn; auto.
Qed.

(** The code point of an EBCDIC digit. *)
Lemma cp500_digit (b : byte) :
  0xF0 <= Byte.to_N b <= 0xF9 → cp500 b = Some (Byte.to_N b - 0xC0).
Proof.
  intros Hb. unfold cp500.
  assert (Hcases : Byte.to_N b = 0xF0 ∨ Byte.to_N b = 0xF1 ∨ Byte.to_N b = 0xF2
                   ∨ Byte.to_N b = 0xF3 ∨ Byte.to_N b = 0xF4 ∨ Byte.to_N b = 0xF5
                   ∨ Byte.to_N b = 0xF6 ∨ Byte.to_N b = 0xF7 ∨ Byte.to_N b = 0xF8
                   ∨ Byte.to_N b = 0xF9) by lia.
  repeat (destruct Hcases as [-> | Hcases]; [reflexivity |]).
  rewrite Hcases. reflexivity.
Qed.

(** A field of EBCDIC digits decodes to the same digits in ASCII. *)
Lemma zoned_digits_text (field_data : bytes) :
  zoned_digits field_data →
  convert_ebcdic_to_string field_data cp500 = (λ b, Byte.to_N b - 0xC0) <$> field_data.
Proof.
  intros Hdigits. unfold convert_ebcdic_to_string.
  rewrite replace_null_none.
  2: { eapply Forall_impl; [exact Hdigits |]. intros b Hb ->. cbv beta in Hb.
       vm_compute in Hb. destruct Hb as [Hb _]. by apply Hb. }
  assert (Hdecode : decode_ignore cp500 field_data = (λ b, Byte.to_N b - 0xC0) <$> field_data).
  { unfold decode_ignore. induction Hdigits as [| b s Hb Hs IH]; [done |].
    cbn [omap list_omap]. rewrite cp500_digit by done. by rewrite IH. }
  rewrite Hdecode. apply py_strip_none. apply Forall_fmap.
  eapply Forall_impl; [exact Hdigits |]. intros b Hb. unfold compose. cbv beta in *.
  unfold py_isspace.
  repeat match goal with
         | |- context [?a <=? ?b] => destruct (N.leb_spec a b); try lia
         | |- context [?a =? ?b] => destruct (N.eqb_spec a b); try lia
         end; reflexivity.
Qed.

Lemma zoned_digits_ascii (field_data : bytes) :
  zoned_digits field_data →
  Forall (λ c, 0x30 <= c <= 0x39) ((λ b, Byte.to_N b - 0xC0) <$> field_data)
  ∧ decimal_value ((λ b, Byte.to_N b - 0xC0) <$> field_data) = zoned_value field_data.
Proof.
  intros Hdigits. split.
  - apply Forall_fmap. eapply Forall_impl; [exact Hdigits |].
    intros b Hb. unfold compose. cbv beta in *. lia.
  - unfold decimal_value, zoned_value. f_equal. generalize 0.
    induction Hdigits as [| b s Hb Hs IH]; intros acc; [done |].
    rewrite fmap_cons. cbn [foldl]. rewrite IH. f_equal. lia.
Qed.
Lemma lstrip_zero_canonical (s : pystr) :
  ∀ c r, py_lstrip_zero s = c :: r → c ≠ 0x30.
Proof.
  intros c r Heq. unfold py_lstrip_zero in Heq.
  destruct (dropwhile_cases (N.eqb 0x30) s) as [Hnil | (x & l' & Hcons & Hx)]; [congruence |].
  rewrite Hcons in Heq. injection Heq as -> ->. apply N.eqb_neq in Hx. congruence.
Qed.

End text.

(** ** Quoting *)

Section quoting.

Lemma escape_cons (c : N) (value : pystr) :
  str_replace CSV_QUOTECHAR CSV_ESCAPED_QUOTE (c :: value)
  = (if 0x22 =? c then [0x22; 0x22] else [c])
      ++ str_replace CSV_QUOTECHAR CSV_ESCAPED_QUOTE value.
Proof.
  unfold str_replace, CSV_ESCAPED_QUOTE, CSV_QUOTECHAR.
  cbn [py_replace_from py_startswith length Nat.sub app].
  rewrite andb_true_r. by destruct (0x22 =? c).
Qed.

Lemma escape_inj (v1 v2 : pystr) :
  str_replace CSV_QUOTECHAR CSV_ESCAPED_QUOTE v1
  = str_replace CSV_QUOTECHAR CSV_ESCAPED_QUOTE v2 →
  v1 = v2.
Proof.
  revert v2. induction v1 as [| c1 v1 IH]; intros [| c2 v2].
  - done.
  - rewrite escape_cons. change (str_replace _ _ []) with (@nil N).
    by destruct (0x22 =? c2).
  - rewrite escape_cons. change (str_replace _ _ []) with (@nil N).
    by destruct (0x22 =? c1).
  - rewrite !escape_cons.
    destruct (N.eqb_spec 0x22 c1) as [<- | Hc1], (N.eqb_spec 0x22 c2) as [<- | Hc2];
      cbn [app]; intros Heq.
    + injection Heq as Heq. f_equal. by apply IH.
    + injection Heq as Heq _. congruence.
    + injection Heq as Heq _. congruence.
    + injection Heq as -> Heq. f_equal. by apply IH.
Qed.

Lemma quote_count_app (s t : pystr) : quote_count (s ++ t) = (quote_count s + quote_count t)%nat.
Proof. unfold quote_count. by rewrite filter_app, length_app. Qed.

Lemma escape_quote_count (value : pystr) :
  quote_count (str_replace CSV_QUOTECHAR CSV_ESCAPED_QUOTE value)
  = (2 * quote_count value)%nat.
Proof.
  induction value as [| c value IH]; [done |].
  rewrite escape_cons, quote_count_app, IH.
  change (c :: value) with ([c] ++ value). rewrite quote_count_app.
  destruct (N.eqb_spec 0x22 c) as [<- | Hc].
  - change (quote_count [0x22; 0x22]) with 2%nat.
    change (quote_count [0x22]) with 1%nat. lia.
  - unfold quote_count. rewrite !filter_cons, !filter_nil.
    case_decide; [congruence |]. simpl. lia.
Qed.

End quoting.

(** ** Field lines *)

Section field_lines.

Context `{UnicodeDB}.

Lemma py_int_empty : py_int 10 [] = None.
Proof. reflexivity. Qed.

Lemma parse_field_lines_contiguous (record_length : Z) (lines : list pystr) :
  ∀ (i : Z) (field_definitions : list field_def) (current_offset : Z) fds' offset',
    parse_field_lines i lines record_length field_definitions current_offset
    = inr (fds', offset') →
    ∃ new,
      fds' = field_definitions ++ new
      ∧ contiguous current_offset new
      ∧ offset' = (current_offset + sum_Z (FIELD_LENGTH <$> new))%Z
      ∧ ((current_offset <= record_length)%Z → (offset' <= record_length)%Z).
Proof.
  induction lines as [| line lines IH]; intros i fds off fds' off'.
  { cbn. intros [= <- <-]. exists []. rewrite app_nil_r. cbn. repeat split; lia. }
  cbn [parse_field_lines].
  destruct (parse_field_line_view i line record_length off)
    as [Hnone | bl' name Hlen Hbig | bl' Hlen Hfit Hattr | bl' fd Hlen Hfit Hattr Hfl Hfo].
  - apply IH.
  - done.
  - apply IH.
  - intros (new & -> & Hcont & -> & Hle)%IH. exists (fd :: new).
    rewrite <- app_assoc. split; [done |].
    pose proof (declared_length_positive _ _ Hlen).
    split; [cbn; repeat split; [done | lia | done] |].
    split; [rewrite fmap_cons; cbn [sum_Z foldr]; unfold sum_Z; lia |].
    intros _. apply Hle. lia.
Qed.

Lemma contiguous_lookup (fds : list field_def) :
  ∀ offset (i : nat) fd,
    contiguous offset fds → fds !! i = Some fd →
    FIELD_OFFSET fd = (offset + sum_Z (FIELD_LENGTH <$> take i fds))%Z
    ∧ (0 < FIELD_LENGTH fd)%Z.
Proof.
  induction fds as [| fd0 fds IH]; intros offset i fd Hcont Hi; [done |].
  destruct Hcont as (Hoff & Hpos & Hrest). destruct i as [| i].
  - injection Hi as <-. cbn. split; [lia | done].
  - cbn in Hi. destruct (IH _ i fd Hrest Hi) as [-> Hfd]. split; [| done].
    cbn [take fmap list_fmap sum_Z foldr]. unfold sum_Z. lia.
Qed.

End field_lines.

Lemma take_plus {A} (n m : nat) (l : list A) :
  take (n + m) l = take n l ++ take m (drop n l).
Proof.
  revert l. induction n as [| n IH]; intros l; [done |].
  destruct l as [| x l]; [by destruct m |]. cbn. by rewrite IH.
Qed.

Lemma py_slice_inside {A} (s : list A) (lo hi : Z) :
  (0 <= lo <= hi)%Z → (hi <= Z.of_nat (length s))%Z →
  py_slice s lo hi = take (Z.to_nat (hi - lo)) (drop (Z.to_nat lo) s).
Proof.
  intros Hlo Hhi. unfold py_slice, slice_index.
  destruct (Z.ltb_spec hi 0), (Z.ltb_spec lo 0); try lia.
  by rewrite !Z.min_l by lia.
Qed.

(** Contiguous fields cut a stretch of the record into its pieces. *)
Lemma contiguous_tiles (record_bytes : bytes) (fds : list field_def) :
  ∀ offset,
    contiguous offset fds → (0 <= offset)%Z →
    (offset + sum_Z (FIELD_LENGTH <$> fds) <= Z.of_nat (length record_bytes))%Z →
    concat (field_data_of record_bytes <$> fds)
    = take (Z.to_nat (sum_Z (FIELD_LENGTH <$> fds))) (drop (Z.to_nat offset) record_bytes).
Proof.
  induction fds as [| fd fds IH]; intros offset Hcont Hoff Hfit; [done |].
  destruct Hcont as (Hfo & Hpos & Hrest).
  rewrite fmap_cons in Hfit. cbn [sum_Z foldr] in Hfit. fold (sum_Z (FIELD_LENGTH <$> fds)) in Hfit.
  assert (Hsum : (0 <= sum_Z (FIELD_LENGTH <$> fds))%Z).
  { clear -Hrest. revert Hrest. generalize (offset + FIELD_LENGTH fd)%Z.
    induction fds as [| fd' fds IH]; intros off Hc; [done |].
    destruct Hc as (_ & Hp & Hr). rewrite fmap_cons. cbn [sum_Z foldr].
    specialize (IH _ Hr). unfold sum_Z in IH. lia. }
  rewrite !fmap_cons, concat_cons. cbn [sum_Z foldr]. fold (sum_Z (FIELD_LENGTH <$> fds)).
  rewrite (IH (offset + FIELD_LENGTH fd)%Z) by (done || lia).
  unfold field_data_of. rewrite py_slice_inside by lia. rewrite Hfo.
  replace (offset + FIELD_LENGTH fd - offset)%Z with (FIELD_LENGTH fd) by lia.
  rewrite (Z2Nat.inj_add (FIELD_LENGTH fd)), (Z2Nat.inj_add offset) by lia.
  by rewrite take_plus, drop_drop.
Qed.

(** ** Entries of the mapping table *)

Section entries.

Context `{UnicodeDB}.

Lemma load_conversion_line_entry (m : gmap pystr pystr) (line : pystr) :
  load_conversion_line m line
  = match stored_entry line with
    | Some (key, value) => <[key := value]> m
    | None => m
    end.
Proof.
  unfold stored_entry. destruct (passed_over line) eqn:Hpassed.
  { by apply load_conversion_line_passed_over. }
  revert Hpassed.
  unfold passed_over, blank_line, comment_line, malformed_line, load_conversion_line.
  destruct (is_empty (py_strip line) || py_startswith N.eqb (py "#") (py_strip line));
    [done |]. cbn [orb].
  destruct (py_split _ _) as [| part0 [| part1 [| ? ?]]]; try done.
  by intros ->%negb_false_iff.
Qed.

(** After a line that stores under [key], the table gives its value until
    another line stores under the same key. *)
Lemma load_conversion_lines_last (after : list pystr) :
  ∀ (m : gmap pystr pystr) (key value : pystr),
    m !! key = Some value →
    Forall (λ l, stored_key l ≠ Some key) after →
    foldl load_conversion_line m after !! key = Some value.
Proof.
  induction after as [| l after IH]; intros m key value Hm Hafter; [done |].
  apply Forall_cons in Hafter as [Hl Hafter]. cbn [foldl]. apply IH; [| done].
  rewrite load_conversion_line_entry. unfold stored_key in Hl.
  destruct (stored_entry l) as [[k v] |]; [| done].
  rewrite lookup_insert_ne; [done |]. intros ->. by apply Hl.
Qed.

Lemma load_conversion_lines_absent (lines : list pystr) :
  ∀ (m : gmap pystr pystr) (key : pystr),
    m !! key = None →
    Forall (λ l, stored_key l ≠ Some key) lines →
    foldl load_conversion_line m lines !! key = None.
Proof.
  induction lines as [| l lines IH]; intros m key Hm Hlines; [done |].
  apply Forall_cons in Hlines as [Hl Hlines]. cbn [foldl]. apply IH; [| done].
  rewrite load_conversion_line_entry. unfold stored_key in Hl.
  destruct (stored_entry l) as [[k v] |]; [| done].
  rewrite lookup_insert_ne; [done |]. intros ->. by apply Hl.
Qed.

End entries.

(** ** Hexadecimal values *)

Section hex.

Context `{UnicodeDB}.

Lemma upper_hex_facts (e : N) :
  0x30 <= e <= 0x39 ∨ 0x41 <= e <= 0x46 →
  c_isspace e = false ∧ (e =? 0x2B) = false ∧ (e =? 0x2D) = false
  ∧ (e =? 0x5F) = false ∧ (digit_value e <? 16) = true
  ∧ (e =? 0x78) = false ∧ (e =? 0x58) = false ∧ int_to_ascii e = e.
Proof.
  intros He.
  assert (Hcases : e = 0x30 ∨ e = 0x31 ∨ e = 0x32 ∨ e = 0x33 ∨ e = 0x34 ∨ e = 0x35
                   ∨ e = 0x36 ∨ e = 0x37 ∨ e = 0x38 ∨ e = 0x39 ∨ e = 0x41 ∨ e = 0x42
                   ∨ e = 0x43 ∨ e = 0x44 ∨ e = 0x45 ∨ e = 0x46) by lia.
  repeat (destruct Hcases as [-> | Hcases]; [by repeat split |]).
  subst e. by repeat split.
Qed.

Lemma int_digits_hex_run (t : pystr) :
  ∀ prev acc,
    Forall (λ e, 0x30 <= e <= 0x39 ∨ 0x41 <= e <= 0x46) t →
    prev ≠ 0x5F →
    int_digits 16 prev acc t
    = Some (foldl (λ acc c, acc * 16 + digit_value c) acc t, []).
Proof.
  induction t as [| e t IH]; intros prev acc Hall Hprev; cbn [int_digits foldl].
  - by destruct (N.eqb_spec prev 0x5F).
  - apply Forall_cons in Hall as [He Hall].
    destruct (upper_hex_facts e He) as (_ & _ & _ & Hus & Hlt & _).
    rewrite Hus, Hlt. apply IH; [done |]. apply N.eqb_neq. done.
Qed.

(** [int(s, 16)] of a string of upper-case hexadecimal digits. *)
Lemma py_int_upper_hex (s : pystr) :
  upper_hex_string s → py_int 16 s = Some (hex_number s).
Proof.
  intros [Hne Hall]. unfold py_int, hex_number.
  assert (Hascii : int_to_ascii <$> s = s).
  { clear Hne. induction Hall as [| c s Hc Hs IH]; [done |]. rewrite fmap_cons, IH.
    by destruct (upper_hex_facts c Hc) as (_ & _ & _ & _ & _ & _ & _ & ->). }
  rewrite Hascii. destruct s as [| e t]; [done |].
  pose proof Hall as [He Hall']%Forall_cons.
  destruct (upper_hex_facts e He) as (Hsp & Hplus & Hminus & Hus & Hlt & _).
  cbn [dropwhile]. rewrite Hsp, Hplus, Hminus.
  assert (Hprefix : match e :: t with
                    | c :: x :: t' =>
                        if (c =? 0x30) && (16 =? 16) && ((x =? 0x78) || (x =? 0x58))
                        then match t' with
                             | u :: t'' => if u =? 0x5F then t'' else t'
                             | [] => t'
                             end
                        else e :: t
                    | _ => e :: t
                    end = e :: t).
  { destruct t as [| x t]; [done |]. apply Forall_cons in Hall' as [Hx _].
    destruct (upper_hex_facts x Hx) as (_ & _ & _ & _ & _ & -> & -> & _).
    by rewrite andb_false_r. }
  rewrite Hprefix. rewrite Hlt. cbn [negb].
  rewrite int_digits_hex_run by done. reflexivity.
Qed.

End hex.

(** ** The marker replacement *)

Section marker.

Lemma replace_length {A} (eqb : A → A → bool) (old new : list A) (s : list A) :
  length new = length old → old ≠ [] →
  ∀ skip, (skip <= length s)%nat →
    (length (py_replace_from eqb old new skip s) + skip = length s)%nat.
Proof.
  intros Hsame Hold. induction s as [| c s IH]; intros skip Hskip.
  { simpl in *. lia. }
  cbn [py_replace_from]. destruct skip as [| k].
  - destruct (py_startswith eqb old (c :: s)) eqn:Hstart.
    + assert (Hlen : (length old <= length (c :: s))%nat).
      { clear -Hstart. revert Hstart. generalize (c :: s). induction old as [| a old IH].
        - intros; simpl; lia.
        - intros [| b l]; cbn [py_startswith]; [done |].
          intros [_ Hrest]%andb_true_iff. specialize (IH _ Hrest). simpl. lia. }
      destruct old as [| a old]; [done |]. cbn [length] in *.
      rewrite length_app. specialize (IH (length old - 0)%nat ltac:(lia)).
      replace (S (length old) - 1)%nat with (length old - 0)%nat by lia. lia.
    + cbn [length]. specialize (IH 0%nat ltac:(lia)). lia.
  - cbn [length] in *. specialize (IH k ltac:(lia)). lia.
Qed.

(** The marker replacement keeps the length of the field. *)
Lemma marker_replace_length (jef_bytes : bytes) :
  length (bytes_replace JEF_AT_MARK_PAIR_BYTES FULL_WIDTH_SPACE_EUC_JP jef_bytes)
  = length jef_bytes.
Proof.
  unfold bytes_replace.
  pose proof (replace_length byte_eqb JEF_AT_MARK_PAIR_BYTES FULL_WIDTH_SPACE_EUC_JP
                jef_bytes eq_refl ltac:(done) 0%nat ltac:(lia)). lia.
Qed.

(** Bytes in front of the first marker are kept, whatever their number. *)
Lemma marker_replace_prefix (before rest : bytes) :
  Forall (λ b, b ≠ x42) before →
  bytes_replace JEF_AT_MARK_PAIR_BYTES FULL_WIDTH_SPACE_EUC_JP
    (before ++ JEF_AT_MARK_PAIR_BYTES ++ rest)
  = before ++ FULL_WIDTH_SPACE_EUC_JP
      ++ bytes_replace JEF_AT_MARK_PAIR_BYTES FULL_WIDTH_SPACE_EUC_JP rest.
Proof.
  induction 1 as [| b before Hb Hbefore IH].
  - unfold bytes_replace, JEF_AT_MARK_PAIR_BYTES. cbn [app].
    cbn [py_replace_from py_startswith length Nat.sub]. cbn.
    by destruct rest.
  - rewrite <- !app_comm_cons. unfold bytes_replace in *.
    cbn [py_replace_from]. unfold JEF_AT_MARK_PAIR_BYTES at 1.
    cbn [py_startswith].
    replace (byte_eqb x42 b) with false.
    2: { symmetry. apply not_true_is_false. intros Heq%byte_eqb_eq. congruence. }
    cbn [andb]. by rewrite IH.
Qed.

Lemma strip_length (s : pystr) : (length (py_strip s) <= length s)%nat.
Proof.
  assert (Hdrop : ∀ l : list N, (length (dropwhile py_isspace l) <= length l)%nat).
  { induction l as [| c l IH]; [done |]. cbn [dropwhile].
    destruct (py_isspace c); simpl; lia. }
  unfold py_strip, py_rstrip, py_lstrip. rewrite length_rev.
  etrans; [apply Hdrop |]. rewrite length_rev. apply Hdrop.
Qed.

End marker.

(** ** Well-formed mapping lines *)

Section mapping_lines.

Context `{UnicodeDB}.

Lemma py_split_no_sep (sep : N) (s : pystr) :
  Forall (λ c, c ≠ sep) s → py_split sep s = [s].
Proof.
  induction 1 as [| c s Hc Hs IH]; [done |]. cbn [py_split].
  destruct (N.eqb_spec c sep); [done |]. by rewrite IH.
Qed.

Lemma py_split_app (sep : N) (s t : pystr) :
  Forall (λ c, c ≠ sep) s → py_split sep (s ++ sep :: t) = s :: py_split sep t.
Proof.
  induction 1 as [| c s Hc Hs IH].
  - cbn [app py_split]. by rewrite N.eqb_refl.
  - rewrite <- app_comm_cons. cbn [py_split].
    destruct (N.eqb_spec c sep); [done |]. by rewrite IH.
Qed.

Lemma upper_hex_plain (s : pystr) :
  Forall (λ c, 0x30 <= c <= 0x39 ∨ 0x41 <= c <= 0x46) s →
  Forall (λ c, py_isspace c = false) s
  ∧ Forall (λ c, c ≠ CSV_DELIMITER) s
  ∧ py_upper s = s.
Proof.
  induction 1 as [| c s Hc Hs (IH1 & IH2 & IH3)]; [by repeat split |].
  assert (Hcases : c = 0x30 ∨ c = 0x31 ∨ c = 0x32 ∨ c = 0x33 ∨ c = 0x34 ∨ c = 0x35
                   ∨ c = 0x36 ∨ c = 0x37 ∨ c = 0x38 ∨ c = 0x39 ∨ c = 0x41 ∨ c = 0x42
                   ∨ c = 0x43 ∨ c = 0x44 ∨ c = 0x45 ∨ c = 0x46) by lia.
  assert (Hfacts : py_isspace c = false ∧ c ≠ CSV_DELIMITER ∧ upper_char c = [c]).
  { repeat (destruct Hcases as [-> | Hcases]; [by repeat split |]).
    subst c. by repeat split. }
  destruct Hfacts as (Hsp & Hsep & Hup).
  split; [by constructor |]. split; [by constructor |].
  unfold py_upper in *. rewrite fmap_cons, concat_cons, Hup, IH3. done.
Qed.

(** A line [SRC,DST] of two strings of upper-case hexadecimal digits
    stores the entry [SRC -> DST]. *)
Lemma stored_entry_hex (src dst : pystr) :
  upper_hex_string src → upper_hex_string dst →
  stored_entry (src ++ CSV_DELIMITER :: dst) = Some (src, dst).
Proof.
  intros [Hsrc_ne Hsrc] [Hdst_ne Hdst].
  destruct (upper_hex_plain src Hsrc) as (Hsrc_sp & Hsrc_sep & Hsrc_up).
  destruct (upper_hex_plain dst Hdst) as (Hdst_sp & Hdst_sep & Hdst_up).
  assert (Hstrip : py_strip (src ++ CSV_DELIMITER :: dst) = src ++ CSV_DELIMITER :: dst).
  { apply py_strip_none. apply Forall_app. split; [done |]. by constructor. }
  assert (Hsplit : py_split CSV_DELIMITER (src ++ CSV_DELIMITER :: dst) = [src; dst]).
  { rewrite py_split_app by done. by rewrite py_split_no_sep. }
  assert (Hfull : fullmatch_upper_hex src && fullmatch_upper_hex dst = true).
  { apply andb_true_iff. by rewrite !fullmatch_upper_hex_spec. }
  unfold stored_entry, passed_over, blank_line, comment_line, malformed_line.
  rewrite Hstrip, Hsplit, !py_strip_none, Hsrc_up, Hdst_up, Hfull by done.
  destruct src as [| c src]; [done |]. apply Forall_cons in Hsrc as [Hc _].
  cbn [app is_empty orb negb]. py_literals. cbn [py_startswith].
  replace (0x23 =? c) with false; [done |]. symmetry. apply N.eqb_neq. lia.
Qed.

Lemma pair_key_hex (b1 b2 : byte) : upper_hex_string (pair_key b1 b2).
Proof.
  split; [done |]. unfold pair_key.
  assert (Hdigit : ∀ n, n < 16 →
            0x30 <= upper_hex_digit n <= 0x39 ∨ 0x41 <= upper_hex_digit n <= 0x46).
  { intros n Hn. unfold upper_hex_digit. destruct (N.ltb_spec n 10); lia. }
  pose proof (Byte.to_N_bounded b1). pose proof (Byte.to_N_bounded b2).
  repeat (apply Forall_cons; split;
          [apply Hdigit; first [apply N.mod_lt; lia | apply N.Div0.div_lt_upper_bound; lia] |]).
  constructor.
Qed.

(** The glyph of a pair whose key has an upper-case hexadecimal value in
    the table. *)
Lemma jef_pair_mapped (m : gmap pystr pystr) (b1 b2 : byte) (value : pystr) :
  m !! pair_key b1 b2 = Some value →
  upper_hex_string value →
  jef_pair m b1 b2
  = match py_chr (hex_number value) with
    | chr_is c => Return c
    | chr_ValueError => Return UNDEFINED_CHAR_REPLACEMENT
    | chr_OverflowError => Raise chr_overflow_message
    end.
Proof.
  intros Hlookup Hvalue. unfold jef_pair. rewrite hex_value_pair_key, Hlookup.
  rewrite py_int_upper_hex by done. destruct Hvalue as [Hne _].
  destruct value as [| c value]; [done |].
  unfold py_len. cbn [length]. destruct (Z.ltb_spec 0 (Z.of_nat (S (length value)))); [| lia].
  done.
Qed.

Lemma div2_succ (n : nat) :
  Nat.div2 (S n) = (Nat.div2 n + if Nat.odd n then 1 else 0)%nat.
Proof.
  induction n as [n IH] using lt_wf_ind.
  destruct n as [| [| n]]; [done | done |].
  change (Nat.div2 (S (S (S n)))) with (S (Nat.div2 (S n))).
  change (Nat.div2 (S (S n))) with (S (Nat.div2 n)).
  change (Nat.odd (S (S n))) with (Nat.odd n).
  rewrite IH by lia. lia.
Qed.

End mapping_lines.

(** ** Errors of a field, exactly *)

Section field_error_cases.

Context `{UnicodeDB}.

(** The text and zoned branches leave the converter as it is. *)
Lemma convert_field_unpacked (self : BinaryToDatConverter) (fd : field_def)
    (field_data : bytes) :
  supported_type (FIELD_TYPE fd) = true →
  is_packed_type (FIELD_TYPE fd) = false →
  str_eqb (FIELD_TYPE fd) (py "N") = false →
  (_convert_field self fd field_data).2 = self.
Proof.
  unfold supported_type, _convert_field. intros Hsupported Hpacked HN.
  rewrite Hpacked, HN in *. rewrite orb_false_r in Hsupported.
  destruct (str_eqb (FIELD_TYPE fd) (py "X")); [done |].
  destruct (str_eqb (FIELD_TYPE fd) (py "9")); [done |].
  destruct (py_startswith N.eqb (py "9") (FIELD_TYPE fd) && py_in (py "V9") (FIELD_TYPE fd)).
  { by destruct (get_digits_from_pic_type _). }
  destruct (py_startswith N.eqb (py "V9") (FIELD_TYPE fd)); [done |]. done.
Qed.

(** The double-byte branch: the decoded string, or the token of the
    exception with one error counted. *)
Lemma convert_field_N (self : BinaryToDatConverter) (fd : field_def)
    (field_data : bytes) :
  str_eqb (FIELD_TYPE fd) (py "N") = true →
  _convert_field self fd field_data
  = match convert_jef_chars field_data (conversion_map self) with
    | Return converted_value => (converted_value, self)
    | Raise e => (py "CONVERSION_ERROR: " ++ e, count_error self)
    end.
Proof.
  intros HN%bool_decide_eq_true. unfold _convert_field. by rewrite HN.
Qed.

Lemma type_N_dispatch (data_type : pystr) :
  str_eqb data_type (py "N") = true →
  supported_type data_type = true ∧ is_packed_type data_type = false.
Proof. intros ->%bool_decide_eq_true. done. Qed.

Lemma count_error_counted (self : BinaryToDatConverter) :
  (errors_encountered (count_error self) - errors_encountered self = 1)%Z.
Proof. unfold count_error. cbn. lia. Qed.

Lemma field_errors_cases (self : BinaryToDatConverter) (fd : field_def)
    (field_data : bytes) :
  errors_counted self fd field_data
  = if negb (supported_type (FIELD_TYPE fd))
       || is_packed_type (FIELD_TYPE fd)
          && (bool_decide (comp3_scale fd = None)
              || bool_decide (field_data = [] ∨ Exists (λ n, 9 < n) (digit_nibbles field_data)))
       || str_eqb (FIELD_TYPE fd) (py "N")
          && existsb (overflows (conversion_map self))
               (byte_pairs (processed_bytes_of field_data))
    then 1%Z else 0%Z.
Proof.
  unfold errors_counted.
  destruct (str_eqb (FIELD_TYPE fd) (py "N")) eqn:HN.
  { destruct (type_N_dispatch _ HN) as [-> ->]. cbn [negb orb andb].
    rewrite convert_field_N, convert_jef_chars_cases by done.
    destruct (existsb _ _); [apply count_error_counted | cbn; lia]. }
  rewrite andb_false_l, orb_false_r.
  destruct (supported_type (FIELD_TYPE fd)) eqn:Hsupported; cbn [negb orb].
  2: { rewrite convert_field_unsupported by done. apply count_error_counted. }
  destruct (is_packed_type (FIELD_TYPE fd)) eqn:Hpacked; cbn [andb].
  2: { rewrite convert_field_unpacked by done. lia. }
  rewrite convert_field_packed by done.
  destruct (comp3_scale fd) as [decimal_places |] eqn:Hscale.
  2: { rewrite bool_decide_eq_true_2 by done. apply count_error_counted. }
  rewrite (bool_decide_eq_false_2 (Some _ = None)) by done. cbn [orb].
  destruct (convert_comp3_bytes field_data decimal_places) as [value |] eqn:Hvalue.
  - rewrite bool_decide_eq_false_2; [cbn; lia |].
    intros Hnone%(convert_comp3_bytes_None _ decimal_places). congruence.
  - rewrite bool_decide_eq_true_2 by by apply (convert_comp3_bytes_None _ decimal_places).
    apply count_error_counted.
Qed.

End field_error_cases.

(** ** More on the picture analyser *)

Section analyser.

Context `{UnicodeDB}.

Lemma get_digits_integer_count (markers m : pystr) :
  forallb is_PSV markers = true →
  ascii_digits m →
  get_digits_from_pic_type (markers ++ py "9" ++ py "(" ++ m ++ py ")")
  = (decimal_value m, 0%Z).
Proof.
  intros Hmarkers Hm. unfold get_digits_from_pic_type, match_pic.
  rewrite dropwhile_app_all by done.
  change (py "9" ++ ?r) with (0x39 :: r). cbn [dropwhile is_PSV N.eqb Pos.eqb orb].
  unfold optional_count.
  replace (py "(" ++ m ++ py ")") with (py "(" ++ m ++ py ")" ++ []) by by rewrite app_nil_r.
  rewrite match_count_digits by done. cbn [optional_scale at_end].
  unfold int_of_group. by rewrite py_int_ascii_digits.
Qed.

Lemma get_digits_no_nine (pic_type_str : pystr) :
  0x39 ∉ pic_type_str → get_digits_from_pic_type pic_type_str = (0, 0)%Z.
Proof.
  intros Hnine. unfold get_digits_from_pic_type, match_pic.
  destruct (dropwhile is_PSV pic_type_str) as [| c s1] eqn:Hdrop; [done |].
  destruct (N.eqb_spec c 0x39) as [-> | Hc]; [| done].
  destruct Hnine. apply (dropwhile_subset is_PSV). rewrite Hdrop. by left.
Qed.

End analyser.

(** ** Every file ends *)

Section files.

Context `{UnicodeDB}.

(** A record length that the schema parser returns divides the binary
    file into complete records and a rest that is shorter than one. *)
Lemma process_parsed (bin_f : bytes) (lines : list pystr)
    (record_length : Z) (fds : list field_def) :
  parse_cpy_field_definitions (read_cpy_file lines) = inr (record_length, fds) →
  let n := Z.to_nat record_length in
  length bin_f = (length bin_f / n * n + length bin_f mod n)%nat
  ∧ (length bin_f mod n < n)%nat.
Proof.
  intros Hparse n.
  assert (Hpos : (0 < record_length)%Z).
  { apply parse_cpy_success in Hparse as [_ Hrl]. unfold record_length_of in Hrl.
    destruct (py_int 10 _) as [m |]; [| done].
    destruct (Z.ltb_spec 0 m); [| done]. by injection Hrl as <-. }
  assert (Hn : (0 < n)%nat) by (unfold n; lia).
  split; [rewrite Nat.mul_comm; apply Nat.div_mod_eq |].
  apply Nat.mod_upper_bound. lia.
Qed.

End files.

Section outcomes.

Context `{UnicodeDB}.

(** What [process] returns, by cases on its inputs. *)
Lemma process_outcome (self : BinaryToDatConverter) (binary_file : option bytes)
    (cpy_file : option (list pystr)) :
  ∃ result,
    process self binary_file cpy_file = Some result
    ∧ match binary_file, cpy_file with
      | None, _ =>
          return_code result = PROCESS_ERROR_FILE_NOT_FOUND
          ∧ dat_file result = None ∧ final result = self
      | Some _, None =>
          return_code result = PROCESS_ERROR_COPY_NOT_FOUND
          ∧ dat_file result = None ∧ final result = self
      | Some bin_f, Some lines =>
          match parse_cpy_field_definitions (read_cpy_file lines) with
          | inl _ =>
              return_code result = PROCESS_ERROR_COPY_PARSE
              ∧ dat_file result = None ∧ final result = set_schema self None None
          | inr (record_length, fds) =>
              (return_code result = PROCESS_SUCCESS
               ∨ return_code result = PROCESS_ERROR_GENERAL)
              ∧ (return_code result = PROCESS_SUCCESS
                 ↔ errors_encountered (final result) = 0%Z
                   ∧ ∃ written,
                       dat_file result = Some written
                       ∧ length written
                         = S (length bin_f / Z.to_nat record_length))
              ∧ (∃ written,
                   dat_file result = Some written
                   ∧ written
                       `prefix_of` header_line fds
                         :: (record_line self fds
                               <$> complete_records (length bin_f / Z.to_nat record_length)
                                     (Z.to_nat record_length) bin_f))
              ∧ final result
                = with_errors (set_schema self (Some record_length) (Some fds))
                    (errors_encountered (final result))
              ∧ ∀ n, process (with_errors self n) binary_file cpy_file = Some result
          end
      end.
Proof.
  destruct binary_file as [bin_f |]; [| by eexists].
  destruct cpy_file as [lines |]; [| by eexists].
  destruct (parse_cpy_field_definitions (read_cpy_file lines))
    as [e | [record_length fds]] eqn:Hparse.
  { unfold process. rewrite Hparse. by eexists. }
  destruct (process_parsed bin_f lines record_length fds Hparse) as [Hlen Hr].
  set (k := (length bin_f / Z.to_nat record_length)%nat) in *.
  set (r := (length bin_f mod Z.to_nat record_length)%nat) in *.
  pose proof (process_runs self bin_f lines record_length fds k r Hparse Hlen Hr) as Hrun.
  cbv zeta in Hrun.
  assert (Hother : ∀ n, process (with_errors self n) (Some bin_f) (Some lines)
                        = process self (Some bin_f) (Some lines)).
  { intros n. rewrite Hrun.
    rewrite (process_runs (with_errors self n) bin_f lines record_length fds k r) by done.
    cbv zeta. by rewrite record_lines_with_errors, !record_errors_list_with_errors. }
  set (records := complete_records k (Z.to_nat record_length) bin_f) in *.
  set (written := takewhile encodable (record_line self fds <$> records)) in *.
  assert (Hprefix : written `prefix_of` record_line self fds <$> records).
  { exists (dropwhile encodable (record_line self fds <$> records)).
    unfold written. by rewrite takewhile_dropwhile. }
  eexists. split; [exact Hrun |].
  destruct (encodable (header_line fds)).
  2: { cbn [return_code dat_file final with_errors errors_encountered].
       split_and!; [by right | | | done | by intros n; rewrite Hother].
       - split; [done |]. by intros (_ & ? & [= <-] & ?).
       - eexists. split; [done |]. apply prefix_nil. }
  destruct (decide (length written = k)) as [Hall | Hstop].
  - cbn [return_code dat_file final with_errors errors_encountered].
    split_and!; [by destruct (_ =? 0)%Z; [left | right] | | | done
                 | by intros n; rewrite Hother].
    + destruct (Z.eqb_spec
                  (sum_Z (record_errors self fds <$> records)
                   + (if decide (r = 0%nat) then 0 else 1)) 0) as [Hzero | Hnz].
      * split; [| done]. intros _. split; [done |]. eexists. split; [done |].
        cbn [length]. by rewrite Hall.
      * split; [done |]. by intros [? _].
    + eexists. split; [done |]. by apply prefix_cons.
  - cbn [return_code dat_file final with_errors errors_encountered].
    split_and!; [by right | | | done | by intros n; rewrite Hother].
    + split; [done |]. intros (_ & ? & [= <-] & Hlength). cbn [length] in Hlength. lia.
    + eexists. split; [done |]. by apply prefix_cons.
Qed.

Lemma file_loop_counts (conversion_map : gmap pystr pystr)
    (binary_files : list (bytes * option (list pystr))) :
  ∀ successful_files failed_files,
    ∃ successful failed,
      file_loop conversion_map binary_files successful_files failed_files
      = Some (successful, failed)
      ∧ (successful + failed
         = successful_files + failed_files + Z.of_nat (length binary_files))%Z
      ∧ (successful_files <= successful)%Z
      ∧ (failed_files <= failed)%Z
      ∧ (failed = failed_files ↔ Forall (converts conversion_map) binary_files).
Proof.
  induction binary_files as [| [bin_f cpy_file] rest IH]; intros s f.
  { exists s, f. cbn. repeat split; try lia; by constructor. }
  cbn [file_loop].
  destruct (process_outcome
              {| conversion_map := conversion_map;
                 ebcdic_encoding := DEFAULT_EBCDIC_ENCODING;
                 record_length := None;
                 field_definitions := None;
                 errors_encountered := 0 |} (Some bin_f) cpy_file)
    as (result & Hrun & _).
  rewrite Hrun. destruct (Z.eqb_spec (return_code result) PROCESS_SUCCESS) as [Hok | Hbad].
  - destruct (IH (s + 1)%Z f) as (s' & f' & -> & Hsum & Hs & Hf & Hall).
    exists s', f'. split; [done |]. cbn [length]. repeat split; try lia.
    + intros Heq. constructor; [by exists result | by apply Hall].
    + intros [_ Hrest]%Forall_cons. by apply Hall.
  - destruct (IH s (f + 1)%Z) as (s' & f' & -> & Hsum & Hs & Hf & Hall).
    exists s', f'. split; [done |]. cbn [length]. repeat split; try lia.
    intros [(result' & Hrun' & Hok) _]%Forall_cons. cbn [fst snd] in Hrun'.
    rewrite Hrun in Hrun'. injection Hrun' as <-. done.
Qed.

End outcomes.

(** ** Packed integers *)

Section more_fields.

Context `{UnicodeDB}.

Lemma startswith_in (sub s : pystr) :
  py_startswith N.eqb sub s = true → py_in sub s = true.
Proof. intros Hstart. rewrite py_in_unfold. by rewrite Hstart. Qed.

Lemma py_in_tail (sub s : pystr) (c : N) :
  py_in sub (c :: s) = false → py_in sub s = false.
Proof. rewrite py_in_unfold. by intros [_ ?]%orb_false_iff. Qed.

(** A packed type token without [V9] is decoded as an integer. *)
Lemma comp3_scale_integer (fd : field_def) :
  py_in (py "V9") (FIELD_TYPE fd) = false → comp3_scale fd = Some (-1)%Z.
Proof.
  intros HV. unfold comp3_scale. rewrite HV. cbn [orb].
  destruct (py_startswith N.eqb (py "PV9") (FIELD_TYPE fd)) eqn:HPV.
  { revert HPV. py_literals. intros (r & Hr & Hrest)%startswith_cons.
    rewrite Hr in HV. apply py_in_tail in HV.
    apply startswith_in in Hrest. revert HV. py_literals. congruence. }
  destruct (py_startswith N.eqb (py "PSV9") (FIELD_TYPE fd)) eqn:HPSV; [| done].
  revert HPSV. py_literals.
  intros (r & Hr & (r' & -> & Hrest)%startswith_cons)%startswith_cons.
  rewrite Hr in HV. do 2 apply py_in_tail in HV.
  apply startswith_in in Hrest. revert HV. py_literals. congruence.
Qed.

End more_fields.

(** * The claims *)

(** ** Packed-decimal sign *)

(** C1, as stated, fails on the code: the field [00 0D] has valid digit
    nibbles and the sign nibble 0xD, and with two decimal places it decodes
    to ["0.00"], which does not begin with a minus sign. *)
Lemma C1_negative_zero_unsigned :
  Forall (λ n, n <= 9) (digit_nibbles [x00; x0d])
  ∧ sign_nibble_of [x00; x0d] = Some 0x0D
  ∧ convert_comp3_bytes [x00; x0d] 2 = Some (py "0.00")
  ∧ ¬ begins_with_minus (convert_comp3_bytes [x00; x0d] 2).
Proof.
  split; [| split; [| split]].
  - vm_compute. repeat constructor; discriminate.
  - reflexivity.
  - reflexivity.
  - intros [rest Hrest]. vm_compute in Hrest. discriminate.
Qed.

(** C1 (amended): for every packed-decimal field whose digit nibbles are
    all at most 9 and whose sign nibble is 0xD, the decoded string begins
    with ["-"] whenever some digit nibble is not zero; when all digit
    nibbles are zero the decoder returns the zero form without a sign,
    ["0."] followed by [decimal_places] zeros for a positive number of
    decimal places and ["0"] otherwise. *)
Theorem C1_packed_negative_sign (comp3_bytes : bytes) (decimal_places : Z) :
  Forall (λ n, n <= 9) (digit_nibbles comp3_bytes) →
  sign_nibble_of comp3_bytes = Some 0x0D →
  (Exists (λ n, n ≠ 0) (digit_nibbles comp3_bytes) →
   begins_with_minus (convert_comp3_bytes comp3_bytes decimal_places))
  ∧ (Forall (λ n, n = 0) (digit_nibbles comp3_bytes) →
     convert_comp3_bytes comp3_bytes decimal_places
     = Some (if (0 <? decimal_places)%Z
             then py "0." ++ py_repeat 0x30 decimal_places
             else py "0")).
Proof.
  intros Hvalid Hsign. unfold sign_nibble_of in Hsign.
  destruct (last comp3_bytes) as [last_byte |] eqn:Hlast; [| done].
  injection Hsign as Hsign.
  rewrite (convert_comp3_bytes_valid _ _ last_byte) by done.
  split.
  - intros Hnonzero.
    destruct (py_lstrip_zero _) as [| d all_digits] eqn:Hstrip.
    + apply lstrip_zero_nil in Hstrip.
      apply Exists_exists in Hnonzero as (n & Hin & Hn).
      rewrite Forall_forall in Hstrip. by specialize (Hstrip n Hin).
    + rewrite Hsign. cbn [N.eqb Pos.eqb]. by eexists.
  - intros Hzero. apply lstrip_zero_nil in Hzero. rewrite Hzero.
    f_equal. destruct decimal_places; reflexivity.
Qed.

Lemma C1_packed_negative_sign_witness :
  begins_with_minus (convert_comp3_bytes [x12; x3d] 1).
Proof.
  apply (C1_packed_negative_sign [x12; x3d] 1).
  - vm_compute. repeat constructor; discriminate.
  - reflexivity.
  - vm_compute. apply Exists_cons_hd. discriminate.
Defined.

(** ** The packed-decimal scenario *)

(** C2, as stated, fails on the code: the four bytes [12 34 56 7C] hold
    seven digit nibbles, so the field decodes to ["12345.67"], not to
    ["1234.56"]. *)
Lemma C2_scenario_is_not_1234_56 :
  fst (@_convert_field ascii_only plain_converter AMT [x12; x34; x56; x7c])
  = py "12345.67"
  ∧ fst (@_convert_field ascii_only plain_converter AMT [x12; x34; x56; x7c])
    ≠ py "1234.56".
Proof. split; [reflexivity | vm_compute; discriminate]. Qed.

(** C2 (amended): the schema line [AMT,PS9(5)V9(2),,4,1] yields a field of
    type [PS9(5)V9(2)] with no numeric attribute and four bytes; the
    picture analyser gives it two decimal digits; the sign nibble 0xC of
    [12 34 56 7C] is not the negative sign; and the field decodes to
    ["12345.67"] with no error counted. *)
Theorem C2_packed_scenario `{UnicodeDB} (self : BinaryToDatConverter) :
  parse_cpy_field_definitions [py "4"; py ""; py "AMT,PS9(5)V9(2),,4,1"]
  = inr (4%Z, [AMT])
  ∧ get_digits_from_pic_type (FIELD_TYPE AMT) = (5, 2)%Z
  ∧ sign_nibble_of [x12; x34; x56; x7c] = Some 0x0C
  ∧ _convert_field self AMT [x12; x34; x56; x7c] = (py "12345.67", self).
Proof. repeat split; vm_compute; reflexivity. Qed.

(** ** Zoned-decimal scale insertion *)

(** C3, as stated, fails on the code: a field of type [9(5)V9(0)] holding
    the digits 12345 decodes to ["12345"], while the rule of the claim
    (length 5 exceeds 0, so a point goes in at position 5) gives
    ["12345."]. *)
Lemma C3_no_point_for_zero_scale :
  let field :=
    {| FIELD_NAME := py "QTY"; FIELD_TYPE := py "9(5)V9(0)";
       FIELD_NUM_ATTRIBUTE := None; FIELD_LENGTH := 5; FIELD_OFFSET := 0 |} in
  let field_data := [xf1; xf2; xf3; xf4; xf5] in
  convert_ebcdic_to_string field_data cp500 = py "12345"
  ∧ (@get_digits_from_pic_type ascii_only (FIELD_TYPE field)).2 = 0%Z
  ∧ fst (@_convert_field ascii_only plain_converter field field_data) = py "12345"
  ∧ zoned_rule_as_specified (py "12345") 0 = py "12345."
  ∧ fst (@_convert_field ascii_only plain_converter field field_data)
    ≠ zoned_rule_as_specified (py "12345") 0.
Proof. repeat split; try reflexivity. vm_compute. discriminate. Qed.

(** C3 (amended): for a field of type [9(m)V9(n)], with [digits] the
    string decoded as for [X] and [decimal_digits] the number [n]: the
    result is [""] when [digits] is empty; it is [digits] unchanged when
    [decimal_digits] is 0; it is ["0."], then [decimal_digits - length]
    zeros, then [digits] when the length is at most [decimal_digits]; and
    otherwise it is [digits] with a decimal point at
    [length - decimal_digits].  No error is counted.  So the digits 123
    with five decimal digits give ["0.00123"] and 12345 with two give
    ["123.45"]. *)
Theorem C3_zoned_scale_insertion `{UnicodeDB} (self : BinaryToDatConverter)
    (field_def : field_def) (field_data : bytes) (m n : pystr) :
  ascii_digits m →
  ascii_digits n →
  FIELD_TYPE field_def = py "9(" ++ m ++ py ")V9(" ++ n ++ py ")" →
  let digits := convert_ebcdic_to_string field_data (ebcdic_encoding self) in
  let decimal_digits := decimal_value n in
  get_digits_from_pic_type (FIELD_TYPE field_def) = (decimal_value m, decimal_digits)
  ∧ _convert_field self field_def field_data
    = (if is_empty digits then []
       else if (decimal_digits =? 0)%Z then digits
       else if (py_len digits <=? decimal_digits)%Z then
         py "0." ++ py_repeat 0x30 (decimal_digits - py_len digits) ++ digits
       else
         py_prefix (py_len digits - decimal_digits) digits ++ py "."
           ++ py_suffix (py_len digits - decimal_digits) digits,
       self)
  ∧ convert_ebcdic_zoned_decimal [xf1; xf2; xf3] 5 cp500 = py "0.00123"
  ∧ convert_ebcdic_zoned_decimal [xf1; xf2; xf3; xf4; xf5] 2 cp500 = py "123.45".
Proof.
  intros Hm Hn Htype digits decimal_digits.
  assert (Hshape : FIELD_TYPE field_def
    = [] ++ py "9" ++ py "(" ++ m ++ py ")" ++ py "V9" ++ py "(" ++ n ++ py ")").
  { rewrite Htype. py_literals. reflexivity. }
  assert (Hdigits : get_digits_from_pic_type (FIELD_TYPE field_def)
                    = (decimal_value m, decimal_digits)).
  { rewrite Hshape. by apply get_digits_both_counts. }
  split; [done |]. split; [| split; reflexivity].
  rewrite convert_field_zoned.
  - rewrite Hdigits, convert_ebcdic_zoned_decimal_cases. cbn [snd].
    fold digits decimal_digits. unfold zoned_rule_as_specified.
    destruct (is_empty digits); [done |].
    assert (0 <= decimal_digits)%Z by (unfold decimal_digits, decimal_value; lia).
    destruct (Z.leb_spec decimal_digits 0), (Z.eqb_spec decimal_digits 0); try lia; done.
  - by rewrite Htype.
  - rewrite Hshape. cbn [app].
    replace (py "9" ++ py "(" ++ m ++ py ")" ++ py "V9" ++ py "(" ++ n ++ py ")")
      with ((py "9" ++ py "(" ++ m ++ py ")") ++ py "V9" ++ (py "(" ++ n ++ py ")"))
      by (by rewrite <- !app_assoc).
    apply py_in_app.
Qed.

Lemma C3_zoned_scale_insertion_witness :
  @_convert_field ascii_only plain_converter
    {| FIELD_NAME := py "PRICE"; FIELD_TYPE := py "9(3)V9(2)";
       FIELD_NUM_ATTRIBUTE := None; FIELD_LENGTH := 5; FIELD_OFFSET := 0 |}
    [xf1; xf2; xf3; xf4; xf5]
  = (py "123.45", plain_converter).
Proof.
  apply (@C3_zoned_scale_insertion ascii_only plain_converter
           {| FIELD_NAME := py "PRICE"; FIELD_TYPE := py "9(3)V9(2)";
              FIELD_NUM_ATTRIBUTE := None; FIELD_LENGTH := 5; FIELD_OFFSET := 0 |}
           [xf1; xf2; xf3; xf4; xf5] (py "3") (py "2")).
  - split; [done |]. vm_compute. repeat constructor; discriminate.
  - split; [done |]. vm_compute. repeat constructor; discriminate.
  - reflexivity.
Defined.

(** ** Failure of schema parsing *)

(** C4, as stated, fails on the code: parsing fails for a schema none of
    whose lines describes a field, although no field's end exceeds the
    record length. *)
Lemma C4_failure_without_overrun :
  @parse_cpy_field_definitions ascii_only [py "10"; py ""; py "no field here"]
  = inl NoValidFields
  ∧ ¬ @overrun ascii_only 10 [py "no field here"].
Proof.
  split; [reflexivity |].
  intros (k & line & byte_length & Hk & Hlen & _).
  destruct k as [| k]; simpl in Hk; [| by rewrite lookup_nil in Hk].
  injection Hk as <-. vm_compute in Hlen. discriminate.
Qed.

(** C4 (amended): schema parsing fails if and only if the input has fewer
    than three lines, or its first line is not a positive integer, or some
    field's computed end (running offset plus byte length) exceeds the
    record length, or no field line is accepted.  A field whose end exceeds
    the record length aborts parsing of the whole schema with the
    field-exceeds-record error.  For every schema that parses, no field's
    end exceeds the record length: the byte lengths of the fields sum to at
    most the record length and each field lies inside the record. *)
Theorem C4_schema_parsing `{UnicodeDB} (cpy_lines : list pystr) :
  (fails (parse_cpy_field_definitions cpy_lines)
   ↔ (length cpy_lines < 3)%nat
     ∨ record_length_of cpy_lines = None
     ∨ ∃ record_length,
         record_length_of cpy_lines = Some record_length
         ∧ (overrun record_length (drop 2 cpy_lines)
            ∨ omap accepted_length (drop 2 cpy_lines) = []))
  ∧ (∀ record_length,
       (3 <= length cpy_lines)%nat →
       record_length_of cpy_lines = Some record_length →
       overrun record_length (drop 2 cpy_lines) →
       ∃ j field_name field_end,
         parse_cpy_field_definitions cpy_lines
         = inl (FieldExceedsRecord j field_name field_end record_length))
  ∧ (∀ record_length field_definitions,
       parse_cpy_field_definitions cpy_lines = inr (record_length, field_definitions) →
       ¬ overrun record_length (drop 2 cpy_lines)
       ∧ (sum_Z (FIELD_LENGTH <$> field_definitions) <= record_length)%Z
       ∧ Forall (λ fd, (0 <= FIELD_OFFSET fd)%Z
                       ∧ (0 < FIELD_LENGTH fd)%Z
                       ∧ (FIELD_OFFSET fd + FIELD_LENGTH fd <= record_length)%Z)
           field_definitions).
Proof.
  assert (Habort : ∀ record_length,
    (3 <= length cpy_lines)%nat →
    record_length_of cpy_lines = Some record_length →
    overrun record_length (drop 2 cpy_lines) →
    ∃ j field_name field_end,
      parse_cpy_field_definitions cpy_lines
      = inl (FieldExceedsRecord j field_name field_end record_length)).
  { intros rl Hlen Hrl Hover.
    destruct (parse_cpy_fields _ _ Hlen Hrl) as [-> _].
    destruct (parse_field_lines_overrun rl (drop 2 cpy_lines) 3 [] 0)
      as (j & name & e & ->); [| by eauto].
    by replace (rl - 0)%Z with rl by lia. }
  split; [| split; [exact Habort |]].
  - split.
    + intros Hfail.
      destruct (decide (length cpy_lines < 3)%nat) as [Hshort | Hlen]; [by left |].
      right. destruct (record_length_of cpy_lines) as [rl |] eqn:Hrl; [| by left].
      right. exists rl. split; [done |].
      destruct (parse_cpy_fields cpy_lines rl) as [Hparse _]; [lia | done |].
      rewrite Hparse in Hfail.
      pose proof (parse_field_lines_result rl (drop 2 cpy_lines) 3 [] 0) as Hres.
      destruct (parse_field_lines _ _ _ _ _) as [e | [fds off]].
      * left. destruct Hres as [_ Hover]. by replace (rl - 0)%Z with rl in Hover by lia.
      * right. destruct Hres as (new & -> & Hlens & _).
        destruct new as [| fd new]; [| done]. by rewrite <- Hlens.
    + intros [Hshort | [Hbad | (rl & Hrl & Hcause)]].
      * by rewrite parse_cpy_short.
      * destruct (decide (length cpy_lines < 3)%nat) as [Hshort | Hlen];
          [by rewrite parse_cpy_short |].
        destruct (parse_cpy_bad_length cpy_lines) as [-> | [n ->]]; [lia | done | done..].
      * destruct (decide (length cpy_lines < 3)%nat) as [Hshort | Hlen];
          [by rewrite parse_cpy_short |].
        destruct Hcause as [Hover | Hnone].
        { destruct (Habort rl) as (j & name & e & ->); [lia | done | done | done]. }
        destruct (parse_cpy_fields cpy_lines rl) as [-> _]; [lia | done |].
        pose proof (parse_field_lines_result rl (drop 2 cpy_lines) 3 [] 0) as Hres.
        destruct (parse_field_lines _ _ _ _ _) as [e | [fds off]]; [done |].
        destruct Hres as (new & -> & Hlens & _). rewrite Hnone in Hlens.
        apply fmap_nil_inv in Hlens as ->. done.
  - intros rl fds Hparse.
    destruct (parse_cpy_success _ _ _ Hparse) as [Hlen Hrl].
    split.
    { intros Hover. destruct (Habort rl Hlen Hrl Hover) as (j & name & e & Heq).
      by rewrite Heq in Hparse. }
    destruct (parse_cpy_fields _ _ Hlen Hrl) as [Heq Hpos]. rewrite Heq in Hparse.
    pose proof (parse_field_lines_result rl (drop 2 cpy_lines) 3 [] 0) as Hres.
    destruct (parse_field_lines _ _ _ _ _) as [e | [fds' off]]; [done |].
    destruct (is_empty fds'); [done |]. injection Hparse as ->.
    destruct Hres as (new & Hnew & Hlens & -> & Hall & Hle). simpl in Hnew. subst new.
    split.
    + rewrite (sum_Z_lengths _ _ Hlens). specialize (Hle ltac:(lia)). lia.
    + eapply Forall_impl; [exact Hall |]. intros fd (? & ? & ?). cbv beta. lia.
Qed.

(** Two runs of the parser: a schema whose fields fill the record, and
    one whose second field ends at byte 11 of a record of 10. *)
Example parse_two_fields :
  @parse_cpy_field_definitions ascii_only
    [py "10"; py ""; py "CODE,x,,4,1"; py "QTY,9,,6,5"]
  = inr (10%Z,
         [{| FIELD_NAME := py "CODE"; FIELD_TYPE := py "X";
             FIELD_NUM_ATTRIBUTE := None; FIELD_LENGTH := 4; FIELD_OFFSET := 0 |};
          {| FIELD_NAME := py "QTY"; FIELD_TYPE := py "9";
             FIELD_NUM_ATTRIBUTE := None; FIELD_LENGTH := 6; FIELD_OFFSET := 4 |}]).
Proof. reflexivity. Qed.

Example parse_field_exceeds :
  @parse_cpy_field_definitions ascii_only
    [py "10"; py ""; py "CODE,X,,4,1"; py "QTY,9,,7,5"]
  = inl (FieldExceedsRecord 4 (py "QTY") 11 10).
Proof. reflexivity. Qed.

(** ** Isolation of field errors *)




(** ** Truncated records *)




(** ** Placeholders of the double-byte decoder *)



(** A run of the decoder: a mapped pair, a pair without a mapping, the
    marker pair (looked up as [A1A1] after the replacement) and a last
    byte on its own. *)
Example convert_jef_chars_run :
  @convert_jef_chars ascii_only [xc1; xc2; x00; x01; x42; x42; xff]
    (<[py "C1C2" := py "41"]> (<[py "A1A1" := py "3000"]> ∅))
  = Return [0x41; UNDEFINED_CHAR_REPLACEMENT; 0x3000; UNDEFINED_CHAR_REPLACEMENT].
Proof. by vm_compute. Qed.

(** ** Shape of the mapping table *)

(** C8, as stated, fails on the code: the line [41,3000] is stored, under
    a key of two hexadecimal digits. *)
Lemma C8_two_digit_key_stored :
  @load_conversion_map ascii_only (Some [py "41,3000"]) !! py "41" = Some (py "3000")
  ∧ length (py "41") ≠ 4%nat.
Proof. split; [by vm_compute | by vm_compute]. Qed.

(** C8 (amended): after loading the mapping file, every key and every
    value stored in the table is a non-empty string of upper-case
    hexadecimal digits (the length of a key is not checked); a line that is
    blank, is a comment or is malformed leaves the table as it was; a line
    that starts with [#] is a comment; so the table is the one loaded from
    the other lines alone. *)
Theorem C8_mapping_table_shape `{UnicodeDB} (file : option (list pystr))
    (key value : pystr) :
  load_conversion_map file !! key = Some value →
  (upper_hex_string key ∧ upper_hex_string value)
  ∧ (∀ (m : gmap pystr pystr) (line : pystr),
       passed_over line = true → load_conversion_line m line = m)
  ∧ (∀ line, py_startswith N.eqb (py "#") line = true → passed_over line = true)
  ∧ (∀ lines, file = Some lines →
       load_conversion_map file
       = load_conversion_map (Some (filter (λ line, passed_over line = false) lines))).
Proof.
  intros Hlookup. split; [| split; [| split]].
  - destruct file as [lines |]; simpl in Hlookup; [| done].
    by apply (load_conversion_lines_hex lines ∅ (map_Forall_empty _) key value).
  - apply load_conversion_line_passed_over.
  - intros line Hhash. unfold passed_over.
    by rewrite (comment_line_hash line Hhash), orb_true_r.
  - intros lines ->. simpl. by rewrite load_conversion_lines_filter.
Qed.

Lemma C8_mapping_table_shape_witness :
  upper_hex_string (py "4040") ∧ upper_hex_string (py "3000").
Proof.
  apply (@C8_mapping_table_shape ascii_only
           (Some [py "# JEF to Unicode"; py ""; py " 4040 , 3000 "; py "a1a1,3000"; py "zz,1"])
           (py "4040") (py "3000")).
  by vm_compute.
Defined.

(** ** Fewer than three lines *)

(** C9: an input of fewer than three lines is rejected with the
    insufficient-lines error, whatever its first line holds; the
    record-length line is not looked at. *)
Theorem C9_insufficient_lines `{UnicodeDB} (cpy_lines : list pystr) :
  (length cpy_lines < 3)%nat →
  parse_cpy_field_definitions cpy_lines = inl InsufficientLines.
Proof.
  intros Hlen. unfold parse_cpy_field_definitions, py_len.
  destruct (Z.ltb_spec (Z.of_nat (length cpy_lines)) 3); [done | lia].
Qed.

Lemma C9_insufficient_lines_witness :
  @parse_cpy_field_definitions ascii_only [py "10"; py "NAME,X,,10,1"]
  = inl InsufficientLines
  ∧ @parse_cpy_field_definitions ascii_only [py "ten"; py ""]
    = inl InsufficientLines.
Proof.
  split.
  - apply (@C9_insufficient_lines ascii_only [py "10"; py "NAME,X,,10,1"]).
    simpl. lia.
  - apply (@C9_insufficient_lines ascii_only [py "ten"; py ""]). simpl. lia.
Defined.

(** ** Scale marker without a count *)



(** * Further properties of the code *)

(** ** Packed decimal *)

(** X1: the packed decoder returns no string exactly when the field is empty or
    one of its digit nibbles is above 9; the sign nibble never makes it
    fail. *)
Theorem X1_comp3_fails_exactly (comp3_bytes : bytes) (decimal_places : Z) :
  convert_comp3_bytes comp3_bytes decimal_places = None
  ↔ comp3_bytes = [] ∨ Exists (λ n, 9 < n) (digit_nibbles comp3_bytes).
Proof. apply convert_comp3_bytes_None. Qed.

(** X2: a valid packed field decoded as an integer (scale 0 or negative)
    gives a string that [int] reads back as the number its digit nibbles
    denote, negated when the sign nibble is [0xD]. *)
Theorem X2_comp3_integer_value `{UnicodeDB} (comp3_bytes : bytes) (decimal_places : Z) :
  comp3_bytes ≠ [] →
  Forall (λ n, n <= 9) (digit_nibbles comp3_bytes) →
  (decimal_places <= 0)%Z →
  ∃ value,
    convert_comp3_bytes comp3_bytes decimal_places = Some value
    ∧ py_int 10 value
      = Some (if minus_sign comp3_bytes then - packed_value comp3_bytes
              else packed_value comp3_bytes)%Z.
Proof.
  intros Hne Hvalid Hscale.
  destruct (convert_comp3_bytes_shape _ decimal_places Hne Hvalid)
    as (int_part & frac & -> & Hint & _ & Hlen & Hvalue & _).
  destruct frac; [| unfold py_len in Hlen; simpl in Hlen; lia].
  rewrite app_nil_r in Hvalue.
  replace (0 <? decimal_places)%Z with false by (symmetry; apply Z.ltb_ge; lia).
  rewrite app_nil_r. eexists. split; [done |].
  destruct (minus_sign comp3_bytes); cbn [andb].
  - destruct (Z.eqb_spec (packed_value comp3_bytes) 0) as [Hzero | Hnz]; cbn [negb app].
    + rewrite py_int_ascii_digits by done. rewrite Hvalue, Hzero. done.
    + change (py "-" ++ int_part) with (0x2D :: int_part).
      rewrite py_int_minus_digits by done. by rewrite Hvalue.
  - cbn [app]. rewrite py_int_ascii_digits by done. by rewrite Hvalue.
Qed.

Lemma X2_comp3_integer_value_witness :
  ∃ value,
    convert_comp3_bytes [x01; x23; x4d] (-1) = Some value
    ∧ @py_int ascii_only 10 value = Some (-1234)%Z.
Proof.
  apply (@X2_comp3_integer_value ascii_only [x01; x23; x4d] (-1)).
  - done.
  - vm_compute. repeat constructor; discriminate.
  - lia.
Defined.

(** X3: a valid packed field decoded with a positive scale gives an
    optional minus sign, integer digits, a point and exactly as many
    digits as the scale; without the point the digits denote the number of
    the digit nibbles; the integer part has a leading zero only when it is
    ["0"]; and the minus sign is there exactly when the sign nibble is
    [0xD] and the number is not zero. *)
Theorem X3_comp3_scaled_form (comp3_bytes : bytes) (decimal_places : Z) :
  comp3_bytes ≠ [] →
  Forall (λ n, n <= 9) (digit_nibbles comp3_bytes) →
  (0 < decimal_places)%Z →
  ∃ int_part frac,
    convert_comp3_bytes comp3_bytes decimal_places
    = Some ((if minus_sign comp3_bytes && negb (packed_value comp3_bytes =? 0)%Z
             then py "-" else [])
            ++ int_part ++ py "." ++ frac)
    ∧ ascii_digits int_part
    ∧ Forall (λ c, 0x30 <= c <= 0x39) frac
    ∧ py_len frac = decimal_places
    ∧ decimal_value (int_part ++ frac) = packed_value comp3_bytes
    ∧ (∀ c r, int_part = c :: r → c = 0x30 → r = []).
Proof.
  intros Hne Hvalid Hscale.
  destruct (convert_comp3_bytes_shape _ decimal_places Hne Hvalid)
    as (int_part & frac & Hsome & Hint & Hfrac & Hlen & Hvalue & Hhead).
  exists int_part, frac.
  replace (0 <? decimal_places)%Z with true in Hsome by (symmetry; apply Z.ltb_lt; lia).
  repeat split; try done; try apply Hint. lia.
Qed.

Lemma X3_comp3_scaled_form_witness :
  ∃ int_part frac,
    convert_comp3_bytes [x00; x12; x3d] 5
    = Some ((if minus_sign [x00; x12; x3d] && negb (packed_value [x00; x12; x3d] =? 0)%Z
             then py "-" else [])
            ++ int_part ++ py "." ++ frac)
    ∧ ascii_digits int_part
    ∧ Forall (λ c, 0x30 <= c <= 0x39) frac
    ∧ py_len frac = 5%Z
    ∧ decimal_value (int_part ++ frac) = packed_value [x00; x12; x3d]
    ∧ (∀ c r, int_part = c :: r → c = 0x30 → r = []).
Proof.
  apply (X3_comp3_scaled_form [x00; x12; x3d] 5).
  - done.
  - vm_compute. repeat constructor; discriminate.
  - lia.
Defined.

(** X4: every sign nibble other than [0xD] is read as positive: two
    fields with the same digit nibbles and sign nibbles other than [0xD]
    decode alike, whatever the two sign nibbles are. *)
Theorem X4_comp3_sign_other_than_D (b1 b2 : bytes) (decimal_places : Z) :
  digit_nibbles b1 = digit_nibbles b2 →
  minus_sign b1 = false →
  minus_sign b2 = false →
  convert_comp3_bytes b1 decimal_places = convert_comp3_bytes b2 decimal_places.
Proof.
  intros Hsame Hs1 Hs2.
  destruct (last b1) as [l1 |] eqn:Hl1, (last b2) as [l2 |] eqn:Hl2.
  - destruct (decide (Forall (λ n, n <= 9) (digit_nibbles b1))) as [Hvalid | Hbad].
    + rewrite (convert_comp3_bytes_valid b1 _ l1), (convert_comp3_bytes_valid b2 _ l2);
        [| done | by rewrite <- Hsame | done | done].
      rewrite (minus_sign_last _ l1) in Hs1 by done.
      rewrite (minus_sign_last _ l2) in Hs2 by done.
      by rewrite Hsame, Hs1, Hs2.
    + apply not_Forall_Exists in Hbad; [| apply _].
      assert (Hbad' : Exists (λ n, 9 < n) (digit_nibbles b1)).
      { eapply Exists_impl; [exact Hbad |]. cbv beta. unfold compose. lia. }
      rewrite !convert_comp3_bytes_invalid; [done | by rewrite <- Hsame | done].
  - unfold digit_nibbles in Hsame. rewrite Hl1, Hl2 in Hsame. by destruct (flat_map _ _).
  - unfold digit_nibbles in Hsame. rewrite Hl1, Hl2 in Hsame. by destruct (flat_map _ _).
  - unfold convert_comp3_bytes. by rewrite Hl1, Hl2.
Qed.

Lemma X4_comp3_sign_other_than_D_witness :
  convert_comp3_bytes [x12; x3c] 1 = convert_comp3_bytes [x12; x35] 1.
Proof.
  apply (X4_comp3_sign_other_than_D [x12; x3c] [x12; x35] 1); reflexivity.
Defined.

(** X5: a packed field whose type token has no [V9] is decoded as an
    integer: with valid digit nibbles the result is a string that [int]
    reads back as the number of the digit nibbles, negated under the sign
    nibble [0xD], and no error is counted. *)
Theorem X5_packed_integer_field `{UnicodeDB} (self : BinaryToDatConverter) (fd : field_def)
    (field_data : bytes) :
  is_packed_type (FIELD_TYPE fd) = true →
  py_in (py "V9") (FIELD_TYPE fd) = false →
  field_data ≠ [] →
  Forall (λ n, n <= 9) (digit_nibbles field_data) →
  ∃ value,
    _convert_field self fd field_data = (value, self)
    ∧ py_int 10 value
      = Some (if minus_sign field_data then - packed_value field_data
              else packed_value field_data)%Z.
Proof.
  intros Hpacked HV Hne Hvalid.
  rewrite convert_field_packed, comp3_scale_integer by done.
  destruct (convert_comp3_bytes_shape _ (-1) Hne Hvalid)
    as (int_part & frac & -> & Hint & _ & Hlen & Hvalue & _).
  destruct frac; [| unfold py_len in Hlen; simpl in Hlen; lia].
  rewrite app_nil_r in Hvalue. cbn [Z.ltb Z.compare]. rewrite app_nil_r.
  eexists. split; [done |].
  destruct (minus_sign field_data); cbn [andb].
  - destruct (Z.eqb_spec (packed_value field_data) 0) as [Hzero | Hnz]; cbn [negb app].
    + rewrite py_int_ascii_digits by done. rewrite Hvalue, Hzero. done.
    + change (py "-" ++ int_part) with (0x2D :: int_part).
      rewrite py_int_minus_digits by done. by rewrite Hvalue.
  - cbn [app]. rewrite py_int_ascii_digits by done. by rewrite Hvalue.
Qed.

Lemma X5_packed_integer_field_witness :
  ∃ value,
    @_convert_field ascii_only plain_converter
      {| FIELD_NAME := py "BAL"; FIELD_TYPE := py "S9(5)";
         FIELD_NUM_ATTRIBUTE := None; FIELD_LENGTH := 3; FIELD_OFFSET := 0 |}
      [x00; x12; x3d]
    = (value, plain_converter)
    ∧ @py_int ascii_only 10 value = Some (-123)%Z.
Proof.
  apply (@X5_packed_integer_field ascii_only plain_converter
           {| FIELD_NAME := py "BAL"; FIELD_TYPE := py "S9(5)";
              FIELD_NUM_ATTRIBUTE := None; FIELD_LENGTH := 3; FIELD_OFFSET := 0 |}
           [x00; x12; x3d]).
  - reflexivity.
  - reflexivity.
  - done.
  - vm_compute. repeat constructor; discriminate.
Defined.

(** ** Text and zoned decimal *)

(** X6: filler bytes do not show in a text field: NUL and EBCDIC space
    bytes in front of and after the content leave the decoded text as it
    is, and a NUL byte is dropped wherever it stands, under every codec. *)
Theorem X6_text_filler_dropped (pad1 content pad2 : bytes) :
  forallb is_filler pad1 = true →
  forallb is_filler pad2 = true →
  convert_ebcdic_to_string (pad1 ++ content ++ pad2) cp500
  = convert_ebcdic_to_string content cp500
  ∧ ∀ (enc : byte → option N) (b1 b2 : bytes),
      convert_ebcdic_to_string (b1 ++ x00 :: b2) enc = convert_ebcdic_to_string (b1 ++ b2) enc.
Proof.
  intros Hpad1 Hpad2. split.
  - unfold convert_ebcdic_to_string.
    rewrite !replace_null_app, !decode_ignore_app.
    rewrite py_strip_space_app by by apply cp500_filler.
    by rewrite py_strip_app_space by by apply cp500_filler.
  - intros enc b1 b2. unfold convert_ebcdic_to_string.
    by rewrite !replace_null_app, replace_null_cons.
Qed.

Lemma X6_text_filler_dropped_witness :
  convert_ebcdic_to_string ([x40; x00] ++ [xc1; x40; xc2] ++ [x00; x40; x40]) cp500
  = convert_ebcdic_to_string [xc1; x40; xc2] cp500.
Proof.
  apply (X6_text_filler_dropped [x40; x00] [xc1; x40; xc2] [x00; x40; x40]); reflexivity.
Defined.

(** X7: a field of type [9] never decodes to the empty string, has a
    leading zero only when it is ["0"], and counts no error; when the
    bytes are EBCDIC digits, [int] reads the result back as the number
    they denote. *)
Theorem X7_unsigned_zoned_integer `{UnicodeDB} (self : BinaryToDatConverter) (fd : field_def)
    (field_data : bytes) :
  FIELD_TYPE fd = py "9" →
  ∃ value,
    _convert_field self fd field_data = (value, self)
    ∧ value ≠ []
    ∧ (∀ c r, value = c :: r → c = 0x30 → r = [])
    ∧ (ebcdic_encoding self = cp500 → zoned_digits field_data →
       ascii_digits value ∧ py_int 10 value = Some (zoned_value field_data)).
Proof.
  intros Htype. unfold _convert_field. rewrite Htype. cbn [str_eqb].
  change (str_eqb (py "9") (py "X")) with false.
  change (str_eqb (py "9") (py "9")) with true. cbv iota.
  set (text := convert_ebcdic_to_string field_data (ebcdic_encoding self)).
  pose proof (lstrip_zero_canonical text) as Hhead.
  destruct (py_lstrip_zero text) as [| d digits] eqn:Hstrip; cbn [is_empty].
  - exists (py "0"). split; [done |]. split; [done |].
    split; [by intros c r [= <- <-] |].
    intros Henc Hdigits. split; [split; [done | by repeat constructor] |].
    rewrite py_int_ascii_digits by (split; [done | by repeat constructor]).
    unfold text in Hstrip. rewrite Henc, zoned_digits_text in Hstrip by done.
    destruct (zoned_digits_ascii _ Hdigits) as [_ <-].
    by rewrite <- (decimal_value_lstrip (_ <$> field_data)), Hstrip.
  - exists (d :: digits). split; [done |]. split; [done |].
    split. { intros c r [= <- <-] ->. by destruct (Hhead 0x30 digits eq_refl). }
    intros Henc Hdigits.
    unfold text in Hstrip. rewrite Henc, zoned_digits_text in Hstrip by done.
    destruct (zoned_digits_ascii _ Hdigits) as [Hascii <-].
    assert (Hvalue : ascii_digits (d :: digits)).
    { split; [done |]. rewrite <- Hstrip. by apply Forall_dropwhile. }
    split; [done |]. rewrite py_int_ascii_digits by done.
    by rewrite <- Hstrip, decimal_value_lstrip.
Qed.

Lemma X7_unsigned_zoned_integer_witness :
  ∃ value,
    @_convert_field ascii_only plain_converter
      {| FIELD_NAME := py "QTY"; FIELD_TYPE := py "9";
         FIELD_NUM_ATTRIBUTE := None; FIELD_LENGTH := 3; FIELD_OFFSET := 0 |}
      [xf0; xf4; xf2]
    = (value, plain_converter)
    ∧ @py_int ascii_only 10 value = Some 42%Z.
Proof.
  destruct (@X7_unsigned_zoned_integer ascii_only plain_converter
              {| FIELD_NAME := py "QTY"; FIELD_TYPE := py "9";
                 FIELD_NUM_ATTRIBUTE := None; FIELD_LENGTH := 3; FIELD_OFFSET := 0 |}
              [xf0; xf4; xf2] eq_refl)
    as (value & Hvalue & _ & _ & Hdigits).
  exists value. split; [exact Hvalue |].
  apply Hdigits; [reflexivity |].
  vm_compute. repeat constructor; discriminate.
Defined.

(** X8: a field whose type begins with [V9] decodes to ["0."] and the
    digits of the field without their leading zeros, or to ["0.0"] when
    none is left; the rest of the type token and the numeric attribute are
    not consulted, and no error is counted.  When the bytes are EBCDIC
    digits, the digits after the point denote the same integer as the
    field: the zeros between the point and the first other digit are
    lost. *)
Theorem X8_leading_scale_field `{UnicodeDB} (self : BinaryToDatConverter) (fd : field_def)
    (field_data : bytes) :
  py_startswith N.eqb (py "V9") (FIELD_TYPE fd) = true →
  ∃ digits,
    _convert_field self fd field_data = (py "0." ++ digits, self)
    ∧ digits ≠ []
    ∧ (∀ c r, digits = c :: r → c = 0x30 → r = [])
    ∧ (ebcdic_encoding self = cp500 → zoned_digits field_data →
       ascii_digits digits ∧ decimal_value digits = zoned_value field_data).
Proof.
  intros Htype. pose proof Htype as Hshape. revert Hshape. py_literals.
  intros (r1 & Hr1 & (r2 & -> & _)%startswith_cons)%startswith_cons.
  unfold _convert_field, str_eqb. rewrite Htype, Hr1.
  rewrite !bool_decide_eq_false_2 by done.
  py_literals. cbn [py_startswith N.eqb Pos.eqb andb].
  set (text := convert_ebcdic_to_string field_data (ebcdic_encoding self)).
  pose proof (lstrip_zero_canonical text) as Hhead.
  destruct (py_lstrip_zero text) as [| d digits] eqn:Hstrip; cbn [is_empty].
  - exists [0x30]. split; [done |]. split; [done |].
    split; [by intros c r [= <- <-] |].
    intros Henc Hdigits. split; [split; [done | by repeat constructor] |].
    unfold text in Hstrip. rewrite Henc, zoned_digits_text in Hstrip by done.
    destruct (zoned_digits_ascii _ Hdigits) as [_ <-].
    by rewrite <- (decimal_value_lstrip (_ <$> field_data)), Hstrip.
  - exists (d :: digits). split; [done |]. split; [done |].
    split. { intros c r [= <- <-] ->. by destruct (Hhead 0x30 digits eq_refl). }
    intros Henc Hdigits.
    unfold text in Hstrip. rewrite Henc, zoned_digits_text in Hstrip by done.
    destruct (zoned_digits_ascii _ Hdigits) as [Hascii <-].
    split; [split; [done |]; rewrite <- Hstrip; by apply Forall_dropwhile |].
    by rewrite <- Hstrip, decimal_value_lstrip.
Qed.

Lemma X8_leading_scale_field_witness :
  ∃ digits,
    @_convert_field ascii_only plain_converter
      {| FIELD_NAME := py "RATE"; FIELD_TYPE := py "V9(3)";
         FIELD_NUM_ATTRIBUTE := None; FIELD_LENGTH := 3; FIELD_OFFSET := 0 |}
      [xf0; xf0; xf5]
    = (py "0." ++ digits, plain_converter)
    ∧ decimal_value digits = 5%Z.
Proof.
  destruct (@X8_leading_scale_field ascii_only plain_converter
              {| FIELD_NAME := py "RATE"; FIELD_TYPE := py "V9(3)";
                 FIELD_NUM_ATTRIBUTE := None; FIELD_LENGTH := 3; FIELD_OFFSET := 0 |}
              [xf0; xf0; xf5] eq_refl)
    as (digits & Hvalue & _ & _ & Hdigits).
  exists digits. split; [exact Hvalue |].
  apply Hdigits; [reflexivity |].
  vm_compute. repeat constructor; discriminate.
Defined.

(** X9: a field of EBCDIC digits decoded as zoned decimal with a
    positive scale gives integer digits, a point and exactly as many
    digits as the scale; without the point the digits denote the number of
    the field; and when the field is longer than the scale they are the
    digits of the field, its leading zeros kept. *)
Theorem X9_zoned_scaled_form (field_data : bytes) (decimal_digits : Z) :
  field_data ≠ [] →
  zoned_digits field_data →
  (0 < decimal_digits)%Z →
  ∃ int_part frac,
    convert_ebcdic_zoned_decimal field_data decimal_digits cp500
    = int_part ++ py "." ++ frac
    ∧ ascii_digits int_part
    ∧ Forall (λ c, 0x30 <= c <= 0x39) frac
    ∧ py_len frac = decimal_digits
    ∧ decimal_value (int_part ++ frac) = zoned_value field_data
    ∧ ((decimal_digits < py_len field_data)%Z →
       int_part ++ frac = convert_ebcdic_to_string field_data cp500).
Proof.
  intros Hne Hdigits Hscale.
  rewrite convert_ebcdic_zoned_decimal_cases. cbv zeta.
  rewrite zoned_digits_text by done.
  destruct (zoned_digits_ascii _ Hdigits) as [Hascii Hvalue].
  set (digits := (λ b, Byte.to_N b - 0xC0) <$> field_data) in *.
  assert (Hlen : py_len digits = py_len field_data).
  { unfold py_len, digits. by rewrite length_fmap. }
  assert (Hdne : digits ≠ []).
  { unfold digits. by destruct field_data. }
  destruct (is_empty digits) eqn:Hempty; [by apply is_empty_nil in Hempty |].
  destruct (Z.leb_spec decimal_digits 0); [lia |].
  unfold zoned_rule_as_specified. rewrite Hempty.
  destruct (Z.leb_spec (py_len digits) decimal_digits) as [Hshort | Hlong].
  - exists (py "0"), (py_repeat 0x30 (decimal_digits - py_len digits) ++ digits).
    split; [done |].
    split; [split; [done | by repeat constructor] |].
    split. { apply Forall_app. split; [apply Forall_replicate; lia | done]. }
    split. { unfold py_len in *. rewrite length_app. unfold py_repeat.
             rewrite length_replicate. lia. }
    split; [| lia].
    change (py "0" ++ py_repeat 0x30 (decimal_digits - py_len digits) ++ digits)
      with (replicate (S (Z.to_nat (decimal_digits - py_len digits))) 0x30 ++ digits).
    by rewrite decimal_value_zeros.
  - exists (py_prefix (py_len digits - decimal_digits) digits),
           (py_suffix (py_len digits - decimal_digits) digits).
    unfold py_len, py_prefix, py_suffix in *.
    assert (Hk : ∃ k, Z.to_nat (Z.of_nat (length digits) - decimal_digits) = S k
                      ∧ (S k < length digits)%nat).
    { exists (Z.to_nat (Z.of_nat (length digits) - decimal_digits) - 1)%nat. lia. }
    destruct Hk as (k & Hkeq & Hk). rewrite Hkeq.
    split; [done |].
    split. { split; [by destruct digits | by apply Forall_take]. }
    split; [by apply Forall_drop |].
    split; [rewrite length_drop; lia |].
    by rewrite take_drop.
Qed.

Lemma X9_zoned_scaled_form_witness :
  ∃ int_part frac,
    convert_ebcdic_zoned_decimal [xf0; xf0; xf1; xf2; xf3] 2 cp500
    = int_part ++ py "." ++ frac
    ∧ ascii_digits int_part
    ∧ Forall (λ c, 0x30 <= c <= 0x39) frac
    ∧ py_len frac = 2%Z
    ∧ decimal_value (int_part ++ frac) = zoned_value [xf0; xf0; xf1; xf2; xf3]
    ∧ ((2 < py_len [xf0; xf0; xf1; xf2; xf3])%Z →
       int_part ++ frac = convert_ebcdic_to_string [xf0; xf0; xf1; xf2; xf3] cp500).
Proof.
  apply (X9_zoned_scaled_form [xf0; xf0; xf1; xf2; xf3] 2).
  - done.
  - vm_compute. repeat constructor; discriminate.
  - lia.
Defined.

(** ** Errors of a field *)

(** X10: decoding a field raises the error counter by one or not at all,
    and by one exactly when the type token is unsupported, or the field is
    packed and either is [PV9]/[PSV9] without a numeric attribute, or is
    empty, or has a digit nibble above 9, or the field is double-byte and
    one of its byte pairs (after the marker replacement) is mapped to a
    number that [chr] cannot take as a C [int].  Text and zoned fields
    never count an error. *)
Theorem X10_field_error_exactly `{UnicodeDB} (self : BinaryToDatConverter) (fd : field_def)
    (field_data : bytes) :
  (errors_counted self fd field_data = 1%Z
   ↔ supported_type (FIELD_TYPE fd) = false
     ∨ is_packed_type (FIELD_TYPE fd) = true
       ∧ (comp3_scale fd = None
          ∨ field_data = []
          ∨ Exists (λ n, 9 < n) (digit_nibbles field_data))
     ∨ FIELD_TYPE fd = py "N"
       ∧ Exists (λ pair, overflows (conversion_map self) pair = true)
           (byte_pairs (processed_bytes_of field_data)))
  ∧ (errors_counted self fd field_data = 0%Z ∨ errors_counted self fd field_data = 1%Z).
Proof.
  rewrite field_errors_cases.
  destruct (str_eqb (FIELD_TYPE fd) (py "N")) eqn:HN.
  { destruct (type_N_dispatch _ HN) as [Hsupported Hpacked].
    rewrite Hsupported, Hpacked. cbn [negb orb andb].
    apply bool_decide_eq_true in HN.
    destruct (existsb _ _) eqn:Hsome.
    - split; [| by right]. split; [| done]. intros _. right. right.
      split; [done |]. by apply existsb_Exists.
    - split; [| by left]. split; [done |].
      intros [? | [[? _] | [_ Hex%existsb_Exists]]]; congruence. }
  rewrite andb_false_l, orb_false_r. apply bool_decide_eq_false in HN.
  destruct (supported_type (FIELD_TYPE fd)); cbn [negb orb].
  2: { split; [| by right]. split; [by left | done]. }
  destruct (is_packed_type (FIELD_TYPE fd)); cbn [andb].
  2: { split; [| by left]. split; [done |]. by intros [? | [[? _] | [? _]]]. }
  case_bool_decide as Hscale; cbn [orb].
  { split; [| by right]. split; [| done]. intros _. right. left. by split; [| left]. }
  case_bool_decide as Hdata.
  - split; [| by right]. split; [| done]. intros _. right. left. by split; [| right].
  - split; [| by left]. split; [done |].
    intros [? | [[_ [? | ?]] | [? _]]]; done.
Qed.

(** ** The picture analyser *)

(** X11: the picture analyser on the forms its comment names.  A token
    of [P], [S] and [V] markers followed by [9(m)] has [m] integer digits
    and no decimal digits (so [V9(3)] has three integer digits); followed
    by [9(m)V9(n)] it has [m] integer and [n] decimal digits. *)
Theorem X11_analyser_counts `{UnicodeDB} (markers m n : pystr) :
  forallb is_PSV markers = true →
  ascii_digits m →
  ascii_digits n →
  get_digits_from_pic_type (markers ++ py "9(" ++ m ++ py ")") = (decimal_value m, 0%Z)
  ∧ get_digits_from_pic_type (markers ++ py "9(" ++ m ++ py ")V9(" ++ n ++ py ")")
    = (decimal_value m, decimal_value n).
Proof.
  intros Hmarkers Hm Hn. split.
  - rewrite <- (get_digits_integer_count markers m) by done. reflexivity.
  - rewrite <- (get_digits_both_counts markers m n) by done. reflexivity.
Qed.

Lemma X11_analyser_counts_witness :
  @get_digits_from_pic_type ascii_only (py "V" ++ py "9(" ++ py "3" ++ py ")") = (3, 0)%Z
  ∧ @get_digits_from_pic_type ascii_only
      (py "V" ++ py "9(" ++ py "3" ++ py ")V9(" ++ py "2" ++ py ")")
    = (3, 2)%Z.
Proof.
  apply (@X11_analyser_counts ascii_only (py "V") (py "3") (py "2")).
  - reflexivity.
  - split; [done |]. vm_compute. repeat constructor; discriminate.
  - split; [done |]. vm_compute. repeat constructor; discriminate.
Defined.

(** X12: the picture analyser never returns a negative count, so the
    zoned-decimal decoder is never given a negative scale by the field
    decoder; and a token without the character [9] has no digits at
    all. *)
Theorem X12_analyser_never_negative `{UnicodeDB} (pic_type_str : pystr) :
  ((0 <= (get_digits_from_pic_type pic_type_str).1)%Z
   ∧ (0 <= (get_digits_from_pic_type pic_type_str).2)%Z)
  ∧ (0x39 ∉ pic_type_str → get_digits_from_pic_type pic_type_str = (0, 0)%Z).
Proof. split; [apply get_digits_nonneg | apply get_digits_no_nine]. Qed.

(** ** Field lines and the layout of a schema *)

(** X13: in a schema that parses there is at least one field, every field
    has a positive length and begins where the field before it ends (the
    first at 0), and the fields end within the record; so the byte slices
    that the record loop cuts for the fields of a complete record are,
    one after the other, the first bytes of the record, none left out and
    none used twice. *)
Theorem X13_schema_fields_tile `{UnicodeDB} (cpy_lines : list pystr) (record_length : Z)
    (fds : list field_def) :
  parse_cpy_field_definitions cpy_lines = inr (record_length, fds) →
  fds ≠ []
  ∧ (∀ (i : nat) fd,
       fds !! i = Some fd →
       FIELD_OFFSET fd = sum_Z (FIELD_LENGTH <$> take i fds) ∧ (0 < FIELD_LENGTH fd)%Z)
  ∧ (sum_Z (FIELD_LENGTH <$> fds) <= record_length)%Z
  ∧ (∀ record_bytes : bytes,
       py_len record_bytes = record_length →
       concat (field_data_of record_bytes <$> fds)
       = take (Z.to_nat (sum_Z (FIELD_LENGTH <$> fds))) record_bytes).
Proof.
  unfold parse_cpy_field_definitions.
  destruct (py_len cpy_lines <? 3)%Z; [done |].
  destruct (py_int 10 _) as [n |]; [| done].
  destruct (Z.leb_spec n 0); [done |].
  destruct (parse_field_lines _ _ _ _ _) as [e | [fds' off']] eqn:Hloop; [done |].
  destruct (is_empty fds') eqn:Hempty; [done |]. intros [= -> ->].
  apply parse_field_lines_contiguous in Hloop as (new & Hnew & Hcont & -> & Hle).
  rewrite app_nil_l in Hnew. subst new. rewrite Z.add_0_l in Hle.
  split; [by destruct fds |].
  split. { intros i fd Hi. destruct (contiguous_lookup _ _ _ _ Hcont Hi) as [-> ?].
           split; [lia | done]. }
  split; [lia |]. intros record_bytes Hlen. unfold py_len in Hlen.
  rewrite (contiguous_tiles record_bytes fds 0%Z) by (done || lia). done.
Qed.

Lemma X13_schema_fields_tile_witness :
  concat (field_data_of [xc1; xc2; xc3; xf0; xf0; xf0; xf4; xf2]
            <$> [ {| FIELD_NAME := py "A"; FIELD_TYPE := py "X";
                     FIELD_NUM_ATTRIBUTE := None; FIELD_LENGTH := 3; FIELD_OFFSET := 0 |};
                  {| FIELD_NAME := py "B"; FIELD_TYPE := py "9";
                     FIELD_NUM_ATTRIBUTE := None; FIELD_LENGTH := 5; FIELD_OFFSET := 3 |} ])
  = [xc1; xc2; xc3; xf0; xf0; xf0; xf4; xf2].
Proof.
  destruct (@X13_schema_fields_tile ascii_only
              [py "8"; py ""; py "A,X,,3,1"; py "B,9,,5,4"] 8
              [ {| FIELD_NAME := py "A"; FIELD_TYPE := py "X";
                   FIELD_NUM_ATTRIBUTE := None; FIELD_LENGTH := 3; FIELD_OFFSET := 0 |};
                {| FIELD_NAME := py "B"; FIELD_TYPE := py "9";
                   FIELD_NUM_ATTRIBUTE := None; FIELD_LENGTH := 5; FIELD_OFFSET := 3 |} ]
              eq_refl) as (_ & _ & _ & Htile).
  apply (Htile [xc1; xc2; xc3; xf0; xf0; xf0; xf4; xf2] eq_refl).
Defined.

(** X14: a field line that does not split into exactly five parts at the
    commas is skipped.  This holds for a line of four parts whose third
    part is blank as well: the empty attribute is put in before that blank
    part, which then stands where the byte length is read. *)
Theorem X14_field_line_needs_five_parts `{UnicodeDB} (i : Z) (line : pystr)
    (record_length current_offset : Z) :
  length (py_split CSV_DELIMITER line) ≠ 5%nat →
  parse_field_line i line record_length current_offset = Skip.
Proof.
  intros Hparts. unfold parse_field_line, field_parts.
  destruct (py_split CSV_DELIMITER line)
    as [| p0 [| p1 [| p2 [| p3 [| p4 [| p5 ps]]]]]]; try done.
  destruct (is_empty (py_strip p2)) eqn:Hblank; [| done].
  apply is_empty_nil in Hblank. cbn [app]. rewrite Hblank. by rewrite py_int_empty.
Qed.

Lemma X14_field_line_needs_five_parts_witness :
  @parse_field_line ascii_only 3 (py "NAME,X,,10") 10 0 = Skip.
Proof.
  apply (@X14_field_line_needs_five_parts ascii_only 3 (py "NAME,X,,10") 10 0).
  vm_compute. discriminate.
Defined.

(** X15: the offset a field line declares is only required to be an
    integer; its value has no effect on the parsed field, which is placed
    at the running offset. *)
Theorem X15_declared_offset_ignored `{UnicodeDB} (i : Z) (line other : pystr)
    (record_length current_offset : Z) (p0 p1 p2 p3 p4 q4 : pystr) :
  py_split CSV_DELIMITER line = [p0; p1; p2; p3; p4] →
  py_split CSV_DELIMITER other = [p0; p1; p2; p3; q4] →
  is_Some (py_int 10 (py_strip p4)) →
  is_Some (py_int 10 (py_strip q4)) →
  parse_field_line i line record_length current_offset
  = parse_field_line i other record_length current_offset.
Proof.
  intros Hline Hother [n Hn] [m Hm]. unfold parse_field_line, field_parts.
  by rewrite Hline, Hother, Hn, Hm.
Qed.

Lemma X15_declared_offset_ignored_witness :
  @parse_field_line ascii_only 3 (py "NAME,X,,10,1") 10 0
  = @parse_field_line ascii_only 3 (py "NAME,X,,10,77") 10 0.
Proof.
  apply (@X15_declared_offset_ignored ascii_only 3 (py "NAME,X,,10,1") (py "NAME,X,,10,77") 10 0
           (py "NAME") (py "X") (py "") (py "10") (py "1") (py "77"));
    [reflexivity | reflexivity | by eexists | by eexists].
Defined.

(** ** The mapping table and the double-byte decoder *)

(** X16: of the lines of the mapping file that store an entry under one
    key, the last decides: the table gives the value of a storing line when
    no line after it stores under the same key; and a key under which no
    line stores is absent from the table. *)
Theorem X16_mapping_last_line_decides `{UnicodeDB} (before after : list pystr)
    (line key value : pystr) :
  stored_entry line = Some (key, value) →
  Forall (λ l, stored_key l ≠ Some key) after →
  load_conversion_map (Some (before ++ line :: after)) !! key = Some value
  ∧ (Forall (λ l, stored_key l ≠ Some key) before →
     load_conversion_map (Some (before ++ after)) !! key = None).
Proof.
  intros Hline Hafter. cbn [load_conversion_map]. split.
  - rewrite foldl_app. cbn [foldl]. apply load_conversion_lines_last; [| done].
    rewrite load_conversion_line_entry, Hline. apply lookup_insert_eq.
  - intros Hbefore. apply load_conversion_lines_absent; [done |].
    apply Forall_app. by split.
Qed.

Lemma X16_mapping_last_line_decides_witness :
  @load_conversion_map ascii_only
    (Some ([py "4040,3000"] ++ py " 4040 , 3001 " :: [py "# 4040,3002"; py "4141,0041"]))
    !! py "4040"
  = Some (py "3001").
Proof.
  apply (@X16_mapping_last_line_decides ascii_only
           [py "4040,3000"] [py "# 4040,3002"; py "4141,0041"]
           (py " 4040 , 3001 ") (py "4040") (py "3001")).
  - reflexivity.
  - repeat constructor; vm_compute; discriminate.
Defined.

(** X17: for a byte pair whose key the loaded table holds, the stored
    value is always readable as a hexadecimal number, and the pair decodes
    by that number: to the character with that code point when it is below
    [0x110000], to the placeholder from there up to [0x7FFFFFFF], where
    [chr] raises [ValueError], and from [0x80000000] on, where [chr] raises
    [OverflowError], the pair raises that exception. *)
Theorem X17_mapped_pair_decodes `{UnicodeDB} (file : option (list pystr))
    (b1 b2 : byte) (value : pystr) :
  load_conversion_map file !! pair_key b1 b2 = Some value →
  py_int 16 value = Some (hex_number value)
  ∧ jef_pair (load_conversion_map file) b1 b2
    = match py_chr (hex_number value) with
      | chr_is c => Return c
      | chr_ValueError => Return UNDEFINED_CHAR_REPLACEMENT
      | chr_OverflowError => Raise chr_overflow_message
      end
  ∧ ((hex_number value < 0x110000)%Z →
     jef_pair (load_conversion_map file) b1 b2 = Return (Z.to_N (hex_number value)))
  ∧ ((0x110000 <= hex_number value < 0x80000000)%Z →
     jef_pair (load_conversion_map file) b1 b2 = Return UNDEFINED_CHAR_REPLACEMENT)
  ∧ ((0x80000000 <= hex_number value)%Z ↔
     jef_pair (load_conversion_map file) b1 b2 = Raise chr_overflow_message).
Proof.
  intros Hlookup.
  assert (Hvalue : upper_hex_string value).
  { destruct file as [lines |]; cbn [load_conversion_map] in Hlookup; [| done].
    by apply (load_conversion_lines_hex lines ∅ (map_Forall_empty _)
                (pair_key b1 b2) value). }
  assert (Hpos : (0 <= hex_number value)%Z) by (unfold hex_number; lia).
  split; [by apply py_int_upper_hex |].
  rewrite (jef_pair_mapped _ _ _ value) by done.
  split; [done |]. unfold py_chr.
  destruct ((0 <=? hex_number value) && (hex_number value <? 0x110000))%Z eqn:Hrange.
  { split_and!; [done | lia |]. split; [lia | done]. }
  destruct ((-0x80000000 <=? hex_number value) && (hex_number value <? 0x80000000))%Z
    eqn:Hint.
  - split_and!; [lia | done |]. split; [lia | done].
  - split_and!; [lia | lia |]. split; [done | lia].
Qed.

Lemma X17_mapped_pair_decodes_witness :
  @py_int ascii_only 16 (py "3042") = Some 0x3042%Z
  ∧ @jef_pair ascii_only (@load_conversion_map ascii_only (Some [py "a4a2,3042"])) xa4 xa2
    = Return 0x3042.
Proof.
  destruct (@X17_mapped_pair_decodes ascii_only (Some [py "a4a2,3042"]) xa4 xa2 (py "3042")
              eq_refl) as (Hint & Hpair & _).
  split; [exact Hint | exact Hpair].
Defined.

(** X18: from a mapping line to the decoded character: when the last line
    of the mapping file is [KEY,DST], with [KEY] the four-digit key of a
    byte pair and [DST] upper-case hexadecimal digits, the pair decodes to
    the character with code point [DST], whatever the lines before. *)
Theorem X18_mapping_line_round_trip `{UnicodeDB} (lines : list pystr) (b1 b2 : byte)
    (dst : pystr) (c : N) :
  upper_hex_string dst →
  py_chr (hex_number dst) = chr_is c →
  jef_pair (load_conversion_map (Some (lines ++ [pair_key b1 b2 ++ CSV_DELIMITER :: dst])))
    b1 b2
  = Return c.
Proof.
  intros Hdst Hchr.
  assert (Hlookup : load_conversion_map
                      (Some (lines ++ [pair_key b1 b2 ++ CSV_DELIMITER :: dst]))
                      !! pair_key b1 b2 = Some dst).
  { cbn [load_conversion_map]. rewrite foldl_app. cbn [foldl].
    rewrite load_conversion_line_entry, stored_entry_hex by (done || apply pair_key_hex).
    apply lookup_insert_eq. }
  rewrite (jef_pair_mapped _ _ _ dst) by done. by rewrite Hchr.
Qed.

Lemma X18_mapping_line_round_trip_witness :
  @jef_pair ascii_only
    (@load_conversion_map ascii_only
       (Some ([py "A4A2,0041"] ++ [pair_key xa4 xa2 ++ CSV_DELIMITER :: py "3042"])))
    xa4 xa2
  = Return 0x3042.
Proof.
  apply (@X18_mapping_line_round_trip ascii_only [py "A4A2,0041"] xa4 xa2 (py "3042") 0x3042).
  - split; [done |]. vm_compute. repeat constructor; discriminate.
  - reflexivity.
Defined.

(** X19: the marker replacement keeps the length of the field, so the
    double-byte decoder, when it returns, has produced before its final
    trimming one glyph for every two bytes of the field as it was read, an
    odd last byte included, and the decoded string is never longer than
    that; it returns exactly when no byte pair is mapped to a number that
    [chr] cannot take as a C [int], and raises otherwise. *)
Theorem X19_glyphs_per_field `{UnicodeDB} (jef_bytes : bytes)
    (conversion_map : gmap (list N) (list N)) :
  let processed_bytes :=
    bytes_replace JEF_AT_MARK_PAIR_BYTES FULL_WIDTH_SPACE_EUC_JP jef_bytes in
  length processed_bytes = length jef_bytes
  ∧ (∀ text,
       convert_jef_chars jef_bytes conversion_map = Return text →
       ∃ glyphs,
         jef_loop conversion_map processed_bytes [] = Return glyphs
         ∧ text = py_strip glyphs
         ∧ length glyphs = Nat.div2 (S (length jef_bytes))
         ∧ (length text <= Nat.div2 (S (length jef_bytes)))%nat)
  ∧ ((∃ text, convert_jef_chars jef_bytes conversion_map = Return text)
     ↔ Forall (λ pair, overflows conversion_map pair = false) (byte_pairs processed_bytes))
  ∧ (convert_jef_chars jef_bytes conversion_map = Raise chr_overflow_message
     ↔ Exists (λ pair, overflows conversion_map pair = true) (byte_pairs processed_bytes)).
Proof.
  intros processed_bytes.
  assert (Hlen : length processed_bytes = length jef_bytes) by apply marker_replace_length.
  pose proof (jef_loop_glyphs conversion_map processed_bytes []) as Hloop.
  rewrite app_nil_l in Hloop.
  unfold convert_jef_chars. fold processed_bytes.
  rewrite <- existsb_Forall, <- existsb_Exists.
  destruct (existsb (overflows conversion_map) (byte_pairs processed_bytes));
    rewrite Hloop; cbn [fmap raises_fmap raises_map].
  - split_and!; [done | done | | done]. split; [by intros [? ?] | done].
  - split_and!; [done | | | done].
    + intros text [= <-]. eexists. split; [done |]. split; [done |].
      assert (Hglyphs : length ((pair_glyph conversion_map <$> byte_pairs processed_bytes)
                                  ++ (if Nat.odd (length processed_bytes)
                                      then [UNDEFINED_CHAR_REPLACEMENT] else []))
                        = Nat.div2 (S (length jef_bytes))).
      { rewrite length_app, length_fmap, byte_pairs_length.
        rewrite div2_succ, Hlen. by destruct (Nat.odd (length jef_bytes)). }
      split; [done |]. rewrite <- Hglyphs. apply strip_length.
    + split; [done |]. intros _. by eexists.
Qed.

(** X20: the marker is replaced wherever it first occurs, whether or not
    it begins at an even position: after any bytes other than [0x42], the
    two marker bytes become [A1 A1], and the pairs are formed afterwards;
    behind an odd number of bytes the replaced bytes fall into two
    different pairs. *)
Theorem X20_marker_replaced_at_any_position `{UnicodeDB} (before rest : bytes)
    (conversion_map : gmap (list N) (list N)) :
  Forall (λ b, b ≠ x42) before →
  convert_jef_chars (before ++ JEF_AT_MARK_PAIR_BYTES ++ rest) conversion_map
  = py_strip
      <$> jef_loop conversion_map
            (before ++ FULL_WIDTH_SPACE_EUC_JP
               ++ bytes_replace JEF_AT_MARK_PAIR_BYTES FULL_WIDTH_SPACE_EUC_JP rest) [].
Proof.
  intros Hbefore. unfold convert_jef_chars. by rewrite marker_replace_prefix.
Qed.

Lemma X20_marker_replaced_at_any_position_witness :
  @convert_jef_chars ascii_only ([xc1] ++ JEF_AT_MARK_PAIR_BYTES ++ [xc2])
    (<[py "C1A1" := py "41"]> (<[py "A1C2" := py "42"]> (<[py "A1A1" := py "3000"]> ∅)))
  = Return (py "AB").
Proof.
  rewrite (@X20_marker_replaced_at_any_position ascii_only [xc1] [xc2]).
  - by vm_compute.
  - repeat constructor; discriminate.
Defined.

(** ** Output slots *)

(** X21: quoting loses nothing: two values with the same quoted slot are
    the same value, and a slot holds its two outer quote characters and
    two for every quote character of the value. *)
Theorem X21_quoting_reversible (value other : pystr) :
  (quoted value = quoted other → value = other)
  ∧ quote_count (quoted value) = (2 + 2 * quote_count value)%nat.
Proof.
  unfold quoted. split.
  - intros Heq. apply app_inv_head in Heq. apply app_inv_tail in Heq.
    by apply escape_inj.
  - rewrite !quote_count_app, escape_quote_count.
    change (quote_count CSV_QUOTECHAR) with 1%nat. lia.
Qed.

(** ** Files and the program *)


(** X23: the outcome of a file does not depend on the errors counted
    before it: when the schema parses, [process] gives the same return
    code, the same DAT file and the same final counter whatever the counter
    was at the start. *)
Theorem X23_process_counter_reset `{UnicodeDB} (self : BinaryToDatConverter)
    (bin_f : bytes) (lines : list pystr) (n : Z) :
  ¬ fails (parse_cpy_field_definitions (read_cpy_file lines)) →
  process (with_errors self n) (Some bin_f) (Some lines)
  = process self (Some bin_f) (Some lines).
Proof.
  intros Hparse.
  destruct (process_outcome self (Some bin_f) (Some lines)) as (result & Hrun & Hcases).
  destruct (parse_cpy_field_definitions (read_cpy_file lines))
    as [e | [record_length fds]]; [by destruct Hparse |].
  destruct Hcases as (_ & _ & _ & _ & Hother).
  by rewrite Hother, Hrun.
Qed.

Lemma X23_process_counter_reset_witness :
  @process ascii_only (with_errors plain_converter 7)
    (Some [xc1; xc2; xc3; xf0; xf0; xf0; xf4; xf2; xc1])
    (Some [py "8"; py ""; py "A,X,,3,1"; py "B,9,,5,4"])
  = @process ascii_only plain_converter
      (Some [xc1; xc2; xc3; xf0; xf0; xf0; xf4; xf2; xc1])
      (Some [py "8"; py ""; py "A,X,,3,1"; py "B,9,,5,4"]).
Proof.
  apply (@X23_process_counter_reset ascii_only plain_converter
           [xc1; xc2; xc3; xf0; xf0; xf0; xf4; xf2; xc1]
           [py "8"; py ""; py "A,X,,3,1"; py "B,9,,5,4"] 7).
  vm_compute. by intros [].
Defined.

(** X24: the program ends with one of three exit arguments: -4 exactly
    when the loaded conversion map is empty (no binary file is then
    looked at), 0 exactly when the map is not empty and every binary file
    converts without an error (so also when there is no binary file), and
    1 exactly when the map is not empty and some binary file does not. *)
Theorem X24_main_exit_status `{UnicodeDB} (cnv_file : option (list pystr))
    (binary_files : list (bytes * option (list pystr))) :
  ∃ code,
    main cnv_file binary_files = Some code
    ∧ (code = PROCESS_ERROR_GENERAL ↔ load_conversion_map cnv_file = ∅)
    ∧ (code = 0%Z
       ↔ load_conversion_map cnv_file ≠ ∅
         ∧ Forall (converts (load_conversion_map cnv_file)) binary_files)
    ∧ (code = 1%Z
       ↔ load_conversion_map cnv_file ≠ ∅
         ∧ ¬ Forall (converts (load_conversion_map cnv_file)) binary_files).
Proof.
  unfold main. case_bool_decide as Hmap.
  { exists PROCESS_ERROR_GENERAL. split; [done |].
    split_and!; split; try done; by intros [? _]. }
  destruct binary_files as [| file rest]; cbn [is_empty].
  { exists 0%Z. split; [done |]. split_and!; split; try done.
    intros [_ Hnot]. destruct Hnot. by constructor. }
  destruct (file_loop_counts (load_conversion_map cnv_file) (file :: rest) 0 0)
    as (successful & failed & -> & Hsum & Hs & Hf & Hall).
  eexists. split; [done |].
  destruct (Z.gtb_spec failed 0) as [Hpos | Hzero].
  - split_and!; split; try done.
    + intros [_ Hconv]. apply Hall in Hconv. lia.
    + intros _. split; [done |]. intros Hconv. apply Hall in Hconv. lia.
  - assert (failed = 0%Z) as -> by lia. split_and!; split; try done.
    + intros _. split; [done |]. by apply Hall.
    + intros [_ Hnot]. destruct Hnot. by apply Hall.
Qed.
